(** * The reader session controller of epubjs-reader

    A shallow embedding of the [Reader] class (settings store, location
    tracker, keyboard handler, bookmark lookup and identifier generator)
    together with the properties its specification states about it and
    further properties of the code.

    Conventions of the embedding.
    - A JavaScript value is a [value]; an object is a plain object, given
      by the finite map of its own enumerable properties, and inherits the
      members of [Object.prototype], whose names are listed by [inherited].
    - A string is a sequence of UTF-16 code units.  A code unit below 128 is
      one character of the Rocq string; a larger one is written on two or
      three characters, the way UTF-8 writes a code point below 65536, a
      surrogate like any other code unit.  The literals of the code, all of
      them ASCII, read as themselves.
    - A number is an integer among the doubles, an infinity or [NaN]: the
      numbers the code computes come from [parseInt] and from adding 2.
    - A method is a function in the monad [M]: it threads the reader and the
      parts of the browser it touches, and ends in [Ok] or in [Throw].  The
      error [Unmodelled] marks runs that leave the data model above; no
      statement below relies on it.
    - The digest [md5], [JSON.parse] and [JSON.stringify] are provided by the
      host and are parameters of the development; so is the presence of the
      non-standard [console.exception], a field of the reader. *)

From stdpp Require Import gmap strings list fin_maps pretty.
From Stdlib Require Import ZArith String Ascii.

Local Set Warnings "-register-all".
Local Open Scope string_scope.

(** ** Values *)

Inductive value : Type :=
  | VUndefined
  | VNull
  | VBool (b : bool)
  | VNum (n : Z)
  | VNaN
  | VInfinity (negative : bool)
  | VStr (s : string)
  | VArr (l : list value)
  | VObj (m : gmap string value).

Inductive error : Type :=
  | TypeError
  | URIError
  | SyntaxError
  | Unmodelled.

Inductive result (A : Type) : Type :=
  | Ok (a : A)
  | Throw (e : error).

Arguments Ok {A} a.
Arguments Throw {A} e.

(** [v === undefined] *)
Definition is_undefined (v : value) : bool :=
  match v with VUndefined => true | _ => false end.

(** ToBoolean *)
Definition truthy (v : value) : bool :=
  match v with
  | VUndefined | VNull | VNaN => false
  | VBool b => b
  | VNum n => negb (n =? 0)%Z
  | VStr s => negb (String.eqb s "")
  | VInfinity _ | VArr _ | VObj _ => true
  end.

(** [a || b] *)
Definition js_or (a b : value) : value := if truthy a then a else b.

(** The own property [k] of an object, [undefined] when it has none. *)
Definition get (m : gmap string value) (k : string) : value :=
  default VUndefined (m !! k).

(** The names of the members of [Object.prototype], which every object
    inherits: functions, and for [__proto__] an accessor of the prototype. *)
Definition inherited (k : string) : bool :=
  existsb (String.eqb k)
    [ "constructor"; "hasOwnProperty"; "isPrototypeOf"; "propertyIsEnumerable";
      "toLocaleString"; "toString"; "valueOf"; "__proto__";
      "__defineGetter__"; "__defineSetter__"; "__lookupGetter__";
      "__lookupSetter__" ].

(** [o[k] === void 0] on an object, for any name [k]: an own property is
    read before an inherited one, and no inherited member is [undefined]. *)
Definition reads_undefined (m : gmap string value) (k : string) : bool :=
  match m !! k with
  | Some v => is_undefined v
  | None => negb (inherited k)
  end.

(** [v.k] for a name [k] written in the code, none of which is a member of
    [Object.prototype], an index or [length]: reading a property of
    [undefined] or [null] throws, a primitive or an array has no such own
    property. *)
Definition get_field (v : value) (k : string) : result value :=
  match v with
  | VUndefined | VNull => Throw TypeError
  | VObj m => Ok (get m k)
  | _ => Ok VUndefined
  end.

(** [v.k = x] for a name [k] written in the code, none of which is
    [__proto__].  The module is strict-mode code; creating a property on an
    array, or on a primitive, is left out of the model. *)
Definition set_field (v : value) (k : string) (x : value) : result value :=
  match v with
  | VUndefined | VNull => Throw TypeError
  | VObj m => Ok (VObj (<[k := x]> m))
  | _ => Throw Unmodelled
  end.

(** [v[k] = x] for a name [k] computed at run time.  On an object without
    an own property [__proto__], assigning to that name calls the setter of
    [Object.prototype]: it ignores a primitive, and replaces the prototype
    by an object or by [null], which leaves the model.  Any other name, and
    [__proto__] when it is an own property, is an ordinary assignment. *)
Definition assign_field (v : value) (k : string) (x : value) : result value :=
  match v with
  | VObj m =>
      if String.eqb k "__proto__" && bool_decide (m !! k = None)
      then match x with
           | VNull | VArr _ | VObj _ => Throw Unmodelled
           | _ => Ok v
           end
      else set_field v k x
  | _ => set_field v k x
  end.

(** ** Numbers *)

(** The bound below which every integer is a double. *)
Definition max_safe_integer : Z := 9007199254740991.

(** The double nearest to an integer, ties going to the even significand of
    53 bits.  The result is at least 2^1024 in absolute value exactly when
    the integer rounds to an infinity. *)
Definition nearest_double (z : Z) : Z :=
  let a := Z.abs z in
  if (a <=? max_safe_integer)%Z then z
  else
    let ulp := (2 ^ (Z.log2 a - 52))%Z in
    let q := (a / ulp)%Z in
    let r := (a mod ulp)%Z in
    let q' :=
      if (2 * r <? ulp)%Z then q
      else if (ulp <? 2 * r)%Z then (q + 1)%Z
      else if Z.even q then q else (q + 1)%Z in
    (Z.sgn z * (q' * ulp))%Z.

(** The Number value of a mathematical integer. *)
Definition to_number (z : Z) : value :=
  let d := nearest_double z in
  if (Z.abs d <? 2 ^ 1024)%Z then VNum d else VInfinity (d <? 0)%Z.

(** Number to string on a positive integer double [a] beyond the safe
    integers: the text shows the [k] digits of [s], where [s × 10^(n-k)]
    reads back as [a] and has [n] digits, for the least such [k], and of
    two such [s] for the one nearer to [a], the even one when they are
    equally near.  Up to 21 digits they are followed by zeros, beyond that
    by an exponent. *)
Definition digit_count (a : Z) : Z := Z.of_nat (String.length (pretty a)).

Definition reads_back (a w : Z) : bool := (nearest_double w =? a)%Z.

Definition significand (a scale : Z) : option Z :=
  let lo := (a / scale)%Z in
  let hi := (lo + 1)%Z in
  let near_lo := (a - lo * scale)%Z in
  let near_hi := (hi * scale - a)%Z in
  match reads_back a (lo * scale), reads_back a (hi * scale) with
  | true, true =>
      if (near_lo <? near_hi)%Z then Some lo
      else if (near_hi <? near_lo)%Z then Some hi
      else if Z.even lo then Some lo else Some hi
  | true, false => Some lo
  | false, true => Some hi
  | false, false => None
  end.

(** [(s, k, n)], searched from [k] digits on; a significand that reaches
    [10^k] is the digit 1 of a text one digit longer. *)
Fixpoint shortest (more : nat) (k n a : Z) : Z * Z * Z :=
  match more with
  | O => (a, n, n)
  | S more' =>
      match significand a (10 ^ (n - k)) with
      | Some s => if (s <? 10 ^ k)%Z then (s, k, n) else (1, 1, n + 1)%Z
      | None => shortest more' (k + 1) n a
      end
  end.

Fixpoint zeros (n : nat) : string :=
  match n with
  | O => ""
  | S n' => String "0" (zeros n')
  end.

Definition double_text (a : Z) : string :=
  let '(s, k, n) := shortest 17 1 (digit_count a) a in
  if (n <=? 21)%Z then pretty s ++ zeros (Z.to_nat (n - k))
  else
    match pretty s with
    | String d EmptyString => String d ("e+" ++ pretty (n - 1)%Z)
    | String d more => String d ("." ++ more ++ "e+" ++ pretty (n - 1)%Z)
    | EmptyString => ""
    end.

(** Number to string on an integer double: all its digits up to the safe
    integers. *)
Definition integer_text (n : Z) : string :=
  if (Z.abs n <=? max_safe_integer)%Z then pretty n
  else if (n <? 0)%Z then "-" ++ double_text (- n)
  else double_text n.

(** [x + "%"] starts with the text of the number [x]. *)
Definition number_text (v : value) : result string :=
  match v with
  | VNaN => Ok "NaN"
  | VNum n => Ok (integer_text n)
  | VInfinity negative => Ok (if negative then "-Infinity" else "Infinity")
  | _ => Throw Unmodelled
  end.

(** ToString on the values that reach a string position in this file:
    storage keys, the position handed to [setLocation].  Arrays join their
    elements with a comma, [null] and [undefined] elements being empty. *)
Fixpoint to_string (v : value) : string :=
  match v with
  | VUndefined => "undefined"
  | VNull => "null"
  | VBool true => "true"
  | VBool false => "false"
  | VNum n => integer_text n
  | VNaN => "NaN"
  | VInfinity negative => if negative then "-Infinity" else "Infinity"
  | VStr s => s
  | VArr l =>
      String.concat ","
        (List.map (fun x => match x with
                            | VUndefined | VNull => ""
                            | _ => to_string x
                            end) l)
  | VObj _ => "[object Object]"
  end.

(** ** Strings *)

(** The number of characters on which the code unit that starts with the
    character [c] is written. *)
Definition unit_size (c : ascii) : nat :=
  let n := N_of_ascii c in
  if (n <? 192)%N then 1 else if (n <? 224)%N then 2 else 3.

(** The code unit [u], as it is written in a string. *)
Definition unit_text (u : N) : string :=
  if (u <? 128)%N then String (ascii_of_N u) ""
  else if (u <? 2048)%N then
    String (ascii_of_N (192 + u / 64))
      (String (ascii_of_N (128 + u mod 64)) "")
  else
    String (ascii_of_N (224 + u / 4096))
      (String (ascii_of_N (128 + (u / 64) mod 64))
         (String (ascii_of_N (128 + u mod 64)) "")).

(** The code units of a string, each as a string of one code unit. *)
Fixpoint units (s : string) : list string :=
  match s with
  | EmptyString => []
  | String c rest =>
      match unit_size c, rest with
      | 2, String c2 rest2 => String c (String c2 "") :: units rest2
      | 3, String c2 (String c3 rest3) =>
          String c (String c2 (String c3 "")) :: units rest3
      | 1, _ => String c "" :: units rest
      | _, _ => [s]
      end
  end.

(** The own enumerable properties a [for (prop in source)] loop visits:
    the properties of an object, the indices of an array or of a string,
    nothing for the other primitives. *)
Definition indexed (l : list value) : gmap string value :=
  list_to_map (imap (fun i x => (pretty i, x)) l).

Definition own_props (v : value) : gmap string value :=
  match v with
  | VObj m => m
  | VArr l => indexed l
  | VStr s => indexed (List.map VStr (units s))
  | _ => ∅
  end.

(** [s.split(sep)] for a one-character separator: never empty. *)
Fixpoint split_on (sep : ascii) (s : string) : list string :=
  match s with
  | EmptyString => [""]
  | String c rest =>
      if Ascii.eqb c sep then "" :: split_on sep rest
      else match split_on sep rest with
           | piece :: pieces => String c piece :: pieces
           | [] => [String c ""]
           end
  end.

Fixpoint skip (n : nat) (s : string) : string :=
  match n, s with
  | S n', String _ rest => skip n' rest
  | _, _ => s
  end.

(** [s.slice(1)]: the string without its first code unit. *)
Definition slice_from_1 (s : string) : string :=
  match s with
  | EmptyString => ""
  | String c rest => skip (unit_size c - 1) rest
  end.

(** [s.slice(0, -1)]: the string without its last code unit, the one
    that leaves fewer characters after its first than it is written on. *)
Fixpoint slice_to_last (s : string) : string :=
  match s with
  | EmptyString => ""
  | String c rest =>
      if (String.length rest <? unit_size c)%nat then ""
      else String c (slice_to_last rest)
  end.

(** ** Host functions on strings *)

Definition hex_value (c : ascii) : option N :=
  let n := N_of_ascii c in
  if (48 <=? n)%N && (n <=? 57)%N then Some (n - 48)%N
  else if (65 <=? n)%N && (n <=? 70)%N then Some (n - 55)%N
  else if (97 <=? n)%N && (n <=? 102)%N then Some (n - 87)%N
  else None.

Definition hex_byte (h l : ascii) : option N :=
  match hex_value h, hex_value l with
  | Some a, Some b => Some (16 * a + b)%N
  | _, _ => None
  end.

Definition prepend (c : ascii) (r : result string) : result string :=
  match r with
  | Ok s => Ok (String c s)
  | Throw e => Throw e
  end.

Definition prepend_text (t : string) (r : result string) : result string :=
  match r with
  | Ok s => Ok (t ++ s)
  | Throw e => Throw e
  end.

(** The octet written as an escape at the head of a string, and the
    octets of [k] escapes in a row. *)
Definition escape (s : string) : option N :=
  match s with
  | String p (String h (String l _)) =>
      if Ascii.eqb p "%" then hex_byte h l else None
  | _ => None
  end.

Fixpoint escapes (k : nat) (s : string) : option (list N) :=
  match k with
  | O => Some []
  | S k' =>
      match escape s, escapes k' (skip 3 s) with
      | Some b, Some bs => Some (b :: bs)
      | _, _ => None
      end
  end.

(** The number of octets a lead octet announces: the number of its leading
    one bits, which must be 2, 3 or 4. *)
Definition sequence_length (b : N) : option nat :=
  if (b <? 192)%N then None
  else if (b <? 224)%N then Some 2%nat
  else if (b <? 240)%N then Some 3%nat
  else if (b <? 248)%N then Some 4%nat
  else None.

Definition continuation (b : N) : bool := (128 <=? b)%N && (b <? 192)%N.

(** The code point of a UTF-8 sequence of two to four octets; [None] when
    the sequence is not well formed: an octet after the first that is not a
    continuation, an encoding longer than needed, a surrogate, or a code
    point beyond 0x10FFFF. *)
Definition utf8_code_point (octets : list N) : option N :=
  match octets with
  | [b1; b2] =>
      let cp := ((b1 - 192) * 64 + (b2 - 128))%N in
      if continuation b2 && (128 <=? cp)%N then Some cp else None
  | [b1; b2; b3] =>
      let cp := ((b1 - 224) * 4096 + (b2 - 128) * 64 + (b3 - 128))%N in
      if continuation b2 && continuation b3 && (2048 <=? cp)%N
         && negb ((55296 <=? cp)%N && (cp <=? 57343)%N)
      then Some cp else None
  | [b1; b2; b3; b4] =>
      let cp := ((b1 - 240) * 262144 + (b2 - 128) * 4096
                 + (b3 - 128) * 64 + (b4 - 128))%N in
      if continuation b2 && continuation b3 && continuation b4
         && (65536 <=? cp)%N && (cp <=? 1114111)%N
      then Some cp else None
  | _ => None
  end.

(** The code units of a code point: itself, or a pair of surrogates. *)
Definition code_point_text (cp : N) : string :=
  if (cp <? 65536)%N then unit_text cp
  else unit_text (55296 + (cp - 65536) / 1024)
       ++ unit_text (56320 + (cp - 65536) mod 1024).

(** What the escapes at the head of [s] decode to, with the number of
    characters they take, [s] starting with a percent sign. *)
Definition decode_escapes (s : string) : option (string * nat) :=
  match escape s with
  | None => None
  | Some b =>
      if (b <? 128)%N then Some (String (ascii_of_N b) "", 3%nat)
      else
        match sequence_length b with
        | None => None
        | Some n =>
            match escapes n s with
            | None => None
            | Some octets =>
                match utf8_code_point octets with
                | None => None
                | Some cp => Some (code_point_text cp, (3 * n)%nat)
                end
            end
        end
  end.

(** [decodeURIComponent]: the Decode operation of ECMAScript with an empty
    reserved set.  A character other than the percent sign is kept.  An
    escape below 0x80 is that code unit; a lead octet announces a UTF-8
    sequence of two to four octets, each written as an escape, which
    decodes to the code units of its code point; anything else throws
    [URIError].  [decode_from n] leaves out the [n] characters that the
    escapes before have taken. *)
Fixpoint decode_from (taken : nat) (s : string) : result string :=
  match s with
  | EmptyString => Ok ""
  | String c rest =>
      match taken with
      | S taken' => decode_from taken' rest
      | O =>
          if Ascii.eqb c "%" then
            match decode_escapes s with
            | None => Throw URIError
            | Some (text, size) =>
                prepend_text text (decode_from (size - 1) rest)
            end
          else prepend c (decode_from 0 rest)
      end
  end.

Definition decodeURIComponent (s : string) : result string := decode_from 0 s.

(** [parseInt(s)] without a radix.  The white space it skips: the tab,
    the line terminators (U+000A, U+000D, U+2028, U+2029), U+000B, U+000C,
    the byte order mark U+FEFF and the space separators (U+0020, U+00A0,
    U+1680, U+2000 to U+200A, U+202F, U+205F, U+3000). *)
Definition is_white_space (c : ascii) : bool :=
  let n := N_of_ascii c in
  ((9 <=? n)%N && (n <=? 13)%N) || (n =? 32)%N.

Definition is_white_space_2 (c1 c2 : ascii) : bool :=
  (N_of_ascii c1 =? 194)%N && (N_of_ascii c2 =? 160)%N.

Definition is_white_space_3 (c1 c2 c3 : ascii) : bool :=
  let '(a, b, c) := (N_of_ascii c1, N_of_ascii c2, N_of_ascii c3) in
  ((a =? 225)%N && (b =? 154)%N && (c =? 128)%N)
  || ((a =? 226)%N && (b =? 128)%N
      && (((128 <=? c)%N && (c <=? 138)%N)
          || (c =? 168)%N || (c =? 169)%N || (c =? 175)%N))
  || ((a =? 226)%N && (b =? 129)%N && (c =? 159)%N)
  || ((a =? 227)%N && (b =? 128)%N && (c =? 128)%N)
  || ((a =? 239)%N && (b =? 187)%N && (c =? 191)%N).

Fixpoint trim_start (s : string) : string :=
  match s with
  | EmptyString => ""
  | String c1 rest1 =>
      if is_white_space c1 then trim_start rest1
      else
        match rest1 with
        | String c2 rest2 =>
            if is_white_space_2 c1 c2 then trim_start rest2
            else
              match rest2 with
              | String c3 rest3 =>
                  if is_white_space_3 c1 c2 c3 then trim_start rest3 else s
              | EmptyString => s
              end
        | EmptyString => s
        end
  end.

Definition digit_value (radix : N) (c : ascii) : option N :=
  match hex_value c with
  | Some d => if (d <? radix)%N then Some d else None
  | None => None
  end.

(** The value of the longest prefix of digits, [None] when it is empty.
    The integer is taken exactly, whatever the number of digits, and then
    rounded to a double, as the engines do. *)
Fixpoint digits (radix : N) (acc : option Z) (s : string) : option Z :=
  match s with
  | EmptyString => acc
  | String c rest =>
      match digit_value radix c with
      | Some d =>
          digits radix
            (Some (Z.of_N radix * default 0%Z acc + Z.of_N d)%Z) rest
      | None => acc
      end
  end.

Definition parseInt (s : string) : value :=
  let s1 := trim_start s in
  let '(sign, s2) :=
    match s1 with
    | String c rest =>
        if Ascii.eqb c "-" then ((-1)%Z, rest)
        else if Ascii.eqb c "+" then (1%Z, rest)
        else (1%Z, s1)
    | EmptyString => (1%Z, s1)
    end in
  let '(radix, s3) :=
    match s2 with
    | String z (String x rest) =>
        if Ascii.eqb z "0" && (Ascii.eqb x "x" || Ascii.eqb x "X")
        then (16%N, rest) else (10%N, s2)
    | _ => (10%N, s2)
    end in
  match digits radix None s3 with
  | Some n => to_number (sign * n)
  | None => VNaN
  end.

(** ** The fragment of the page URL

    [history.pushState(state, title, url)] with a [url] that starts with
    [#] replaces the fragment of the page URL.  The URL parser drops
    trailing C0 controls and spaces, drops tabs and newlines, and
    percent-encodes the octets of the UTF-8 form of the code points of the
    fragment percent-encode set, which holds every code point beyond the
    tilde; a pair of surrogates is one code point, and a surrogate without
    its pair is read as U+FFFD.  [location.hash] then reads [#] followed by
    the fragment, and the empty string when the fragment is empty. *)

Definition hex_char (n : N) : ascii :=
  if (n <? 10)%N then ascii_of_N (48 + n) else ascii_of_N (55 + n).

Definition percent_byte (b : N) : string :=
  String "%" (String (hex_char (b / 16)) (String (hex_char (b mod 16)) "")).

Definition fragment_char (c : ascii) : string :=
  let n := N_of_ascii c in
  if (n <=? 32)%N || (n =? 34)%N || (n =? 60)%N || (n =? 62)%N || (n =? 96)%N
  then percent_byte n
  else if (n <? 127)%N then String c ""
  else percent_byte n.

(** A surrogate is written [237; c2; c3] with [c2] from 160 on: a lead
    surrogate below 176, a trail surrogate from there. *)
Definition surrogate_bits (c2 c3 : ascii) : N :=
  ((N_of_ascii c2 mod 16) * 64 + N_of_ascii c3 mod 64)%N.

Definition percent_pair (lead trail : N) : string :=
  let cp := (65536 + lead * 1024 + trail)%N in
  percent_byte (240 + cp / 262144)
  ++ percent_byte (128 + (cp / 4096) mod 64)
  ++ percent_byte (128 + (cp / 64) mod 64)
  ++ percent_byte (128 + cp mod 64).

Definition percent_replacement : string := "%EF%BF%BD".

Fixpoint strip_trailing (s : string) : string :=
  match s with
  | EmptyString => ""
  | String c rest =>
      let rest' := strip_trailing rest in
      if String.eqb rest' "" && (N_of_ascii c <=? 32)%N then ""
      else String c rest'
  end.

Fixpoint encode_fragment (s : string) : string :=
  match s with
  | EmptyString => ""
  | String c rest =>
      let n := N_of_ascii c in
      if (n =? 9)%N || (n =? 10)%N || (n =? 13)%N then encode_fragment rest
      else
        match rest with
        | String c2 (String c3 rest3) =>
            if (n =? 237)%N && (160 <=? N_of_ascii c2)%N then
              if (N_of_ascii c2 <? 176)%N then
                match rest3 with
                | String d1 (String d2 (String d3 rest6)) =>
                    if (N_of_ascii d1 =? 237)%N && (176 <=? N_of_ascii d2)%N
                    then percent_pair (surrogate_bits c2 c3)
                                      (surrogate_bits d2 d3)
                         ++ encode_fragment rest6
                    else percent_replacement ++ encode_fragment rest3
                | _ => percent_replacement ++ encode_fragment rest3
                end
              else percent_replacement ++ encode_fragment rest3
            else fragment_char c ++ encode_fragment rest
        | _ => fragment_char c ++ encode_fragment rest
        end
  end.

(** What [location.hash] reads after [pushState] to [url] (a [#] and the
    text of a fragment). *)
Definition hash_after_push (url : string) : string :=
  let fragment := encode_fragment (slice_from_1 (strip_trailing url)) in
  if String.eqb fragment "" then "" else "#" ++ fragment.

(** ** The reader and the parts of the browser it touches *)

(** Calls on the collaborators of the reader, in the order they are made. *)
Inductive effect : Type :=
  | OpenBook (path : value)            (* new ePub(bookPath) *)
  | RenderTo (viewer : string)         (* book.renderTo('viewer', ...) *)
  | Display (target : value)           (* rendition.display(cfi), display() *)
  | Next                               (* rendition.next() *)
  | Prev                               (* rendition.prev() *)
  | ThemesFontSize (size : string)     (* rendition.themes.fontSize(size) *)
  | PreventDefault                     (* e.preventDefault() *)
  | AddClass (button class : string)   (* content.prev/next.addClass *)
  | SetTimeout (button : string) (ms : Z)
  | ConsoleException.                  (* console.exception(e), where offered *)

(** The fields of a keydown event that [arrowKeys] reads. *)
Record KeyEvent : Type := {
  key : string;
  ctrlKey : bool;
  metaKey : bool;
}.

Record Reader : Type := {
  search : string;                     (* this.search *)
  settings : value;                    (* this.settings *)
  book : value;                        (* this.book *)
  renditionLocation : value;           (* rendition.currentLocation() *)
  currentLocationCfi : value;          (* this.currentLocationCfi *)
  keylock : bool;                      (* this.keylock *)
  locationHash : string;               (* window.location.hash *)
  history : list string;               (* URLs pushed on window.history *)
  localStorage : option (gmap string string);
  consoleException : bool;             (* console.exception is a function *)
  trace : list effect;
}.

Definition with_settings (s : value) (r : Reader) : Reader :=
  {| search := search r; settings := s; book := book r;
     renditionLocation := renditionLocation r;
     currentLocationCfi := currentLocationCfi r; keylock := keylock r;
     locationHash := locationHash r; history := history r;
     localStorage := localStorage r; consoleException := consoleException r;
     trace := trace r |}.

Definition with_book (b : value) (r : Reader) : Reader :=
  {| search := search r; settings := settings r; book := b;
     renditionLocation := renditionLocation r;
     currentLocationCfi := currentLocationCfi r; keylock := keylock r;
     locationHash := locationHash r; history := history r;
     localStorage := localStorage r; consoleException := consoleException r;
     trace := trace r |}.

Definition with_currentLocationCfi (c : value) (r : Reader) : Reader :=
  {| search := search r; settings := settings r; book := book r;
     renditionLocation := renditionLocation r;
     currentLocationCfi := c; keylock := keylock r;
     locationHash := locationHash r; history := history r;
     localStorage := localStorage r; consoleException := consoleException r;
     trace := trace r |}.

Definition with_keylock (k : bool) (r : Reader) : Reader :=
  {| search := search r; settings := settings r; book := book r;
     renditionLocation := renditionLocation r;
     currentLocationCfi := currentLocationCfi r; keylock := k;
     locationHash := locationHash r; history := history r;
     localStorage := localStorage r; consoleException := consoleException r;
     trace := trace r |}.

(** [window.history.pushState({}, '', url)] *)
Definition with_pushed (url : string) (r : Reader) : Reader :=
  {| search := search r; settings := settings r; book := book r;
     renditionLocation := renditionLocation r;
     currentLocationCfi := currentLocationCfi r; keylock := keylock r;
     locationHash := hash_after_push url; history := history r ++ [url];
     localStorage := localStorage r; consoleException := consoleException r;
     trace := trace r |}.

Definition with_localStorage (s : option (gmap string string)) (r : Reader)
  : Reader :=
  {| search := search r; settings := settings r; book := book r;
     renditionLocation := renditionLocation r;
     currentLocationCfi := currentLocationCfi r; keylock := keylock r;
     locationHash := locationHash r; history := history r;
     localStorage := s; consoleException := consoleException r;
     trace := trace r |}.

Definition with_effect (e : effect) (r : Reader) : Reader :=
  {| search := search r; settings := settings r; book := book r;
     renditionLocation := renditionLocation r;
     currentLocationCfi := currentLocationCfi r; keylock := keylock r;
     locationHash := locationHash r; history := history r;
     localStorage := localStorage r; consoleException := consoleException r;
     trace := trace r ++ [e] |}.

(** ** The monad of methods *)

Definition M (A : Type) : Type := Reader → result A * Reader.

Definition ret {A} (a : A) : M A := fun r => (Ok a, r).

Definition throw {A} (e : error) : M A := fun r => (Throw e, r).

Definition bind {A B} (m : M A) (k : A → M B) : M B :=
  fun r =>
    match m r with
    | (Ok a, r') => k a r'
    | (Throw e, r') => (Throw e, r')
    end.

Definition lift {A} (x : result A) : M A := fun r => (x, r).

Definition read {A} (f : Reader → A) : M A := fun r => (Ok (f r), r).

Definition update (f : Reader → Reader) : M unit := fun r => (Ok tt, f r).

Definition call (e : effect) : M unit := update (with_effect e).

Notation "'let*' x := m 'in' k" := (bind m (fun x => k))
  (at level 10, x name, m at level 200, k at level 200).
Notation "m ;; k" := (bind m (fun _ => k))
  (at level 100, k at level 200, right associativity).

(** [this.settings.k] and [this.settings.k = x] *)
Definition setting (k : string) : M value :=
  let* s := read settings in lift (get_field s k).

Definition set_setting (k : string) (x : value) : M unit :=
  let* s := read settings in
  let* s' := lift (set_field s k x) in
  update (with_settings s').

(** [this.settings[name] = x] for a name computed at run time. *)
Definition assign_setting (name : string) (x : value) : M unit :=
  let* s := read settings in
  let* s' := lift (assign_field s name x) in
  update (with_settings s').

Fixpoint for_each {A} (f : A → M unit) (l : list A) : M unit :=
  match l with
  | [] => ret tt
  | x :: rest => f x ;; for_each f rest
  end.

(** ** Reader.defaults

    [defaults(obj, ...sources)]: every property of every source is copied
    into [obj] unless [obj[prop]] is something else than [undefined], be it
    an own property or an inherited member.  [fill] is one turn of the
    inner loop; where it assigns, the name is not that of an inherited
    accessor, so that the assignment makes an own property. *)

Definition fill (prop : string) (x : value) (acc : result value)
  : result value :=
  match acc with
  | Throw e => Throw e
  | Ok (VObj m) =>
      if reads_undefined m prop then Ok (VObj (<[prop := x]> m)) else acc
  | Ok VUndefined | Ok VNull => Throw TypeError
  | Ok _ => Throw Unmodelled
  end.

Definition defaults (obj : value) (sources : list value) : result value :=
  foldl (fun acc source => map_fold fill acc (own_props source))
        (Ok obj) sources.

(** The literal that [init] passes as the source of built-in defaults. *)
Definition builtin_settings (bookPath : value) : value :=
  VObj (list_to_map
    [ ("bookPath", bookPath);
      ("restore", VBool false);
      ("reload", VBool false);
      ("bookmarks", VUndefined);
      ("annotations", VUndefined);
      ("contained", VUndefined);
      ("bookKey", VUndefined);
      ("styles", VUndefined);
      ("reflowText", VBool false);
      ("pagination", VBool false);
      ("history", VBool true);
      ("language", VStr "en") ]).

(** The name and the raw value of one query parameter:
    [split = p.split('='); name = split[0]; value = split[1] || '']. *)
Definition parameter_name (p : string) : string :=
  hd "" (split_on "=" p).

Definition parameter_value (p : string) : string :=
  to_string (js_or (from_option VStr VUndefined (split_on "=" p !! 1%nat))
                   (VStr "")).

(** The body of the [forEach] over the query parameters. *)
Definition apply_parameter (p : string) : M unit :=
  let* decoded := lift (decodeURIComponent (parameter_value p)) in
  assign_setting (parameter_name p) (VStr decoded).

(** [if (this.search) { ... }], lines 70 to 78. *)
Definition apply_query : M unit :=
  let* q := read search in
  if truthy (VStr q)
  then for_each apply_parameter (split_on "&" (slice_from_1 q))
  else ret tt.

(** The first two statements of [init], lines 55 to 78: the settings are
    the caller's options completed by the built-in defaults, then every
    query parameter is assigned. *)
Definition init_settings (bookPath _options : value) : M unit :=
  let* s := lift (defaults (js_or _options (VObj ∅))
                           [builtin_settings bookPath]) in
  update (with_settings s) ;;
  apply_query.

Definition is_rtl (direction : value) : bool :=
  match direction with
  | VStr s => String.eqb s "rtl"
  | _ => false
  end.

(** [a + b] on numbers, for an integer [b]. *)
Definition number_add (a : value) (b : Z) : value :=
  match a with
  | VNum n => to_number (n + b)
  | VInfinity negative => VInfinity negative
  | _ => VNaN
  end.

Section Host.

(** The digest of the md5 library, [JSON.parse] (with [None] for a
    [SyntaxError]) and [JSON.stringify]. *)
Variable md5 : value → string.
Variable JSON_parse : string → option value.
Variable JSON_stringify : value → string.

(** *** Settings *)

Definition setBookKey (identifier : value) : M value :=
  let* k := setting "bookKey" in
  (if is_undefined k
   then set_setting "bookKey" (VStr ("epubjs-reader:" ++ md5 identifier))
   else ret tt) ;;
  setting "bookKey".

Definition isSaved : M bool :=
  let* storage := read localStorage in
  match storage with
  | None => ret false
  | Some store =>
      let* k := setting "bookKey" in
      ret (match store !! to_string k with Some _ => true | None => false end)
  end.

Definition removeSavedSettings : M bool :=
  let* saved := isSaved in
  if saved then
    let* k := setting "bookKey" in
    let* storage := read localStorage in
    update (with_localStorage (delete (to_string k) <$> storage)) ;;
    ret true
  else ret false.

(** The [catch] of [applySavedSettings], line 249: [console.exception(e)]
    logs where the console has that method, and throws [TypeError] where
    [console.exception] is not a function. *)
Definition log_exception : M unit :=
  let* offered := read consoleException in
  if offered then call ConsoleException else throw TypeError.

(** The [try] of [applySavedSettings], lines 245 to 250:
    [stored = JSON.parse(localStorage.getItem(this.settings.bookKey))].
    A missing item is [null], whose text parses to [null]; whatever is
    thrown is caught and handed to [console.exception], after which
    [stored] is still undefined. *)
Definition read_stored (store : gmap string string) : M value :=
  let* s := read settings in
  match get_field s "bookKey" with
  | Throw _ => log_exception ;; ret VUndefined
  | Ok k =>
      match store !! to_string k with
      | None => ret VNull
      | Some text =>
          match JSON_parse text with
          | Some v => ret v
          | None => log_exception ;; ret VUndefined
          end
      end
  end.

(** [if (stored) { ... } else { return false; }], lines 252 to 263: the
    saved styles are merged first, then the remaining fields. *)
Definition merge_stored (stored : value) : M bool :=
  if truthy stored then
    let* stored_styles := lift (get_field stored "styles") in
    (if truthy stored_styles then
       let* styles := setting "styles" in
       let* merged :=
         lift (defaults (js_or styles (VObj ∅)) [stored_styles]) in
       set_setting "styles" merged
     else ret tt) ;;
    let* s := read settings in
    let* s' := lift (defaults s [stored]) in
    update (with_settings s') ;;
    ret true
  else ret false.

Definition applySavedSettings : M bool :=
  let* storage := read localStorage in
  match storage with
  | None => ret false
  | Some store =>
      let* stored := read_stored store in
      merge_stored stored
  end.

Definition saveSettings : M bool :=
  let* b := read book in
  (if truthy b then
     let* curLocation := read renditionLocation in
     let* start := lift (get_field curLocation "start") in
     if truthy start then
       let* cfi := lift (get_field start "cfi") in
       set_setting "previousLocationCfi" cfi
     else ret tt
   else ret tt) ;;
  let* storage := read localStorage in
  match storage with
  | None => ret false
  | Some store =>
      let* k := setting "bookKey" in
      let* s := read settings in
      update (with_localStorage
                (Some (<[to_string k := JSON_stringify s]> store))) ;;
      ret true
  end.

Definition unload : M unit :=
  let* restore := setting "restore" in
  let* storage := read localStorage in
  if truthy restore && bool_decide (is_Some storage)
  then saveSettings ;; ret tt
  else ret tt.

(** *** Initialisation *)

(** [if (this.settings.restore && this.isSaved()) this.applySavedSettings()] *)
Definition restore_saved : M unit :=
  let* restore := setting "restore" in
  let* saved := (if truthy restore then isSaved else ret false) in
  if saved then applySavedSettings ;; ret tt else ret tt.

(** [init] up to the first [display] request; the subscriptions that
    follow only register the handlers [on_selected] and [on_relocated]
    below and forward events to signals. *)
Definition init (bookPath _options : value) : M unit :=
  init_settings bookPath _options ;;
  let* path := setting "bookPath" in
  setBookKey path ;;
  restore_saved ;;
  let* bookmarks := setting "bookmarks" in
  (if is_undefined bookmarks then set_setting "bookmarks" (VArr [])
   else ret tt) ;;
  let* annotations := setting "annotations" in
  (if is_undefined annotations then set_setting "annotations" (VArr [])
   else ret tt) ;;
  let* styles := setting "styles" in
  set_setting "styles" (js_or styles (VObj {[ "fontSize" := VStr "100%" ]})) ;;
  let* path := setting "bookPath" in
  call (OpenBook path) ;;
  update (with_book (VObj ∅)) ;;
  call (RenderTo "viewer") ;;
  let* cfi := setting "previousLocationCfi" in
  if truthy cfi then call (Display cfi) else call (Display VUndefined).

End Host.

(** *** Location *)

Definition hashChanged : M unit :=
  let* h := read locationHash in
  call (Display (VStr (slice_from_1 h))).

Definition setLocation (cfi : value) : M unit :=
  let cfiFragment := "#" ++ to_string cfi in
  update (with_currentLocationCfi cfi) ;;
  let* tracking := setting "history" in
  let* h := read locationHash in
  if truthy tracking && negb (String.eqb h cfiFragment)
  then update (with_pushed cfiFragment)
  else ret tt.

(** The handlers of the rendition's [selected] and [relocated] events. *)
Definition on_selected (cfiRange : value) : M unit :=
  setLocation cfiRange.

Definition on_relocated (location : value) : M unit :=
  let* start := lift (get_field location "start") in
  let* cfi := lift (get_field start "cfi") in
  setLocation cfi.

(** *** Keyboard *)

(** [this.settings.styles.fontSize = x] *)
Definition set_fontSize (x : value) : M unit :=
  let* styles := setting "styles" in
  let* styles' := lift (set_field styles "fontSize" x) in
  set_setting "styles" styles'.

(** The first half of [arrowKeys], run when a modifier is held; [false]
    stands for the early [return]. *)
Definition font_keys (e : KeyEvent) : M bool :=
  let* styles := setting "styles" in
  if is_undefined styles then ret false
  else
    let* size := lift (get_field styles "fontSize") in
    (if is_undefined size then set_fontSize (VStr "100%") else ret tt) ;;
    let* styles := setting "styles" in
    let* size := lift (get_field styles "fontSize") in
    match size with
    | VStr s =>
        let fontSize := parseInt (slice_to_last s) in
        let* fontSize :=
          if String.eqb (key e) "=" then
            call PreventDefault ;;
            let fontSize := number_add fontSize 2 in
            let* text := lift (number_text fontSize) in
            call (ThemesFontSize (text ++ "%")) ;;
            ret fontSize
          else if String.eqb (key e) "-" then
            call PreventDefault ;;
            let fontSize := number_add fontSize (-2) in
            let* text := lift (number_text fontSize) in
            call (ThemesFontSize (text ++ "%")) ;;
            ret fontSize
          else if String.eqb (key e) "0" then
            call PreventDefault ;;
            call (ThemesFontSize "100%") ;;
            ret (VNum 100)
          else ret fontSize in
        let* text := lift (number_text fontSize) in
        set_fontSize (VStr (text ++ "%")) ;;
        ret true
    | VArr _ => throw Unmodelled
    | _ => throw TypeError
    end.

(** [this.book.package.metadata.direction] *)
Definition direction : M value :=
  let* b := read book in
  let* package := lift (get_field b "package") in
  let* metadata := lift (get_field package "metadata") in
  lift (get_field metadata "direction").

Definition arrowKeys (e : KeyEvent) : M unit :=
  let* proceed := (if ctrlKey e || metaKey e then font_keys e else ret true) in
  if proceed then
    if String.eqb (key e) "ArrowLeft" then
      let* d := direction in
      (if is_rtl d then call Next else call Prev) ;;
      call (AddClass "prev" "active") ;;
      update (with_keylock true) ;;
      call (SetTimeout "prev" 100) ;;
      call PreventDefault
    else if String.eqb (key e) "ArrowRight" then
      let* d := direction in
      (if is_rtl d then call Prev else call Next) ;;
      call (AddClass "next" "active") ;;
      update (with_keylock true) ;;
      call (SetTimeout "next" 100) ;;
      call PreventDefault
    else ret tt
  else ret tt.

(** *** Bookmarks and annotations *)

(** [a === b].  Two objects, or two arrays, are equal when they are the
    same object, which the values of the model do not tell. *)
Definition strict_equal (a b : value) : result bool :=
  match a, b with
  | VUndefined, VUndefined | VNull, VNull => Ok true
  | VBool x, VBool y => Ok (Bool.eqb x y)
  | VNum x, VNum y => Ok (x =? y)%Z
  | VInfinity x, VInfinity y => Ok (Bool.eqb x y)
  | VStr x, VStr y => Ok (String.eqb x y)
  | VArr _, VArr _ | VObj _, VObj _ => Throw Unmodelled
  | _, _ => Ok false
  end.

(** [array.indexOf(x)], the elements being numbered from [i]. *)
Fixpoint index_from (i : Z) (x : value) (l : list value) : result Z :=
  match l with
  | [] => Ok (-1)%Z
  | y :: rest =>
      match strict_equal y x with
      | Throw e => Throw e
      | Ok true => Ok i
      | Ok false => index_from (i + 1) x rest
      end
  end.

(** [this.settings[field].indexOf(x)].  A string has an [indexOf] of its
    own, which searches for a substring and is left out; the other values
    have none. *)
Definition index_in (field : string) (x : value) : M Z :=
  let* list := setting field in
  match list with
  | VArr l => lift (index_from 0 x l)
  | VStr _ => throw Unmodelled
  | _ => throw TypeError
  end.

Definition isBookmarked (cfi : value) : M Z := index_in "bookmarks" cfi.

Definition isAnnotated (note : value) : M Z := index_in "annotations" note.

(** *** uuid

    [uuid()] replaces every [x] and [y] of a template by a hexadecimal
    digit.  The digit comes from [r = (d + Math.random() * 16) % 16 | 0],
    where [d] starts as the time in milliseconds and is divided by 16 at
    every replacement: an integer from 0 to 15 as long as the clock is not
    set before 1970.  The model takes these integers as its input,
    [nibble i] being the one of the [i]-th replacement. *)
Definition hex_lower (n : N) : ascii :=
  if (n <? 10)%N then ascii_of_N (48 + n) else ascii_of_N (87 + n).

(** [c === 'x' ? r : (r & 0x7 | 0x8)] *)
Definition uuid_digit (c : ascii) (r : N) : N :=
  if Ascii.eqb c "x" then r else N.lor (N.land r 7) 8.

Fixpoint uuid_replace (template : string) (nibble : nat → N) (i : nat)
  : string :=
  match template with
  | EmptyString => ""
  | String c rest =>
      if Ascii.eqb c "x" || Ascii.eqb c "y"
      then String (hex_lower (uuid_digit c (nibble i)))
                  (uuid_replace rest nibble (S i))
      else String c (uuid_replace rest nibble i)
  end.

Definition uuid (nibble : nat → N) : string :=
  uuid_replace "xxxxxxxx-xxxx-4xxx-yxxx-xxxxxxxxxxxx" nibble 0.

(** * Vocabulary of the statements *)

(** What one source of [defaults] leaves under a name: the value of the
    target unless it is missing or [undefined], in which case the value of
    the source, if it has one. *)
Definition filled (target source : option value) : option value :=
  match target with
  | Some v => if is_undefined v then from_option Some target source else target
  | None => source
  end.

(** The properties of a source that [defaults] looks at and copies: those
    under whose name the target reads [undefined]; and the target once
    they are copied. *)
Definition visible (target props : gmap string value) : gmap string value :=
  filter (fun kv => reads_undefined target kv.1 = true) props.

Definition completed (target props : gmap string value) : gmap string value :=
  merge filled target (visible target props).

(** An object, or something falsy that [x || {}] replaces by an empty
    object; and the object merged into in both cases. *)
Definition object_or_falsy (v : value) : bool :=
  match v with
  | VObj _ => true
  | _ => negb (truthy v)
  end.

Definition object_of (v : value) : gmap string value :=
  match v with
  | VObj m => m
  | _ => ∅
  end.

(** The settings after a saved record has been merged in. *)
Definition stored_styles (stored : value) : value :=
  match stored with
  | VObj record => get record "styles"
  | _ => VUndefined
  end.

Definition with_saved_styles (m : gmap string value) (stored : value)
  : gmap string value :=
  if truthy (stored_styles stored)
  then <["styles" :=
           VObj (completed (object_of (get m "styles"))
                           (own_props (stored_styles stored)))]> m
  else m.

Definition restored (m : gmap string value) (stored : value)
  : gmap string value :=
  completed (with_saved_styles m stored) (own_props stored).

(** What [saveSettings] copies into [previousLocationCfi] before it looks
    at the storage: nothing without a book or without a start, the CFI of
    the start otherwise. *)
Inductive captures (r : Reader) (m : gmap string value)
  : gmap string value → Prop :=
  | captures_no_book :
      truthy (book r) = false → captures r m m
  | captures_no_start start :
      truthy (book r) = true →
      get_field (renditionLocation r) "start" = Ok start →
      truthy start = false →
      captures r m m
  | captures_start start cfi :
      truthy (book r) = true →
      get_field (renditionLocation r) "start" = Ok start →
      truthy start = true →
      get_field start "cfi" = Ok cfi →
      captures r m (<["previousLocationCfi" := cfi]> m).

(** The outcome of [saveSettings] once the settings are [m']. *)
Definition saved_outcome (JSON_stringify : value → string) (r : Reader)
    (m' : gmap string value) : result bool * Reader :=
  match localStorage r with
  | None => (Ok false, with_settings (VObj m') r)
  | Some store =>
      (Ok true,
       with_localStorage
         (Some (<[to_string (get m' "bookKey") := JSON_stringify (VObj m')]>
                  store))
         (with_settings (VObj m') r))
  end.

(** The fragment [setLocation] derives from a position. *)
Definition fragment_of (cfi : value) : string := "#" ++ to_string cfi.

(** The characters a fragment keeps as they are: printable ASCII other
    than the space, the double quote, the angle brackets and the backtick. *)
Definition plain (c : ascii) : bool :=
  let n := N_of_ascii c in
  (32 <? n)%N && (n <? 127)%N
  && negb (n =? 34)%N && negb (n =? 60)%N
  && negb (n =? 62)%N && negb (n =? 96)%N.

Fixpoint all_plain (s : string) : bool :=
  match s with
  | EmptyString => true
  | String c rest => plain c && all_plain rest
  end.

(** The reader once the font size [size] has been stored. *)
Definition with_fontSize (size : string) (m styles : gmap string value)
    (r : Reader) : Reader :=
  with_settings
    (VObj (<["styles" := VObj (<["fontSize" := VStr size]> styles)]> m)) r.




(** The parameters [init] walks through, and the last one of a name. *)
Definition query_parameters (q : string) : list string :=
  if truthy (VStr q) then split_on "&" (slice_from_1 q) else [].

Definition last_named (name : string) (ps : list string) : option string :=
  last (List.filter (fun p => String.eqb (parameter_name p) name) ps).

(** The object reads an inherited member under the name [k]: it has no
    own property of that name to read first. *)
Definition inherits (m : gmap string value) (k : string) : bool :=
  inherited k && bool_decide (m !! k = None).

(** The one name whose assignment an object ignores: [__proto__], unless
    the object has an own property of that name. *)
Definition ignored (m : gmap string value) (name : string) : bool :=
  String.eqb name "__proto__" && bool_decide (m !! name = None).

(** What the settings hold under [name] once the parameters [ps] have been
    assigned over the object [m]: the decoded value of the last parameter
    of that name, unless the assignment is ignored. *)
Definition assigned (ps : list string) (m m' : gmap string value)
    (name : string) : Prop :=
  match last_named name ps with
  | Some p =>
      ∃ text, decodeURIComponent (parameter_value p) = Ok text
              ∧ if ignored m name then m' !! name = None
                else get m' name = VStr text
  | None => m' !! name = m !! name
  end.


(** ** Sessions *)

(** The calls a page makes on its reader once [init] is over. *)
Inductive operation : Type :=
  | CallSetBookKey (identifier : value)
  | CallIsSaved
  | CallRemoveSavedSettings
  | CallApplySavedSettings
  | CallSaveSettings
  | CallUnload
  | CallHashChanged
  | CallSetLocation (cfi : value)
  | CallArrowKeys (e : KeyEvent)
  | CallIsBookmarked (cfi : value)
  | CallIsAnnotated (note : value).

Section Sessions.

Variable md5 : value → string.
Variable JSON_parse : string → option value.
Variable JSON_stringify : value → string.

(** The reader after one call, whether the call returns or throws. *)
Definition after_call (r : Reader) (op : operation) : Reader :=
  match op with
  | CallSetBookKey identifier => snd (setBookKey md5 identifier r)
  | CallIsSaved => snd (isSaved r)
  | CallRemoveSavedSettings => snd (removeSavedSettings r)
  | CallApplySavedSettings => snd (applySavedSettings JSON_parse r)
  | CallSaveSettings => snd (saveSettings JSON_stringify r)
  | CallUnload => snd (unload JSON_stringify r)
  | CallHashChanged => snd (hashChanged r)
  | CallSetLocation cfi => snd (setLocation cfi r)
  | CallArrowKeys e => snd (arrowKeys e r)
  | CallIsBookmarked cfi => snd (isBookmarked cfi r)
  | CallIsAnnotated note => snd (isAnnotated note r)
  end.

Definition after_calls (ops : list operation) (r : Reader) : Reader :=
  foldl after_call r ops.

End Sessions.

(** The item stored under a key, if there is a storage and an item. *)
Definition stored_item (r : Reader) (k : string) : option string :=
  match localStorage r with
  | Some store => store !! k
  | None => None
  end.

(** What a call may change when the settings are an object: a defined
    setting other than the styles and the saved position keeps its value;
    once the key of the book is defined, the items stored under other keys
    stay; the storage neither appears nor disappears; the history is only
    appended to, with fragments of positions; the book stays. *)
Definition session_step (r r' : Reader) : Prop :=
  ∀ m, settings r = VObj m →
    ∃ m', settings r' = VObj m'
      ∧ (∀ k, k ≠ "styles" → k ≠ "previousLocationCfi" →
              is_undefined (get m k) = false → get m' k = get m k)
      ∧ (is_undefined (get m "bookKey") = false →
         ∀ k, k ≠ to_string (get m "bookKey") →
              stored_item r' k = stored_item r k)
      ∧ (is_Some (localStorage r') ↔ is_Some (localStorage r))
      ∧ (∃ pushed,
           history r' = (history r ++ pushed)%list
           ∧ Forall (fun url => ∃ cfi, url = fragment_of cfi) pushed)
      ∧ book r' = book r.

(** A method all of whose runs are session steps. *)
Definition steps {A} (c : M A) : Prop := ∀ r, session_step r (snd (c r)).

(** The fragments of the positions that the calls hand to [setLocation],
    in the order of the calls. *)
Definition positions (ops : list operation) : list string :=
  omap (fun op => match op with
                  | CallSetLocation cfi => Some (fragment_of cfi)
                  | _ => None
                  end) ops.

(** Two readers with the same history and the same book, and a method
    that leaves both alone. *)
Definition same_history (r r' : Reader) : Prop :=
  history r' = history r ∧ book r' = book r.

Definition quiet {A} (c : M A) : Prop := ∀ r, same_history r (snd (c r)).

(** A string that follows the template of [uuid]: a hexadecimal digit for
    [x], a digit from 8 to f for [y], the same character elsewhere. *)
Definition is_hex_lower (c : ascii) : bool :=
  let n := N_of_ascii c in
  ((48 <=? n)%N && (n <=? 57)%N) || ((97 <=? n)%N && (n <=? 102)%N).

Definition is_variant (c : ascii) : bool :=
  let n := N_of_ascii c in
  (n =? 56)%N || (n =? 57)%N || ((97 <=? n)%N && (n <=? 102)%N).

Fixpoint follows (template s : string) : bool :=
  match template, s with
  | EmptyString, EmptyString => true
  | String t template', String c s' =>
      (if Ascii.eqb t "x" then is_hex_lower c
       else if Ascii.eqb t "y" then is_variant c
       else Ascii.eqb t c)
      && follows template' s'
  | _, _ => false
  end.

(** The first value of a list that is not [undefined]. *)
Fixpoint first_defined (l : list value) : value :=
  match l with
  | [] => VUndefined
  | x :: rest => if is_undefined x then first_defined rest else x
  end.

(** Two readers on the same page: they differ at most by their settings,
    their book and the calls made on the collaborators. *)
Definition same_page (r r' : Reader) : Prop :=
  search r' = search r
  ∧ locationHash r' = locationHash r
  ∧ history r' = history r
  ∧ localStorage r' = localStorage r
  ∧ keylock r' = keylock r
  ∧ currentLocationCfi r' = currentLocationCfi r
  ∧ renditionLocation r' = renditionLocation r.

(** A method none of whose runs leaves the page. *)
Definition stays {A} (c : M A) : Prop := ∀ r, same_page r (snd (c r)).

(** A query parameter whose value decodes. *)
Definition decodes (p : string) : Prop :=
  ∃ text, decodeURIComponent (parameter_value p) = Ok text.

(** The target of the first [display] request of [init]. *)
Definition first_display (m : gmap string value) : effect :=
  Display (if truthy (get m "previousLocationCfi")
           then get m "previousLocationCfi" else VUndefined).

(** ** Three sentences of the specification, as they are written *)



(** A second call of [setLocation] with the same position pushes nothing. *)
Definition repeated_position_pushes_nothing (r : Reader) (cfi : value) : Prop :=
  history (snd (setLocation cfi (snd (setLocation cfi r))))
  = history (snd (setLocation cfi r)).

(** * Sample runs

    A host and a few readers on which the statements are run.  The host
    functions are stand-ins: the theorems hold for every host. *)

Definition sample_md5 (identifier : value) : string :=
  "digest-of-" ++ to_string identifier.

Definition sample_record : value :=
  VObj {[ "styles" := VObj {[ "fontSize" := VStr "120%" ]};
          "bookmarks" := VArr [VStr "epubcfi(/6/8!/4/2/1:0)"] ]}.

Definition sample_parse (text : string) : option value :=
  if String.eqb text "null" then Some VNull
  else if String.eqb text "<saved record>" then Some sample_record
  else None.

Definition sample_stringify (v : value) : string :=
  match v with
  | VObj _ => "<saved record>"
  | _ => to_string v
  end.

Definition sample_styles : gmap string value := {[ "fontSize" := VStr "100%" ]}.

Definition sample_settings : gmap string value :=
  {[ "bookPath" := VStr "moby-dick.epub";
     "bookKey" := VStr "epubjs-reader:moby";
     "restore" := VBool true;
     "history" := VBool true;
     "styles" := VObj sample_styles ]}.

Definition sample_cfi : value := VStr "epubcfi(/6/4!/4/2/1:0)".

(** A position inside an element whose id ends with the letter e acute,
    the code unit 233. *)
Definition accented_cfi : value :=
  VStr ("epubcfi(/6/4[caf" ++ unit_text 233 ++ "]!/4/2/1:0)").

(** A reader in the middle of a session: a right-to-left book is open at
    a known position, the record saved under its key is corrupted, and the
    console is one that offers [console.exception]. *)
Definition sample_reader : Reader :=
  {| search := "?restore=false";
     settings := VObj sample_settings;
     book :=
       VObj {[ "package" :=
                 VObj {[ "metadata" := VObj {[ "direction" := VStr "rtl" ]} ]} ]};
     renditionLocation := VObj {[ "start" := VObj {[ "cfi" := sample_cfi ]} ]};
     currentLocationCfi := VUndefined;
     keylock := false;
     locationHash := "";
     history := [];
     localStorage := Some {[ "epubjs-reader:moby" := "{corrupted" ]};
     consoleException := true;
     trace := [] |}.

(** The same reader on a console without [console.exception], which is
    not a standard method. *)
Definition sample_reader_on_plain_console : Reader :=
  {| search := search sample_reader;
     settings := settings sample_reader;
     book := book sample_reader;
     renditionLocation := renditionLocation sample_reader;
     currentLocationCfi := VUndefined;
     keylock := false;
     locationHash := "";
     history := [];
     localStorage := localStorage sample_reader;
     consoleException := false;
     trace := [] |}.


(** A reader before [init], on a page with the query [q] and the stored
    items [store], with a console that offers [console.exception]. *)
Definition fresh_reader (q : string) (store : gmap string string) : Reader :=
  {| search := q;
     settings := VUndefined;
     book := VUndefined;
     renditionLocation := VUndefined;
     currentLocationCfi := VUndefined;
     keylock := false;
     locationHash := "";
     history := [];
     localStorage := Some store;
     consoleException := true;
     trace := [] |}.

Definition ctrl_key (k : string) : KeyEvent :=
  {| key := k; ctrlKey := true; metaKey := false |}.

(** The sample reader with a readable record under the key of its book. *)
Definition sample_saved_reader : Reader :=
  with_localStorage (Some {[ "epubjs-reader:moby" := "<saved record>" ]})
    sample_reader.

(** Settings that hold what the sample record holds, and their reader. *)
Definition sample_restored_settings : gmap string value :=
  <["styles" := VObj {[ "fontSize" := VStr "120%" ]}]>
    (<["bookmarks" := VArr [VStr "epubcfi(/6/8!/4/2/1:0)"]]> sample_settings).

Definition sample_restored_reader : Reader :=
  with_settings (VObj sample_restored_settings) sample_reader.

(** The sample reader before the rendition has a location to report. *)
Definition sample_reader_not_rendered : Reader :=
  {| search := search sample_reader;
     settings := settings sample_reader;
     book := book sample_reader;
     renditionLocation := VUndefined;
     currentLocationCfi := VUndefined;
     keylock := false;
     locationHash := "";
     history := [];
     localStorage := localStorage sample_reader;
     consoleException := true;
     trace := [] |}.

(** Settings whose font size is a keyword, and their reader. *)
Definition sample_keyword_styles : gmap string value :=
  {[ "fontSize" := VStr "large" ]}.

Definition sample_keyword_settings : gmap string value :=
  <["styles" := VObj sample_keyword_styles]> sample_settings.

Definition sample_keyword_reader : Reader :=
  with_settings (VObj sample_keyword_settings) sample_reader.


(** A source of hexadecimal digits. *)
Definition sample_nibble (i : nat) : N := (N.of_nat i * 7 mod 16)%N.

(** A few calls of a session. *)
Definition sample_calls : list operation :=
  [ CallSetLocation sample_cfi; CallArrowKeys (ctrl_key "=");
    CallIsBookmarked sample_cfi; CallSaveSettings; CallRemoveSavedSettings;
    CallUnload ].

(** * Proof tools *)

(** Unfolding of the monad on a reader given field by field. *)
Ltac run :=
  repeat progress unfold setting, set_setting, set_fontSize, call, bind, ret,
    lift, read, update, throw;
  cbn [is_undefined get_field set_field
       search settings book renditionLocation currentLocationCfi keylock
       locationHash history localStorage consoleException trace
       with_settings with_book with_currentLocationCfi with_keylock
       with_pushed with_localStorage with_effect fst snd].

(** Evaluation of the closed parts of a hypothesis. *)
Ltac closed_match H :=
  match type of H with
  | match ?scrutinee with _ => _ end =>
      let v := eval vm_compute in scrutinee in
      let E := fresh in
      assert (E : scrutinee = v) by (vm_compute; reflexivity);
      rewrite E in H; clear E
  end.

Ltac closed_rhs H :=
  match type of H with
  | _ = ?rhs =>
      let v := eval vm_compute in rhs in
      let E := fresh in
      assert (E : rhs = v) by (vm_compute; reflexivity);
      rewrite E in H; clear E
  end.

(** * The host functions on sample inputs *)

Example split_on_eq : split_on "=" "a=b=c" = ["a"; "b"; "c"].
Proof. reflexivity. Qed.

Example split_on_empty : split_on "&" "" = [""].
Proof. reflexivity. Qed.

Example slice_percent : slice_to_last "100%" = "100".
Proof. reflexivity. Qed.

Example decode_plain : decodeURIComponent "moby-dick.epub" = Ok "moby-dick.epub".
Proof. reflexivity. Qed.

Example decode_escape : decodeURIComponent "a%2Fb%20c" = Ok "a/b c".
Proof. reflexivity. Qed.

Example decode_malformed : decodeURIComponent "100%" = Throw URIError.
Proof. reflexivity. Qed.

Example parseInt_100 : parseInt "100" = VNum 100.
Proof. reflexivity. Qed.

Example parseInt_none : parseInt "large" = VNaN.
Proof. reflexivity. Qed.

Example hash_of_cfi :
  hash_after_push "#epubcfi(/6/4[chap01]!/4/2/1:0)" = "#epubcfi(/6/4[chap01]!/4/2/1:0)".
Proof. reflexivity. Qed.

Example hash_of_space : hash_after_push "#a b" = "#a%20b".
Proof. reflexivity. Qed.

Example hash_of_nothing : hash_after_push "#" = "".
Proof. reflexivity. Qed.


(** * Properties of [defaults] *)

Lemma filled_none_r t : filled t None = t.
Proof. destruct t as [v|]; simpl; [by destruct (is_undefined v)|done]. Qed.

Lemma filled_idem t s : filled (filled t s) s = filled t s.
Proof.
  destruct t as [v|], s as [w|]; simpl; try done.
  - destruct (is_undefined v) eqn:E; simpl; [by destruct (is_undefined w)|by rewrite E].
  - destruct (is_undefined v) eqn:E; simpl; by rewrite E.
  - by destruct (is_undefined w).
Qed.

Lemma get_undefined_filled (m : gmap string value) k x :
  is_undefined (get m k) = true → filled (m !! k) (Some x) = Some x.
Proof.
  unfold get. destruct (m !! k) as [v|]; simpl; [|done].
  by intros ->.
Qed.

Lemma get_defined_filled (m : gmap string value) k s :
  is_undefined (get m k) = false → filled (m !! k) s = m !! k.
Proof.
  unfold get. destruct (m !! k) as [v|]; simpl; [|done].
  by intros ->.
Qed.

Lemma lookup_filled (target props : gmap string value) i :
  merge filled target props !! i = filled (target !! i) (props !! i).
Proof. rewrite lookup_merge. by destruct (target !! i), (props !! i). Qed.

Lemma lookup_visible (target props : gmap string value) i :
  visible target props !! i
  = if reads_undefined target i then props !! i else None.
Proof.
  unfold visible. destruct (reads_undefined target i) eqn:E.
  - destruct (props !! i) as [x|] eqn:Ex.
    + by apply map_lookup_filter_Some.
    + apply map_lookup_filter_None. left. done.
  - apply map_lookup_filter_None. right. intros x _. simpl. by rewrite E.
Qed.

Lemma lookup_completed (target props : gmap string value) i :
  completed target props !! i
  = if reads_undefined target i
    then from_option Some (target !! i) (props !! i)
    else target !! i.
Proof.
  unfold completed. rewrite lookup_filled, lookup_visible.
  unfold reads_undefined.
  destruct (target !! i) as [v|]; simpl.
  - by destruct (is_undefined v).
  - destruct (inherited i); simpl; [done|]. by destruct (props !! i).
Qed.

Lemma reads_undefined_completed (target props : gmap string value) i :
  props !! i = None →
  reads_undefined (completed target props) i = reads_undefined target i.
Proof.
  intros Hi. unfold reads_undefined at 1. rewrite lookup_completed, Hi.
  simpl. destruct (reads_undefined target i) eqn:E; exact E.
Qed.

Lemma fold_fill_object (target props : gmap string value) :
  map_fold fill (Ok (VObj target)) props = Ok (VObj (completed target props)).
Proof.
  revert props. apply (map_fold_weak_ind
           (fun r props => r = Ok (VObj (completed target props)))).
  - do 2 f_equal. apply map_eq; intros i.
    rewrite lookup_completed, lookup_empty. simpl.
    by destruct (reads_undefined target i).
  - intros k x props r Hk ->. simpl.
    rewrite (reads_undefined_completed _ _ _ Hk).
    destruct (reads_undefined target k) eqn:E.
    + do 2 f_equal. apply map_eq; intros i.
      rewrite lookup_completed. destruct (decide (k = i)) as [<-|Hne].
      * by rewrite !lookup_insert_eq, E.
      * by rewrite !lookup_insert_ne, lookup_completed.
    + do 2 f_equal. apply map_eq; intros i.
      rewrite !lookup_completed. destruct (decide (k = i)) as [<-|Hne].
      * by rewrite E.
      * by rewrite lookup_insert_ne.
Qed.

Lemma defaults_object (target : gmap string value) (source : value) :
  defaults (VObj target) [source]
  = Ok (VObj (completed target (own_props source))).
Proof. unfold defaults. simpl. apply fold_fill_object. Qed.

Lemma completed_idem (target props : gmap string value) :
  completed (completed target props) props = completed target props.
Proof.
  apply map_eq; intros i. rewrite (lookup_completed (completed _ _)).
  unfold reads_undefined at 1. rewrite !lookup_completed.
  destruct (reads_undefined target i) eqn:E.
  - destruct (props !! i) as [x|]; simpl.
    + by destruct (is_undefined x).
    + fold (reads_undefined target i). by rewrite E.
  - fold (reads_undefined target i). by rewrite E.
Qed.

Lemma get_completed (a b : gmap string value) k :
  get (completed a b) k = if reads_undefined a k then get b k else get a k.
Proof.
  unfold get. rewrite lookup_completed. unfold reads_undefined.
  destruct (a !! k) as [v|]; simpl.
  - destruct (is_undefined v) eqn:E; [|done].
    destruct (b !! k); simpl; [done|]. by destruct v.
  - destruct (inherited k); simpl; [done|]. by destruct (b !! k).
Qed.

Lemma get_completed_defined (a b : gmap string value) k :
  is_undefined (get a k) = false → get (completed a b) k = get a k.
Proof.
  intros H. rewrite get_completed. unfold reads_undefined, get in *.
  destruct (a !! k) as [v|]; simpl in *; [by rewrite H|done].
Qed.

(** A name that the target inherits reads as defined: [defaults] copies
    nothing under it, and copies the other properties of the source. *)
Example defaults_skips_inherited_names :
  defaults (VObj ∅) [VObj {[ "toString" := VStr "x"; "a" := VNum 2 ]}]
  = Ok (VObj {[ "a" := VNum 2 ]})
  ∧ defaults (VObj {[ "toString" := VUndefined ]})
      [VObj {[ "toString" := VStr "x" ]}]
    = Ok (VObj {[ "toString" := VStr "x" ]}).
Proof. split; vm_compute; reflexivity. Qed.

(** C4: [defaults] never overwrites a field that is defined in the target
    and fills in exactly the fields that are undefined there, from the
    source: under every name, when [target[name]] reads something else than
    [undefined], own or inherited, the target keeps what it has; when it
    reads [undefined], the target takes the property of the source, if the
    source has one.  In particular [defaults({a:1}, {a:2})] is [{a:1}] and
    [defaults({}, {a:2})] is [{a:2}]. *)
Theorem defaults_keeps_defined_fills_undefined
    (target source : gmap string value) :
  (∃ merged : gmap string value,
      defaults (VObj target) [VObj source] = Ok (VObj merged)
      ∧ ∀ k, merged !! k =
             if reads_undefined target k
             then from_option Some (target !! k) (source !! k)
             else target !! k)
  ∧ defaults (VObj {[ "a" := VNum 1 ]}) [VObj {[ "a" := VNum 2 ]}]
    = Ok (VObj {[ "a" := VNum 1 ]})
  ∧ defaults (VObj ∅) [VObj {[ "a" := VNum 2 ]}]
    = Ok (VObj {[ "a" := VNum 2 ]}).
Proof.
  split; [|split; vm_compute; reflexivity].
  exists (completed target source). split; [apply defaults_object|].
  intros k. apply lookup_completed.
Qed.


(** * Running methods on a reader whose settings are an object *)

Lemma setting_object r m k :
  settings r = VObj m → setting k r = (Ok (get m k), r).
Proof. intros H. unfold setting, bind, read, lift. by rewrite H. Qed.

Lemma set_setting_object r m k x :
  settings r = VObj m →
  set_setting k x r = (Ok tt, with_settings (VObj (<[k := x]> m)) r).
Proof. intros H. unfold set_setting, bind, read, lift, update. by rewrite H. Qed.

Lemma with_settings_same r : with_settings (settings r) r = r.
Proof. by destruct r. Qed.


Section BookKey.
Variable md5 : value → string.

Lemma setBookKey_run r m identifier :
  settings r = VObj m →
  setBookKey md5 identifier r =
    if is_undefined (get m "bookKey")
    then (Ok (VStr ("epubjs-reader:" ++ md5 identifier)),
          with_settings
            (VObj (<["bookKey" := VStr ("epubjs-reader:" ++ md5 identifier)]> m)) r)
    else (Ok (get m "bookKey"), r).
Proof.
  intros H. unfold setBookKey, bind. rewrite (setting_object _ _ _ H).
  destruct (is_undefined (get m "bookKey")) eqn:E.
  - rewrite (set_setting_object _ _ _ _ H).
    erewrite setting_object by reflexivity.
    unfold get. by rewrite lookup_insert_eq.
  - unfold ret. by rewrite (setting_object _ _ _ H).
Qed.

(** C5: while [settings.bookKey] is undefined, [setBookKey] derives the key
    as the prefix [epubjs-reader:] followed by the digest of the
    identifier, a function of the identifier alone; once the key is
    defined, [setBookKey] returns it and changes nothing, whatever
    identifier it is given. *)
Theorem bookKey_derived_once r m identifier other :
  settings r = VObj m →
  (is_undefined (get m "bookKey") = true →
     ∃ r1,
       setBookKey md5 identifier r
         = (Ok (VStr ("epubjs-reader:" ++ md5 identifier)), r1)
       ∧ (∃ m1, settings r1 = VObj m1
                ∧ get m1 "bookKey" = VStr ("epubjs-reader:" ++ md5 identifier))
       ∧ setBookKey md5 other r1
         = (Ok (VStr ("epubjs-reader:" ++ md5 identifier)), r1))
  ∧ (is_undefined (get m "bookKey") = false →
     setBookKey md5 other r = (Ok (get m "bookKey"), r)).
Proof.
  intros H. split; intros E.
  - rewrite (setBookKey_run _ _ _ H), E. eexists. split; [reflexivity|].
    assert (Hk : get (<["bookKey" := VStr ("epubjs-reader:" ++ md5 identifier)]> m)
                   "bookKey" = VStr ("epubjs-reader:" ++ md5 identifier)).
    { unfold get. by rewrite lookup_insert_eq. }
    split; [eexists; split; [reflexivity|exact Hk]|].
    erewrite setBookKey_run by reflexivity. by rewrite Hk.
  - by rewrite (setBookKey_run _ _ _ H), E.
Qed.

End BookKey.


(** * Restoring saved settings *)

Lemma with_settings_twice a b r :
  with_settings a (with_settings b r) = with_settings a r.
Proof. reflexivity. Qed.

Lemma js_or_object styles :
  object_or_falsy styles = true →
  js_or styles (VObj ∅) = VObj (object_of styles).
Proof.
  unfold js_or. destruct styles; simpl; try done;
    intros H; apply negb_true_iff in H; simpl in H; by rewrite ?H.
Qed.

Lemma get_field_stored_styles stored :
  truthy stored = true → get_field stored "styles" = Ok (stored_styles stored).
Proof. by destruct stored. Qed.

Lemma merge_stored_run r m stored :
  settings r = VObj m →
  (truthy (stored_styles stored) = true → object_or_falsy (get m "styles") = true) →
  merge_stored stored r =
    if truthy stored
    then (Ok true, with_settings (VObj (restored m stored)) r)
    else (Ok false, r).
Proof.
  intros Hs Hm. unfold merge_stored.
  destruct (truthy stored) eqn:Et; [|done].
  unfold bind at 1. unfold lift at 1.
  rewrite (get_field_stored_styles _ Et).
  unfold restored, with_saved_styles.
  destruct (truthy (stored_styles stored)) eqn:Ess.
  - unfold bind at 1. unfold bind at 1.
    rewrite (setting_object _ _ _ Hs).
    unfold bind at 1. unfold lift at 1.
    rewrite (js_or_object _ (Hm eq_refl)), defaults_object.
    rewrite (set_setting_object _ _ _ _ Hs).
    unfold bind, read, lift, update, ret. simpl.
    by rewrite defaults_object.
  - unfold bind, read, lift, update, ret. rewrite Hs.
    by rewrite defaults_object.
Qed.

Lemma restored_styles (m : gmap string value) stored :
  truthy (stored_styles stored) = true →
  restored m stored !! "styles"
  = Some (VObj (completed (object_of (get m "styles"))
                          (own_props (stored_styles stored)))).
Proof.
  intros H. unfold restored, with_saved_styles. rewrite H.
  rewrite lookup_completed. unfold reads_undefined.
  by rewrite lookup_insert_eq.
Qed.

Lemma restored_idem (m : gmap string value) stored :
  restored (restored m stored) stored = restored m stored.
Proof.
  unfold restored at 1. unfold with_saved_styles.
  destruct (truthy (stored_styles stored)) eqn:E.
  - unfold get at 1. rewrite (restored_styles _ _ E). simpl.
    rewrite completed_idem.
    rewrite (insert_id _ _ _ (restored_styles m _ E)).
    unfold restored. apply completed_idem.
  - unfold restored, with_saved_styles. rewrite E. apply completed_idem.
Qed.

(** C9: merging a saved record is idempotent.  On settings whose styles
    are an object or missing, merging the record [stored] returns
    normally, and merging the same record again returns the same result
    and leaves the reader, settings included, exactly as the first merge
    left it. *)
Theorem merge_stored_idempotent r m stored :
  settings r = VObj m →
  object_or_falsy (get m "styles") = true →
  ∃ b r1,
    merge_stored stored r = (Ok b, r1)
    ∧ merge_stored stored r1 = (Ok b, r1).
Proof.
  intros Hs Hm.
  rewrite (merge_stored_run _ _ _ Hs (fun _ => Hm)).
  destruct (truthy stored) eqn:Et.
  - eexists _, _. split; [reflexivity|].
    erewrite merge_stored_run; [|reflexivity|].
    + by rewrite Et, restored_idem, with_settings_twice.
    + intros E. unfold get. by rewrite (restored_styles _ _ E).
  - eexists _, _. split; [reflexivity|].
    rewrite (merge_stored_run _ _ _ Hs (fun _ => Hm)).
    by rewrite Et.
Qed.


(** * A corrupted record *)

Section CorruptedRecord.
Variable JSON_parse : string → option value.

Lemma read_stored_object r m store :
  settings r = VObj m →
  read_stored JSON_parse store r =
    match store !! to_string (get m "bookKey") with
    | None => (Ok VNull, r)
    | Some text =>
        match JSON_parse text with
        | Some v => (Ok v, r)
        | None =>
            if consoleException r
            then (Ok VUndefined, with_effect ConsoleException r)
            else (Throw TypeError, r)
        end
    end.
Proof.
  intros Hs. unfold read_stored, bind at 1. unfold read at 1. rewrite Hs.
  change (get_field (VObj m) "bookKey") with (Ok (get m "bookKey")).
  cbv iota. destruct (store !! to_string (get m "bookKey")); [|done].
  destruct (JSON_parse s); [done|].
  unfold log_exception, bind, read. by destruct (consoleException r).
Qed.

(** Where the console offers [console.exception], a record whose text
    [JSON.parse] rejects does not make [applySavedSettings] throw: it logs
    the exception and returns [false] with the settings unchanged, which
    is the result and the settings it ends with when there is no record
    under [bookKey] at all. *)
Lemma corrupted_record_reads_as_absent r m store text :
  settings r = VObj m →
  localStorage r = Some store →
  store !! to_string (get m "bookKey") = Some text →
  JSON_parse text = None →
  consoleException r = true →
  let absent :=
    with_localStorage (Some (delete (to_string (get m "bookKey")) store)) r in
  applySavedSettings JSON_parse r = (Ok false, with_effect ConsoleException r)
  ∧ applySavedSettings JSON_parse absent = (Ok false, absent)
  ∧ settings (snd (applySavedSettings JSON_parse r))
    = settings (snd (applySavedSettings JSON_parse absent)).
Proof.
  intros Hs Hl Ht Hp Hc absent.
  assert (H1 : applySavedSettings JSON_parse r
               = (Ok false, with_effect ConsoleException r)).
  { unfold applySavedSettings, bind at 1. unfold read at 1. rewrite Hl.
    unfold bind at 1. rewrite (read_stored_object _ _ _ Hs), Ht, Hp, Hc.
    reflexivity. }
  assert (H2 : applySavedSettings JSON_parse absent = (Ok false, absent)).
  { unfold applySavedSettings, bind at 1. unfold read at 1. simpl.
    unfold bind at 1. erewrite read_stored_object by exact Hs.
    rewrite lookup_delete_eq. reflexivity. }
  rewrite H1, H2. done.
Qed.

(** C3, as the code has it: the [catch] hands the exception to
    [console.exception], which is not a standard method.  On a console
    without it, a record whose text [JSON.parse] rejects makes
    [applySavedSettings] throw [TypeError] and leave the reader as it is,
    whereas with no record under [bookKey] it returns [false]; and the
    restore step of [init], when restore is enabled, throws with it. *)
Theorem corrupted_record_throws_without_console_exception r m store text :
  settings r = VObj m →
  localStorage r = Some store →
  store !! to_string (get m "bookKey") = Some text →
  JSON_parse text = None →
  consoleException r = false →
  let absent :=
    with_localStorage (Some (delete (to_string (get m "bookKey")) store)) r in
  applySavedSettings JSON_parse r = (Throw TypeError, r)
  ∧ applySavedSettings JSON_parse absent = (Ok false, absent)
  ∧ (truthy (get m "restore") = true →
     restore_saved JSON_parse r = (Throw TypeError, r)).
Proof.
  intros Hs Hl Ht Hp Hc absent.
  assert (H1 : applySavedSettings JSON_parse r = (Throw TypeError, r)).
  { unfold applySavedSettings, bind at 1. unfold read at 1. rewrite Hl.
    unfold bind at 1. rewrite (read_stored_object _ _ _ Hs), Ht, Hp, Hc.
    reflexivity. }
  split; [exact H1|]. split.
  - unfold applySavedSettings, bind at 1. unfold read at 1. simpl.
    unfold bind at 1. erewrite read_stored_object by exact Hs.
    rewrite lookup_delete_eq. reflexivity.
  - intros Hr. unfold restore_saved, bind at 1.
    rewrite (setting_object _ _ _ Hs), Hr.
    unfold bind at 1.
    assert (Hsaved : isSaved r = (Ok true, r)).
    { unfold isSaved, bind at 1. unfold read at 1. rewrite Hl.
      unfold bind. rewrite (setting_object _ _ _ Hs). unfold ret.
      by rewrite Ht. }
    rewrite Hsaved. unfold bind. by rewrite H1.
Qed.

End CorruptedRecord.


(** * Saving settings *)

Lemma with_settings_id r m : settings r = VObj m → with_settings (VObj m) r = r.
Proof. intros <-. apply with_settings_same. Qed.

Section Saving.
Variable JSON_stringify : value → string.

Lemma save_tail r m :
  settings r = VObj m →
  (let* storage := read localStorage in
   match storage with
   | None => ret false
   | Some store =>
       let* k := setting "bookKey" in
       let* s := read settings in
       update (with_localStorage
                 (Some (<[to_string k := JSON_stringify s]> store))) ;;
       ret true
   end) r = saved_outcome JSON_stringify r m.
Proof.
  intros Hs. unfold saved_outcome, bind at 1. unfold read at 1.
  rewrite (with_settings_id _ _ Hs).
  destruct (localStorage r) as [store|]; [|done].
  unfold bind at 1. rewrite (setting_object _ _ _ Hs).
  unfold bind, read, update, ret. by rewrite Hs.
Qed.


End Saving.

(** * The location and the history *)

(** [setLocation] records the position and pushes its fragment exactly
    when history tracking is enabled and the fragment differs from
    [location.hash]; for a position whose fragment the location reports
    back as it was pushed, a second call with the same position pushes
    nothing. *)
Lemma setLocation_pushes_changed_fragment r m cfi :
  settings r = VObj m →
  hash_after_push (fragment_of cfi) = fragment_of cfi →
  ∃ r1 r2,
    setLocation cfi r = (Ok tt, r1)
    ∧ currentLocationCfi r1 = cfi
    ∧ history r1 =
        (if truthy (get m "history")
            && negb (String.eqb (locationHash r) (fragment_of cfi))
         then (history r ++ [fragment_of cfi])%list
         else history r)
    ∧ setLocation cfi r1 = (Ok tt, r2)
    ∧ history r2 = history r1.
Proof.
  intros Hs Hstable. unfold setLocation. fold (fragment_of cfi).
  unfold bind at 1. unfold update at 1.
  unfold bind at 1. erewrite setting_object by exact Hs.
  unfold bind at 1. unfold read at 1.
  destruct (truthy (get m "history")) eqn:Eh; simpl.
  - destruct (String.eqb (locationHash r) (fragment_of cfi)) eqn:Ee; simpl.
    + eexists _, _. split; [reflexivity|]. split; [done|]. split; [done|].
      unfold bind at 1. unfold update at 1.
      unfold bind at 1. erewrite setting_object by exact Hs.
      unfold bind at 1. unfold read at 1. simpl. rewrite Eh, Ee. simpl.
      split; reflexivity.
    + eexists _, _. split; [reflexivity|]. split; [done|]. split; [done|].
      unfold bind at 1. unfold update at 1.
      unfold bind at 1. erewrite setting_object by exact Hs.
      unfold bind at 1. unfold read at 1. simpl. rewrite Eh.
      rewrite Hstable, String.eqb_refl. simpl.
      split; reflexivity.
  - eexists _, _. split; [reflexivity|]. split; [done|]. split; [done|].
    unfold bind at 1. unfold update at 1.
    unfold bind at 1. erewrite setting_object by exact Hs.
    unfold bind at 1. unfold read at 1. simpl. rewrite Eh. simpl.
    split; reflexivity.
Qed.


(** C6, as the code has it: the guard compares [location.hash] with the
    fragment as [setLocation] wrote it, not as the URL holds it.  With
    history tracking on, for a position whose fragment the URL rewrites
    (a character that gets percent-encoded is enough), the first call
    pushes an entry and a second call with the same position pushes the
    same entry again. *)
Theorem setLocation_pushes_rewritten_fragment_again r m cfi :
  settings r = VObj m →
  truthy (get m "history") = true →
  locationHash r ≠ fragment_of cfi →
  hash_after_push (fragment_of cfi) ≠ fragment_of cfi →
  ∃ r1 r2,
    setLocation cfi r = (Ok tt, r1)
    ∧ history r1 = (history r ++ [fragment_of cfi])%list
    ∧ locationHash r1 = hash_after_push (fragment_of cfi)
    ∧ setLocation cfi r1 = (Ok tt, r2)
    ∧ history r2 = (history r ++ [fragment_of cfi; fragment_of cfi])%list.
Proof.
  intros Hs Hh Hfirst Hrewritten.
  apply String.eqb_neq in Hfirst, Hrewritten.
  unfold setLocation. fold (fragment_of cfi).
  unfold bind at 1. unfold update at 1.
  unfold bind at 1. erewrite setting_object by exact Hs.
  unfold bind at 1. unfold read at 1.
  cbn [locationHash with_currentLocationCfi]. rewrite Hh, Hfirst.
  cbn [andb negb]. unfold update at 1.
  eexists _, _. split; [reflexivity|]. split; [reflexivity|].
  split; [reflexivity|].
  unfold bind at 1. unfold update at 1.
  unfold bind at 1. erewrite setting_object by exact Hs.
  unfold bind at 1. unfold read at 1.
  cbn [locationHash with_currentLocationCfi with_pushed].
  rewrite Hh, Hrewritten. cbn [andb negb]. unfold update.
  split; [reflexivity|]. cbn [history with_pushed with_currentLocationCfi].
  by rewrite <- app_assoc.
Qed.


(** * Keyboard *)

Lemma get_insert_eq (m : gmap string value) k x : get (<[k := x]> m) k = x.
Proof. unfold get. by rewrite lookup_insert_eq. Qed.

(** C7: with a modifier held and the stored font size at [100%], the key
    [=] stores [102%] and the key [-] stores [98%], the rendition being
    given the same size; and whatever string the stored font size is, or
    if there is none yet, the key [0] stores [100%]. *)
Theorem font_size_keys r m styles e :
  settings r = VObj m →
  get m "styles" = VObj styles →
  ctrlKey e || metaKey e = true →
  (get styles "fontSize" = VStr "100%" → key e = "=" →
     arrowKeys e r =
       (Ok tt, with_fontSize "102%" m styles
                 (with_effect (ThemesFontSize "102%")
                    (with_effect PreventDefault r))))
  ∧ (get styles "fontSize" = VStr "100%" → key e = "-" →
     arrowKeys e r =
       (Ok tt, with_fontSize "98%" m styles
                 (with_effect (ThemesFontSize "98%")
                    (with_effect PreventDefault r))))
  ∧ (∀ s, get styles "fontSize" = VStr s ∨ get styles "fontSize" = VUndefined →
     key e = "0" →
     arrowKeys e r =
       (Ok tt, with_fontSize "100%" m styles
                 (with_effect (ThemesFontSize "100%")
                    (with_effect PreventDefault r)))).
Proof.
  intros Hs Hst Hmod. destruct r; simpl in Hs; subst.
  unfold arrowKeys, with_fontSize. rewrite Hmod.
  split; [|split].
  - intros Hf Hk. unfold font_keys. run. rewrite Hst. run. rewrite Hf. run.
    rewrite Hst. run. rewrite Hf, Hk.
    change (String.eqb "=" "=") with true. cbv iota.
    change (number_add (parseInt (slice_to_last "100%")) 2) with (VNum 102).
    change (number_text (VNum 102)) with (Ok (A:=string) "102").
    run. rewrite Hst. run. reflexivity.
  - intros Hf Hk. unfold font_keys. run. rewrite Hst. run. rewrite Hf. run.
    rewrite Hst. run. rewrite Hf, Hk.
    change (String.eqb "-" "=") with false.
    change (String.eqb "-" "-") with true. cbv iota.
    change (number_add (parseInt (slice_to_last "100%")) (-2)) with (VNum 98).
    change (number_text (VNum 98)) with (Ok (A:=string) "98").
    run. rewrite Hst. run. reflexivity.
  - intros s [Hf|Hf] Hk.
    + unfold font_keys. run. rewrite Hst. run. rewrite Hf. run.
      rewrite Hst. run. rewrite Hf, Hk.
      change (String.eqb "0" "=") with false.
      change (String.eqb "0" "-") with false.
      change (String.eqb "0" "0") with true. cbv iota.
      change (number_text (VNum 100)) with (Ok (A:=string) "100").
      run. rewrite Hst. run. reflexivity.
    + unfold font_keys. run. rewrite Hst. run. rewrite Hf. run.
      rewrite Hst. run. rewrite !get_insert_eq. run. rewrite !get_insert_eq, Hk.
      change (String.eqb "0" "=") with false.
      change (String.eqb "0" "-") with false.
      change (String.eqb "0" "0") with true. cbv iota.
      run. rewrite !get_insert_eq. run.
      change (number_text (VNum 100)) with (Ok (A:=string) "100").
      run. by rewrite !insert_insert_eq.
Qed.









(** * The query of the page URL *)

Lemma last_named_cons name p ps :
  last_named name (p :: ps) =
    match last_named name ps with
    | Some p' => Some p'
    | None => if String.eqb (parameter_name p) name then Some p else None
    end.
Proof.
  unfold last_named. simpl.
  destruct (String.eqb (parameter_name p) name); [|by destruct (last _)].
  by rewrite last_cons.
Qed.

Lemma get_insert_ne (m : gmap string value) k k' x :
  k ≠ k' → get (<[k := x]> m) k' = get m k'.
Proof. intros H. unfold get. by rewrite lookup_insert_ne. Qed.

Lemma assign_setting_object r m name x :
  settings r = VObj m →
  assign_setting name (VStr x) r
  = (Ok tt,
     with_settings
       (VObj (if ignored m name then m else <[name := VStr x]> m)) r).
Proof.
  intros H. unfold assign_setting, bind, read, lift, update. rewrite H.
  unfold assign_field, ignored.
  by destruct (String.eqb name "__proto__" && bool_decide (m !! name = None)).
Qed.

Lemma ignored_after_assignment (m : gmap string value) name x name' :
  ignored (if ignored m name then m else <[name := x]> m) name'
  = ignored m name'.
Proof.
  destruct (ignored m name) eqn:E; [done|].
  unfold ignored in *.
  destruct (String.eqb name' "__proto__") eqn:E'; [|done]. simpl.
  apply String.eqb_eq in E' as ->.
  destruct (decide (name = "__proto__")) as [->|Hne].
  - rewrite String.eqb_refl in E. simpl in E.
    apply bool_decide_eq_false in E.
    rewrite (bool_decide_eq_false_2 _ E).
    apply bool_decide_eq_false_2. by rewrite lookup_insert_eq.
  - by rewrite lookup_insert_ne.
Qed.

Lemma ignored_absent (m : gmap string value) name :
  ignored m name = true → m !! name = None.
Proof.
  unfold ignored. intros [_ H]%andb_true_iff. by apply bool_decide_eq_true in H.
Qed.

(** One more parameter in front. *)
Lemma assigned_cons p ps (m m' : gmap string value) text name :
  decodeURIComponent (parameter_value p) = Ok text →
  assigned ps
    (if ignored m (parameter_name p) then m
     else <[parameter_name p := VStr text]> m) m' name →
  assigned (p :: ps) m m' name.
Proof.
  intros Hd Hm'. unfold assigned in *. rewrite last_named_cons.
  rewrite ignored_after_assignment in Hm'.
  destruct (last_named name ps) as [p'|]; [done|].
  destruct (String.eqb (parameter_name p) name) eqn:En.
  - apply String.eqb_eq in En as <-. exists text. split; [done|].
    destruct (ignored m (parameter_name p)) eqn:E.
    + rewrite Hm'. by apply ignored_absent.
    + unfold get. by rewrite Hm', lookup_insert_eq.
  - apply String.eqb_neq in En. rewrite Hm'.
    destruct (ignored m (parameter_name p)); [done|].
    by rewrite lookup_insert_ne.
Qed.

Lemma for_each_parameters ps : ∀ r m r',
  settings r = VObj m →
  for_each apply_parameter ps r = (Ok tt, r') →
  ∃ m', r' = with_settings (VObj m') r ∧ ∀ name, assigned ps m m' name.
Proof.
  induction ps as [|p ps IH]; intros r m r' Hs Hrun.
  - exists m. simpl in Hrun. unfold ret in Hrun.
    injection Hrun as <-. split; [by rewrite with_settings_id|done].
  - simpl in Hrun. unfold bind at 1 in Hrun.
    unfold apply_parameter at 1 in Hrun.
    unfold bind at 1 in Hrun. unfold lift at 1 in Hrun.
    destruct (decodeURIComponent (parameter_value p)) as [text|err] eqn:Ed;
      [|done].
    rewrite (assign_setting_object _ _ _ _ Hs) in Hrun.
    eapply IH in Hrun; [|reflexivity].
    destruct Hrun as (m' & -> & Hm').
    exists m'. split; [done|]. intros name.
    by apply (assigned_cons _ _ _ _ text).
Qed.

Lemma apply_query_run r m r' :
  settings r = VObj m →
  apply_query r = (Ok tt, r') →
  ∃ m', r' = with_settings (VObj m') r
        ∧ ∀ name, assigned (query_parameters (search r)) m m' name.
Proof.
  intros Hs Hrun. unfold apply_query in Hrun. unfold bind at 1 in Hrun.
  unfold read at 1 in Hrun. unfold query_parameters.
  destruct (truthy (VStr (search r))).
  - by apply for_each_parameters.
  - by apply (for_each_parameters []).
Qed.








Section QueryStrings.
Variable JSON_parse : string → option value.



End QueryStrings.

(** A fragment made of plain characters is reported back as pushed. *)
Lemma plain_not_space c : plain c = true → (N_of_ascii c <=? 32)%N = false.
Proof.
  unfold plain. intros H. apply N.leb_gt.
  repeat (apply andb_true_iff in H as [H ?]). by apply N.ltb_lt in H.
Qed.

Lemma fragment_char_plain c : plain c = true → fragment_char c = String c "".
Proof.
  unfold plain, fragment_char. intros H.
  repeat (apply andb_true_iff in H as [H ?]).
  repeat match goal with
         | E : negb _ = true |- _ => apply negb_true_iff in E; rewrite E
         end.
  apply N.ltb_lt in H. rewrite (proj2 (N.leb_gt _ _) H).
  simpl. by match goal with E : (_ <? 127)%N = true |- _ => rewrite E end.
Qed.

Lemma strip_trailing_plain s : all_plain s = true → strip_trailing s = s.
Proof.
  induction s as [|c rest IH]; simpl; [done|].
  intros [Hc Hrest]%andb_true_iff.
  by rewrite (IH Hrest), (plain_not_space _ Hc), andb_false_r.
Qed.

Lemma plain_below c : plain c = true → (N_of_ascii c < 127)%N.
Proof.
  unfold plain. intros H.
  repeat (apply andb_true_iff in H as [H ?]).
  by match goal with E : (_ <? 127)%N = true |- _ => apply N.ltb_lt in E end.
Qed.

Lemma encode_fragment_plain s : all_plain s = true → encode_fragment s = s.
Proof.
  induction s as [|c rest IH]; [done|].
  cbn [all_plain encode_fragment]. intros [Hc Hrest]%andb_true_iff.
  pose proof (plain_not_space _ Hc) as Hn. apply N.leb_gt in Hn.
  pose proof (plain_below _ Hc) as Hb.
  assert (E9 : (N_of_ascii c =? 9)%N = false) by (apply N.eqb_neq; lia).
  assert (E10 : (N_of_ascii c =? 10)%N = false) by (apply N.eqb_neq; lia).
  assert (E13 : (N_of_ascii c =? 13)%N = false) by (apply N.eqb_neq; lia).
  assert (E237 : (N_of_ascii c =? 237)%N = false) by (apply N.eqb_neq; lia).
  rewrite E9, E10, E13, E237. cbn [orb andb].
  assert (Hstep : fragment_char c ++ encode_fragment rest = String c rest)
    by by rewrite (fragment_char_plain _ Hc), (IH Hrest).
  destruct rest as [|c2 [|c3 rest3]]; exact Hstep.
Qed.

Lemma plain_fragment_reported_back s :
  s ≠ "" → all_plain s = true →
  hash_after_push (fragment_of (VStr s)) = fragment_of (VStr s).
Proof.
  intros Hne Hp. unfold hash_after_push, fragment_of. simpl to_string.
  change ("#" ++ s) with (String "#" s).
  cbn [strip_trailing]. rewrite (strip_trailing_plain _ Hp).
  change (N_of_ascii "#" <=? 32)%N with false. rewrite andb_false_r.
  change (slice_from_1 (String "#" s)) with s.
  rewrite (encode_fragment_plain _ Hp).
  destruct (String.eqb_spec s ""); [done|reflexivity].
Qed.

(** * The statements on the sample runs *)





Lemma corrupted_record_throws_without_console_exception_witness :
  settings sample_reader_on_plain_console = VObj sample_settings
  ∧ localStorage sample_reader_on_plain_console
    = Some {[ "epubjs-reader:moby" := "{corrupted" ]}
  ∧ ({[ "epubjs-reader:moby" := "{corrupted" ]} : gmap string string)
      !! to_string (get sample_settings "bookKey") = Some "{corrupted"
  ∧ sample_parse "{corrupted" = None
  ∧ consoleException sample_reader_on_plain_console = false
  ∧ truthy (get sample_settings "restore") = true
  ∧ applySavedSettings sample_parse sample_reader_on_plain_console
    = (Throw TypeError, sample_reader_on_plain_console)
  ∧ restore_saved sample_parse sample_reader_on_plain_console
    = (Throw TypeError, sample_reader_on_plain_console).
Proof.
  assert (Hk : ({[ "epubjs-reader:moby" := "{corrupted" ]} : gmap string string)
                 !! to_string (get sample_settings "bookKey")
               = Some "{corrupted") by (vm_compute; reflexivity).
  assert (Hp : sample_parse "{corrupted" = None) by (vm_compute; reflexivity).
  assert (Hr : truthy (get sample_settings "restore") = true)
    by (vm_compute; reflexivity).
  split; [reflexivity|]. split; [reflexivity|].
  split; [exact Hk|]. split; [exact Hp|]. split; [reflexivity|].
  split; [exact Hr|].
  destruct (corrupted_record_throws_without_console_exception sample_parse
              sample_reader_on_plain_console sample_settings _ _
              eq_refl eq_refl Hk Hp eq_refl)
    as (H1 & _ & H3).
  split; [exact H1|exact (H3 Hr)].
Defined.

Lemma bookKey_derived_once_witness :
  settings (with_settings (VObj {[ "bookPath" := VStr "X" ]}) sample_reader)
  = VObj {[ "bookPath" := VStr "X" ]}
  ∧ is_undefined (get ({[ "bookPath" := VStr "X" ]} : gmap string value) "bookKey")
    = true
  ∧ ∃ r1,
      setBookKey sample_md5 (VStr "X")
        (with_settings (VObj {[ "bookPath" := VStr "X" ]}) sample_reader)
      = (Ok (VStr ("epubjs-reader:" ++ sample_md5 (VStr "X"))), r1)
      ∧ (∃ m1, settings r1 = VObj m1
               ∧ get m1 "bookKey"
                 = VStr ("epubjs-reader:" ++ sample_md5 (VStr "X")))
      ∧ setBookKey sample_md5 (VStr "Y") r1
        = (Ok (VStr ("epubjs-reader:" ++ sample_md5 (VStr "X"))), r1).
Proof.
  assert (Hu : is_undefined
                 (get ({[ "bookPath" := VStr "X" ]} : gmap string value) "bookKey")
               = true) by (vm_compute; reflexivity).
  split; [reflexivity|]. split; [exact Hu|].
  exact (proj1 (bookKey_derived_once sample_md5
                  (with_settings (VObj {[ "bookPath" := VStr "X" ]}) sample_reader)
                  {[ "bookPath" := VStr "X" ]} (VStr "X") (VStr "Y") eq_refl)
               Hu).
Defined.

(** Two positions that are pushed every time.  The fragment of the empty
    position is [#], and after the push [location.hash] reads the empty
    string; the fragment of [accented_cfi] holds a letter that the URL
    keeps percent-encoded.  In both cases the second call finds
    [location.hash] different from the fragment again. *)
Lemma setLocation_repeated_position_pushes_again :
  history (snd (setLocation (VStr "") sample_reader)) = ["#"]
  ∧ locationHash (snd (setLocation (VStr "") sample_reader)) = ""
  ∧ history (snd (setLocation (VStr "")
                    (snd (setLocation (VStr "") sample_reader))))
    = ["#"; "#"]
  ∧ ¬ repeated_position_pushes_nothing sample_reader (VStr "")
  ∧ locationHash (snd (setLocation accented_cfi sample_reader))
    = "#epubcfi(/6/4[caf%C3%A9]!/4/2/1:0)"
  ∧ ¬ repeated_position_pushes_nothing sample_reader accented_cfi.
Proof.
  split; [vm_compute; reflexivity|].
  split; [vm_compute; reflexivity|].
  split; [vm_compute; reflexivity|].
  split; [intros H; vm_compute in H; discriminate H|].
  split; [vm_compute; reflexivity|].
  intros H. vm_compute in H. discriminate H.
Qed.

Lemma setLocation_pushes_rewritten_fragment_again_witness :
  settings sample_reader = VObj sample_settings
  ∧ truthy (get sample_settings "history") = true
  ∧ locationHash sample_reader ≠ fragment_of accented_cfi
  ∧ hash_after_push (fragment_of accented_cfi) ≠ fragment_of accented_cfi
  ∧ ∃ r1 r2,
      setLocation accented_cfi sample_reader = (Ok tt, r1)
      ∧ history r1 = [fragment_of accented_cfi]
      ∧ locationHash r1 = "#epubcfi(/6/4[caf%C3%A9]!/4/2/1:0)"
      ∧ setLocation accented_cfi r1 = (Ok tt, r2)
      ∧ history r2 = [fragment_of accented_cfi; fragment_of accented_cfi].
Proof.
  assert (Hh : truthy (get sample_settings "history") = true)
    by (vm_compute; reflexivity).
  assert (H1 : locationHash sample_reader ≠ fragment_of accented_cfi)
    by (vm_compute; discriminate).
  assert (H2 : hash_after_push (fragment_of accented_cfi)
               ≠ fragment_of accented_cfi)
    by (vm_compute; discriminate).
  split; [reflexivity|]. split; [exact Hh|]. split; [exact H1|].
  split; [exact H2|].
  destruct (setLocation_pushes_rewritten_fragment_again sample_reader
              sample_settings accented_cfi eq_refl Hh H1 H2)
    as (r1 & r2 & E1 & E2 & E3 & E4 & E5).
  exists r1, r2. split; [exact E1|]. split; [exact E2|].
  split; [|split; [exact E4|exact E5]].
  rewrite E3. vm_compute. reflexivity.
Defined.

Lemma font_size_keys_witness :
  settings sample_reader = VObj sample_settings
  ∧ get sample_settings "styles" = VObj sample_styles
  ∧ ctrlKey (ctrl_key "=") || metaKey (ctrl_key "=") = true
  ∧ get sample_styles "fontSize" = VStr "100%"
  ∧ arrowKeys (ctrl_key "=") sample_reader =
      (Ok tt, with_fontSize "102%" sample_settings sample_styles
                (with_effect (ThemesFontSize "102%")
                   (with_effect PreventDefault sample_reader))).
Proof.
  assert (Hst : get sample_settings "styles" = VObj sample_styles)
    by (vm_compute; reflexivity).
  assert (Hf : get sample_styles "fontSize" = VStr "100%")
    by (vm_compute; reflexivity).
  split; [reflexivity|]. split; [exact Hst|]. split; [reflexivity|].
  split; [exact Hf|].
  exact (proj1 (font_size_keys sample_reader sample_settings sample_styles
                  (ctrl_key "=") eq_refl Hst eq_refl) Hf eq_refl).
Defined.



Lemma merge_stored_idempotent_witness :
  settings sample_reader = VObj sample_settings
  ∧ object_or_falsy (get sample_settings "styles") = true
  ∧ ∃ b r1,
      merge_stored sample_record sample_reader = (Ok b, r1)
      ∧ merge_stored sample_record r1 = (Ok b, r1).
Proof.
  assert (Ho : object_or_falsy (get sample_settings "styles") = true)
    by (vm_compute; reflexivity).
  split; [reflexivity|]. split; [exact Ho|].
  exact (merge_stored_idempotent sample_reader sample_settings sample_record
           eq_refl Ho).
Defined.


(** * Sessions from start to end *)

(** A session for the book [X] with nothing saved: nothing is reported
    as saved, the key is the prefix and the digest of [X], the location has
    no fragment, and the book is displayed from its start. *)
Example session_without_saved_record :
  let r := snd (init sample_md5 sample_parse (VStr "X") VUndefined
                  (fresh_reader "" ∅)) in
  fst (isSaved r) = Ok false
  ∧ get_field (settings r) "bookKey"
    = Ok (VStr ("epubjs-reader:" ++ sample_md5 (VStr "X")))
  ∧ locationHash r = ""
  ∧ trace r = [OpenBook (VStr "X"); RenderTo "viewer"; Display VUndefined].
Proof. vm_compute. repeat split; reflexivity. Qed.

(** The query [?restore=false] does not keep a saved record from being
    restored. *)
Example session_restoring_despite_query :
  let r := snd (init sample_md5 sample_parse (VStr "X") VUndefined
                  (fresh_reader "?restore=false"
                     {[ "epubjs-reader:digest-of-X" := "<saved record>" ]})) in
  get_field (settings r) "restore" = Ok (VStr "false")
  ∧ get_field (settings r) "bookmarks"
    = Ok (VArr [VStr "epubcfi(/6/8!/4/2/1:0)"])
  ∧ get_field (settings r) "styles"
    = Ok (VObj {[ "fontSize" := VStr "120%" ]}).
Proof. vm_compute. repeat split; reflexivity. Qed.

(** A query value that is not well-formed makes [init] throw. *)
Example session_with_malformed_query :
  fst (init sample_md5 sample_parse (VStr "X") VUndefined
         (fresh_reader "?bookPath=100%" ∅)) = Throw URIError.
Proof. vm_compute. reflexivity. Qed.

(** * More on [defaults] *)

Lemma first_defined_merge a b rest :
  first_defined ((if is_undefined a then b else a) :: rest)
  = first_defined (a :: b :: rest).
Proof. simpl. by destruct (is_undefined a) eqn:E; [|rewrite E]. Qed.

Lemma defaults_cons (target : gmap string value) source sources :
  defaults (VObj target) (source :: sources)
  = defaults (VObj (completed target (own_props source))) sources.
Proof. unfold defaults. simpl. by rewrite fold_fill_object. Qed.

Lemma reads_undefined_get (m : gmap string value) k :
  inherits m k = false → reads_undefined m k = is_undefined (get m k).
Proof.
  unfold inherits, reads_undefined, get.
  destruct (m !! k) as [v|]; simpl; [done|].
  destruct (inherited k); simpl; [|done].
  by rewrite ?bool_decide_eq_true_2.
Qed.

Lemma inherits_completed (target props : gmap string value) k :
  inherits (completed target props) k = inherits target k.
Proof.
  unfold inherits. destruct (inherited k) eqn:E; [|done]. simpl.
  rewrite lookup_completed. unfold reads_undefined. rewrite E.
  destruct (target !! k) as [v|]; simpl; [|done].
  apply bool_decide_eq_false_2.
  by destruct (is_undefined v), (props !! k).
Qed.

(** X1: on an object, [defaults] with any number of sources returns
    normally, and under every name the result holds the first value that
    is not [undefined] among the target's and the sources' in their
    order: an earlier source wins over a later one.  The exception is the
    name of an inherited member that the target does not have as an own
    property: it reads as defined, and no source gives the result a
    property of that name. *)
Theorem defaults_first_defined_wins (sources : list value) :
  ∀ target : gmap string value,
    ∃ merged : gmap string value,
      defaults (VObj target) sources = Ok (VObj merged)
      ∧ ∀ k, if inherits target k then merged !! k = None
             else get merged k =
                    first_defined
                      (get target k
                       :: List.map (fun s => get (own_props s) k) sources).
Proof.
  induction sources as [|source sources IH]; intros target.
  - exists target. split; [done|]. intros k.
    destruct (inherits target k) eqn:E.
    + apply andb_true_iff in E as [_ E]. by apply bool_decide_eq_true in E.
    + simpl. by destruct (get target k).
  - destruct (IH (completed target (own_props source))) as (merged & Hd & Hk).
    exists merged. split; [by rewrite defaults_cons|].
    intros k. specialize (Hk k). rewrite inherits_completed in Hk.
    destruct (inherits target k) eqn:E; [done|].
    rewrite Hk, get_completed, (reads_undefined_get _ _ E).
    apply first_defined_merge.
Qed.

Lemma fold_fill_throw e (props : gmap string value) :
  map_fold fill (Throw e) props = Throw e.
Proof.
  revert props. by apply (map_fold_weak_ind (fun r _ => r = Throw e));
    [|intros ???? _ ->].
Qed.

Lemma fold_fill_missing target (props : gmap string value) :
  target = VUndefined ∨ target = VNull →
  map_fold fill (Ok target) props
  = if decide (props = ∅) then Ok target else Throw TypeError.
Proof.
  intros Ht. revert props.
  apply (map_fold_weak_ind
           (fun r props =>
              r = if decide (props = ∅) then Ok target else Throw TypeError)).
  - by rewrite decide_True.
  - intros k x props r Hk ->.
    rewrite (decide_False (P := <[k:=x]> props = ∅))
      by apply insert_non_empty.
    destruct (decide (props = ∅)); [|done].
    by destruct Ht as [-> | ->].
Qed.

Lemma defaults_missing_cons target source sources :
  target = VUndefined ∨ target = VNull →
  defaults target (source :: sources)
  = if decide (own_props source = ∅) then defaults target sources
    else Throw TypeError.
Proof.
  intros Ht. unfold defaults. simpl. rewrite (fold_fill_missing _ _ Ht).
  destruct (decide (own_props source = ∅)); [done|].
  induction sources as [|s ss IH]; [done|].
  simpl. by rewrite fold_fill_throw.
Qed.

(** X2: on a target that is [undefined] or [null], [defaults] returns the
    target when no source has a property to copy, and throws [TypeError]
    as soon as one source has a property. *)
Theorem defaults_on_missing_target target sources :
  target = VUndefined ∨ target = VNull →
  (Forall (fun s => own_props s = ∅) sources →
     defaults target sources = Ok target)
  ∧ (Exists (fun s => own_props s ≠ ∅) sources →
     defaults target sources = Throw TypeError).
Proof.
  intros Ht. split.
  - induction 1 as [|s ss Hs _ IH]; [done|].
    by rewrite (defaults_missing_cons _ _ _ Ht), decide_True.
  - induction 1 as [s ss Hs|s ss _ IH];
      rewrite (defaults_missing_cons _ _ _ Ht).
    + by rewrite decide_False.
    + by destruct (decide (own_props s = ∅)).
Qed.

(** * More on the saved record *)

Lemma bind_ok {A B} (c : M A) (k : A → M B) r b r' :
  bind c k r = (Ok b, r') →
  ∃ a r1, c r = (Ok a, r1) ∧ k a r1 = (Ok b, r').
Proof.
  unfold bind. destruct (c r) as [[a|e] r1]; [eauto|done].
Qed.

Lemma isSaved_object r m :
  settings r = VObj m →
  isSaved r =
    (Ok (bool_decide (is_Some (stored_item r (to_string (get m "bookKey"))))), r).
Proof.
  intros Hs. unfold isSaved, stored_item, bind at 1. unfold read at 1.
  destruct (localStorage r) as [store|].
  - unfold bind. rewrite (setting_object _ _ _ Hs). unfold ret.
    destruct (store !! to_string (get m "bookKey")) eqn:E.
    + by rewrite bool_decide_true.
    + rewrite bool_decide_false; [done|]. by intros [? ?].
  - unfold ret. rewrite bool_decide_false; [done|]. by intros [? ?].
Qed.

(** X5: [removeSavedSettings] deletes the record of the book and nothing
    else: with a record under [bookKey] it returns [true], after which
    [isSaved] is [false], a second call returns [false], and the settings
    and the items under other keys are as before; with no record, or with
    no storage, it returns [false] and changes nothing. *)
Theorem removeSavedSettings_removes_the_record r m :
  settings r = VObj m →
  (is_Some (stored_item r (to_string (get m "bookKey"))) →
     ∃ r1,
       removeSavedSettings r = (Ok true, r1)
       ∧ isSaved r1 = (Ok false, r1)
       ∧ removeSavedSettings r1 = (Ok false, r1)
       ∧ settings r1 = settings r
       ∧ ∀ k, k ≠ to_string (get m "bookKey") →
              stored_item r1 k = stored_item r k)
  ∧ (stored_item r (to_string (get m "bookKey")) = None →
     removeSavedSettings r = (Ok false, r)).
Proof.
  intros Hs. split.
  - intros Hsome.
    assert (Hrun : removeSavedSettings r =
              (Ok true,
               with_localStorage
                 (delete (to_string (get m "bookKey")) <$> localStorage r) r)).
    { unfold removeSavedSettings, bind at 1.
      rewrite (isSaved_object _ _ Hs), bool_decide_true by done.
      unfold bind at 1. rewrite (setting_object _ _ _ Hs).
      reflexivity. }
    eexists. split; [exact Hrun|].
    set (r1 := with_localStorage _ r).
    assert (Hs1 : settings r1 = VObj m) by exact Hs.
    assert (Hgone : stored_item r1 (to_string (get m "bookKey")) = None).
    { unfold stored_item, r1. simpl.
      destruct (localStorage r); simpl; [apply lookup_delete_eq|done]. }
    split; [|split; [|split; [done|]]].
    + rewrite (isSaved_object _ _ Hs1), Hgone, bool_decide_false; [done|].
      by intros [? ?].
    + unfold removeSavedSettings, bind at 1.
      rewrite (isSaved_object _ _ Hs1), Hgone, bool_decide_false; [done|].
      by intros [? ?].
    + intros k Hk. unfold stored_item, r1. simpl.
      destruct (localStorage r); simpl; [by apply lookup_delete_ne|done].
  - intros Hnone. unfold removeSavedSettings, bind at 1.
    rewrite (isSaved_object _ _ Hs), Hnone, bool_decide_false; [done|].
    by intros [? ?].
Qed.

Section SavedRecord.
Variable JSON_parse : string → option value.
Variable JSON_stringify : value → string.

Lemma saveSettings_run r m m' :
  settings r = VObj m →
  captures r m m' →
  saveSettings JSON_stringify r = saved_outcome JSON_stringify r m'.
Proof.
  intros Hs Hc. unfold saveSettings. unfold bind at 1. unfold read at 1.
  destruct Hc as [Hb|start Hb Hst Hf|start cfi Hb Hst Ht Hcfi]; rewrite Hb.
  - unfold bind at 1. unfold ret at 1. by apply save_tail.
  - unfold bind at 1. unfold bind at 1. unfold read at 1.
    unfold bind at 1. unfold lift at 1. rewrite Hst, Hf.
    unfold ret at 1. by apply save_tail.
  - unfold bind at 1. unfold bind at 1. unfold read at 1.
    unfold bind at 1. unfold lift at 1. rewrite Hst, Ht.
    unfold bind at 1. unfold lift at 1. rewrite Hcfi.
    rewrite (set_setting_object _ _ _ _ Hs).
    erewrite save_tail by reflexivity. reflexivity.
Qed.

Lemma captures_bookKey r m m' :
  captures r m m' → get m' "bookKey" = get m "bookKey".
Proof. destruct 1; [done|done|]. by apply get_insert_ne. Qed.

(** X4: once [saveSettings] has run with a storage, the book is saved:
    [isSaved] answers [true], and the item under [bookKey] is the
    serialization of the settings with the position just captured. *)
Theorem saved_settings_are_found r m m' store :
  settings r = VObj m →
  captures r m m' →
  localStorage r = Some store →
  ∃ r1,
    saveSettings JSON_stringify r = (Ok true, r1)
    ∧ isSaved r1 = (Ok true, r1)
    ∧ stored_item r1 (to_string (get m "bookKey"))
      = Some (JSON_stringify (VObj m'))
    ∧ settings r1 = VObj m'.
Proof.
  intros Hs Hc Hl. rewrite (saveSettings_run _ _ _ Hs Hc).
  unfold saved_outcome. rewrite Hl. eexists. split; [reflexivity|].
  set (r1 := with_localStorage _ _).
  assert (Hs1 : settings r1 = VObj m') by reflexivity.
  assert (Hitem : stored_item r1 (to_string (get m "bookKey"))
                  = Some (JSON_stringify (VObj m'))).
  { unfold stored_item, r1. simpl.
    by rewrite (captures_bookKey _ _ _ Hc), lookup_insert_eq. }
  split; [|done].
  rewrite (isSaved_object _ _ Hs1), (captures_bookKey _ _ _ Hc), Hitem.
  by rewrite bool_decide_true.
Qed.

(** X7: with a book open and a rendition that reports no location yet
    ([undefined] or [null]), [saveSettings] throws [TypeError] before it
    reaches the storage: nothing is written and nothing changes; and so
    does [unload] when restore is on and there is a storage. *)
Theorem saveSettings_without_location_throws r m :
  settings r = VObj m →
  truthy (book r) = true →
  renditionLocation r = VUndefined ∨ renditionLocation r = VNull →
  saveSettings JSON_stringify r = (Throw TypeError, r)
  ∧ (truthy (get m "restore") = true → is_Some (localStorage r) →
     unload JSON_stringify r = (Throw TypeError, r)).
Proof.
  intros Hs Hb Hloc.
  assert (Hsave : saveSettings JSON_stringify r = (Throw TypeError, r)).
  { unfold saveSettings. unfold bind at 1. unfold read at 1. rewrite Hb.
    unfold bind at 1. unfold bind at 1. unfold read at 1.
    unfold bind at 1. unfold lift at 1.
    by destruct Hloc as [-> | ->]. }
  split; [exact Hsave|]. intros Hr Hl.
  unfold unload. unfold bind at 1. rewrite (setting_object _ _ _ Hs).
  unfold bind at 1. unfold read at 1.
  rewrite Hr, bool_decide_true by done. simpl.
  unfold bind. by rewrite Hsave.
Qed.

(** [saveSettings] either stops at a rendition without a location, or
    captures a position. *)
Lemma saveSettings_cases r m :
  settings r = VObj m →
  saveSettings JSON_stringify r = (Throw TypeError, r)
  ∨ ∃ m', captures r m m'.
Proof.
  intros Hs. destruct (truthy (book r)) eqn:Eb;
    [|right; exists m; by apply captures_no_book].
  destruct (get_field (renditionLocation r) "start") as [start|e] eqn:Est.
  - right. destruct (truthy start) eqn:Et;
      [|exists m; by apply (captures_no_start _ _ start)].
    destruct (get_field start "cfi") as [cfi|e] eqn:Ec.
    + exists (<["previousLocationCfi" := cfi]> m).
      apply (captures_start r m start cfi); [exact Eb|exact Est|exact Et|exact Ec].
    + by destruct start.
  - left.
    assert (He : e = TypeError)
      by (destruct (renditionLocation r); simpl in Est; congruence).
    unfold saveSettings. unfold bind at 1. unfold read at 1.
    rewrite Eb. unfold bind at 1. unfold bind at 1. unfold read at 1.
    unfold bind at 1. unfold lift at 1. by rewrite Est, He.
Qed.

(** What has been captured is captured again as it is, by a reader with
    the same book at the same location. *)
Lemma captures_again r r1 m m' :
  book r1 = book r →
  renditionLocation r1 = renditionLocation r →
  captures r m m' → captures r1 m' m'.
Proof.
  intros Hb Hl Hc.
  destruct Hc as [Eb|start Eb Est Et|start cfi Eb Est Et Ec].
  - apply captures_no_book. by rewrite Hb.
  - apply (captures_no_start _ _ start); by rewrite ?Hb, ?Hl.
  - rewrite <- (insert_insert_eq m "previousLocationCfi" cfi cfi) at 2.
    apply (captures_start _ _ start cfi); by rewrite ?Hb, ?Hl.
Qed.

Lemma saveSettings_again r m :
  settings r = VObj m →
  saveSettings JSON_stringify (snd (saveSettings JSON_stringify r))
  = saveSettings JSON_stringify r.
Proof.
  intros Hs. destruct (saveSettings_cases r m Hs) as [Ht|[m' Hc]].
  - by rewrite Ht.
  - rewrite (saveSettings_run _ _ _ Hs Hc). unfold saved_outcome.
    destruct (localStorage r) as [store|] eqn:El; cbn [snd].
    + erewrite saveSettings_run;
        [|reflexivity|by apply (captures_again r _ m)].
      unfold saved_outcome. cbn [localStorage with_localStorage].
      rewrite insert_insert_eq. by destruct r.
    + erewrite saveSettings_run;
        [|reflexivity|by apply (captures_again r _ m)].
      unfold saved_outcome. cbn [localStorage with_settings].
      rewrite El. by destruct r.
Qed.

Lemma unload_run r m :
  settings r = VObj m →
  unload JSON_stringify r
  = if truthy (get m "restore") && bool_decide (is_Some (localStorage r))
    then (saveSettings JSON_stringify ;; ret tt) r
    else (Ok tt, r).
Proof.
  intros Hs. unfold unload. unfold bind at 1.
  rewrite (setting_object _ _ _ Hs). unfold bind at 1. unfold read at 1.
  by destruct (truthy (get m "restore") && _).
Qed.

(** X8: [unload] is idempotent, and writes only when restore is on and
    there is a storage.  On settings that are an object, a second [unload]
    right after the first, the rendition being where it was, has the
    outcome of the first, the same [TypeError] when it throws, and leaves
    the reader, its settings and its storage as the first left them; and
    when restore is falsy or there is no storage, [unload] returns and
    changes nothing. *)
Theorem unload_twice_is_unload_once r m :
  settings r = VObj m →
  unload JSON_stringify (snd (unload JSON_stringify r))
  = unload JSON_stringify r
  ∧ (truthy (get m "restore") = false ∨ localStorage r = None →
     unload JSON_stringify r = (Ok tt, r)).
Proof.
  intros Hs. split.
  - rewrite (unload_run _ _ Hs).
    destruct (truthy (get m "restore")
              && bool_decide (is_Some (localStorage r))) eqn:Ec;
      [|cbn [snd]; by rewrite (unload_run _ _ Hs), Ec].
    apply andb_true_iff in Ec as [Er Hsome].
    apply bool_decide_eq_true in Hsome as [store El].
    destruct (saveSettings_cases r m Hs) as [Ht|[m' Hc]].
    + assert (HX : (saveSettings JSON_stringify ;; ret tt) r
                   = (Throw TypeError, r))
        by (unfold bind; by rewrite Ht).
      rewrite HX. cbn [snd].
      rewrite (unload_run _ _ Hs), Er, El, bool_decide_true by done.
      exact HX.
    + pose proof (saveSettings_again r m Hs) as Hagain.
      rewrite (saveSettings_run _ _ _ Hs Hc) in Hagain.
      unfold saved_outcome in Hagain. rewrite El in Hagain.
      cbn [snd] in Hagain.
      set (r1 := with_localStorage _ _) in Hagain.
      assert (HX : (saveSettings JSON_stringify ;; ret tt) r = (Ok tt, r1)).
      { unfold bind. rewrite (saveSettings_run _ _ _ Hs Hc).
        unfold saved_outcome. by rewrite El. }
      rewrite HX. cbn [snd].
      assert (Hr : get m' "restore" = get m "restore")
        by (destruct Hc; [done|done|by apply get_insert_ne]).
      rewrite (unload_run r1 m' eq_refl), Hr, Er.
      rewrite bool_decide_true by (by eexists).
      unfold bind. by rewrite Hagain.
  - intros H. rewrite (unload_run _ _ Hs).
    destruct H as [-> | ->]; [done|].
    by rewrite andb_false_r.
Qed.

Lemma applySavedSettings_run r m store text stored :
  settings r = VObj m →
  (truthy (stored_styles stored) = true →
   object_or_falsy (get m "styles") = true) →
  localStorage r = Some store →
  store !! to_string (get m "bookKey") = Some text →
  JSON_parse text = Some stored →
  truthy stored = true →
  applySavedSettings JSON_parse r
  = (Ok true, with_settings (VObj (restored m stored)) r).
Proof.
  intros Hs Ho Hl Ht Hp Htr.
  unfold applySavedSettings, bind at 1. unfold read at 1. rewrite Hl.
  unfold bind at 1. rewrite (read_stored_object _ _ _ _ Hs), Ht, Hp.
  by rewrite (merge_stored_run _ _ _ Hs Ho), Htr.
Qed.

Lemma lookup_with_saved_styles (m : gmap string value) stored k :
  k ≠ "styles" → with_saved_styles m stored !! k = m !! k.
Proof.
  intros Hk. unfold with_saved_styles.
  destruct (truthy (stored_styles stored)); [|done].
  by apply lookup_insert_ne.
Qed.

(** X3: restoring a saved record fills gaps only, at both levels, on
    settings whose styles are an object or missing.  Under every name but
    [styles] the settings keep what they have unless it reads
    [undefined], in which case they take the property of the record, if it
    has one; when the record has styles, the styles become an object that
    keeps every style that reads as defined and takes the others from the
    record. *)
Theorem applySavedSettings_fills_gaps r m store text stored :
  settings r = VObj m →
  object_or_falsy (get m "styles") = true →
  localStorage r = Some store →
  store !! to_string (get m "bookKey") = Some text →
  JSON_parse text = Some stored →
  truthy stored = true →
  ∃ m',
    applySavedSettings JSON_parse r = (Ok true, with_settings (VObj m') r)
    ∧ (∀ k, k ≠ "styles" →
         m' !! k = if reads_undefined m k
                   then from_option Some (m !! k) (own_props stored !! k)
                   else m !! k)
    ∧ (if truthy (stored_styles stored)
       then ∃ styles',
           m' !! "styles" = Some (VObj styles')
           ∧ ∀ k, styles' !! k =
                  if reads_undefined (object_of (get m "styles")) k
                  then from_option Some (object_of (get m "styles") !! k)
                         (own_props (stored_styles stored) !! k)
                  else object_of (get m "styles") !! k
       else m' !! "styles" =
              if reads_undefined m "styles"
              then from_option Some (m !! "styles")
                     (own_props stored !! "styles")
              else m !! "styles").
Proof.
  intros Hs Ho Hl Ht Hp Htr. exists (restored m stored).
  split; [by apply (applySavedSettings_run _ _ store text)|].
  split.
  - intros k Hk. unfold restored. rewrite lookup_completed.
    unfold reads_undefined. by rewrite lookup_with_saved_styles.
  - destruct (truthy (stored_styles stored)) eqn:E.
    + eexists. split; [by apply restored_styles|].
      intros k. apply lookup_completed.
    + unfold restored, with_saved_styles. rewrite E. apply lookup_completed.
Qed.

Lemma completed_subseteq (m record : gmap string value) :
  record ⊆ m → completed m record = m.
Proof.
  intros Hsub. apply map_eq; intros k. rewrite lookup_completed.
  destruct (reads_undefined m k); [|done].
  destruct (record !! k) as [v|] eqn:E; [|done].
  by rewrite (lookup_weaken _ _ _ _ E Hsub).
Qed.

Lemma restored_subseteq (m record : gmap string value) :
  object_or_falsy (get m "styles") = true →
  record ⊆ m → restored m (VObj record) = m.
Proof.
  intros Ho Hsub. unfold restored, with_saved_styles. simpl stored_styles.
  destruct (truthy (get record "styles")) eqn:E;
    [|by apply completed_subseteq].
  assert (Hst : m !! "styles" = Some (get record "styles")).
  { unfold get in *. destruct (record !! "styles") as [v|] eqn:Er; [|done].
    by rewrite (lookup_weaken _ _ _ _ Er Hsub). }
  assert (Hg : get m "styles" = get record "styles")
    by (unfold get at 1; by rewrite Hst).
  rewrite Hg in Ho |- *.
  destruct (get record "styles") as [| |b|n| |i|s|l|t] eqn:Et;
    simpl in Ho, E; try done; try (by rewrite E in Ho).
  simpl. rewrite (completed_subseteq t t) by done.
  rewrite (insert_id _ _ _ Hst). by apply completed_subseteq.
Qed.

(** X6: saving and restoring is a round trip.  When the host reads the
    saved text back as a record whose fields are fields of the settings
    (a JSON text drops the fields that are [undefined]), restoring right
    after saving returns [true] and leaves the reader as it is. *)
Theorem restoring_what_was_saved_changes_nothing r m m' store record :
  settings r = VObj m →
  captures r m m' →
  object_or_falsy (get m "styles") = true →
  localStorage r = Some store →
  JSON_parse (JSON_stringify (VObj m')) = Some (VObj record) →
  record ⊆ m' →
  ∃ r1,
    saveSettings JSON_stringify r = (Ok true, r1)
    ∧ applySavedSettings JSON_parse r1 = (Ok true, r1).
Proof.
  intros Hs Hc Ho Hl Hp Hsub.
  rewrite (saveSettings_run _ _ _ Hs Hc). unfold saved_outcome. rewrite Hl.
  eexists. split; [reflexivity|].
  set (r1 := with_localStorage _ _).
  assert (Ho' : object_or_falsy (get m' "styles") = true).
  { destruct Hc; [done|done|]. by rewrite get_insert_ne. }
  rewrite (applySavedSettings_run r1 m' _ _ (VObj record) eq_refl
             (fun _ => Ho') eq_refl (lookup_insert_eq _ _ _) Hp eq_refl).
  rewrite (restored_subseteq _ _ Ho' Hsub).
  by rewrite (with_settings_id r1 m' eq_refl).
Qed.

End SavedRecord.

(** * More on the location *)

(** X9: a pushed position comes back.  With history tracking on and a
    position whose fragment the location reports back as pushed, after
    [setLocation] the location reads the fragment of the position, and
    [hashChanged] asks the rendition to display that very position. *)
Theorem pushed_position_is_displayed_back r m c :
  settings r = VObj m →
  truthy (get m "history") = true →
  hash_after_push (fragment_of (VStr c)) = fragment_of (VStr c) →
  ∃ r1,
    setLocation (VStr c) r = (Ok tt, r1)
    ∧ locationHash r1 = fragment_of (VStr c)
    ∧ hashChanged r1 = (Ok tt, with_effect (Display (VStr c)) r1).
Proof.
  intros Hs Hh Hstable. unfold setLocation. fold (fragment_of (VStr c)).
  unfold bind at 1. unfold update at 1.
  unfold bind at 1. erewrite setting_object by exact Hs.
  unfold bind at 1. unfold read at 1. rewrite Hh.
  cbn [locationHash with_currentLocationCfi andb].
  assert (Hback : ∀ r1, locationHash r1 = fragment_of (VStr c) →
            hashChanged r1 = (Ok tt, with_effect (Display (VStr c)) r1)).
  { intros r1 H1. unfold hashChanged, bind, read, call, update. by rewrite H1. }
  destruct (String.eqb (locationHash r) (fragment_of (VStr c))) eqn:E; simpl.
  - apply String.eqb_eq in E.
    eexists. split; [reflexivity|]. split; [exact E|]. by apply Hback.
  - eexists. split; [reflexivity|]. split; [exact Hstable|]. by apply Hback.
Qed.

(** * More on the keyboard *)

(** The text of a number reads back as the number. *)
Lemma digit_value_pretty d :
  (d < 10)%N → digit_value 10 (pretty_N_char d) = Some d.
Proof.
  intros H.
  assert (d = 0 ∨ d = 1 ∨ d = 2 ∨ d = 3 ∨ d = 4 ∨ d = 5 ∨ d = 6 ∨ d = 7
          ∨ d = 8 ∨ d = 9)%N as Hd by lia.
  by repeat destruct Hd as [->|Hd]; [..|subst d].
Qed.

Lemma digits_pretty_go x : ∀ acc s,
  (0 < x)%N →
  ∃ p : Z,
    digits 10 acc (pretty_N_go x s)
    = digits 10 (Some (p * default 0 acc + Z.of_N x)%Z) s.
Proof.
  induction (N.lt_wf_0 x) as [x _ IH]; intros acc s Hx.
  rewrite pretty_N_go_step by done.
  assert (Hmod : (x `mod` 10 < 10)%N) by (apply N.mod_lt; lia).
  pose proof (N.div_mod x 10 ltac:(lia)) as Hdm.
  destruct (decide (x `div` 10 = 0)%N) as [E|E].
  - rewrite E, pretty_N_go_0. simpl digits.
    rewrite (digit_value_pretty _ Hmod). exists 10%Z.
    do 2 f_equal. lia.
  - destruct (IH (x `div` 10)%N ltac:(apply N.div_lt; lia) acc
                (String (pretty_N_char (x `mod` 10)) s)
                (proj1 (N.neq_0_lt_0 _) E))
      as [p Hp].
    rewrite Hp. simpl digits. rewrite (digit_value_pretty _ Hmod).
    exists (10 * p)%Z. simpl default. do 2 f_equal. lia.
Qed.

Lemma pretty_go_head x s :
  (0 < x)%N →
  ∃ d rest, pretty_N_go x s = String (pretty_N_char d) rest ∧ (0 < d < 10)%N.
Proof.
  revert s. induction (N.lt_wf_0 x) as [x _ IH]; intros s Hx.
  rewrite pretty_N_go_step by done.
  destruct (decide (x `div` 10 = 0)%N) as [E|E].
  - rewrite E, pretty_N_go_0. exists (x `mod` 10)%N, s. split; [done|].
    pose proof (N.div_mod x 10 ltac:(lia)).
    pose proof (N.mod_lt x 10 ltac:(lia)). lia.
  - apply IH.
    + apply N.div_lt; lia.
    + apply N.neq_0_lt_0. exact E.
Qed.

Lemma parseInt_leading_digit d rest :
  (0 < d < 10)%N →
  parseInt (String (pretty_N_char d) rest)
  = match digits 10 None (String (pretty_N_char d) rest) with
    | Some n => to_number (1 * n)
    | None => VNaN
    end
  ∧ parseInt (String "-" (String (pretty_N_char d) rest))
    = match digits 10 None (String (pretty_N_char d) rest) with
      | Some n => to_number (-1 * n)
      | None => VNaN
      end.
Proof.
  intros H.
  assert (d = 1 ∨ d = 2 ∨ d = 3 ∨ d = 4 ∨ d = 5 ∨ d = 6 ∨ d = 7
          ∨ d = 8 ∨ d = 9)%N as Hd by lia.
  repeat destruct Hd as [->|Hd]; [..|subst d];
    (split; [by destruct rest as [|c2 [|c3 rest3]]
            |by destruct rest as [|c3 rest3]]).
Qed.

Lemma parseInt_pretty (n : Z) : parseInt (pretty n) = to_number n.
Proof.
  destruct n as [|p|p]; [done|..].
  - change (pretty (Z.pos p)) with (pretty_N_go (N.pos p) "").
    destruct (pretty_go_head (N.pos p) "" ltac:(lia)) as (d & rest & Hh & Hd).
    destruct (digits_pretty_go (N.pos p) None "" ltac:(lia)) as [q Hq].
    rewrite Hh in Hq |- *.
    rewrite (proj1 (parseInt_leading_digit d rest Hd)), Hq.
    cbn [digits default]. f_equal. lia.
  - change (pretty (Z.neg p)) with (String "-" (pretty_N_go (N.pos p) "")).
    destruct (pretty_go_head (N.pos p) "" ltac:(lia)) as (d & rest & Hh & Hd).
    destruct (digits_pretty_go (N.pos p) None "" ltac:(lia)) as [q Hq].
    rewrite Hh in Hq |- *.
    rewrite (proj2 (parseInt_leading_digit d rest Hd)), Hq.
    cbn [digits default]. f_equal. lia.
Qed.

(** A safe integer is a number as it is. *)
Lemma to_number_safe n :
  (Z.abs n <= max_safe_integer)%Z → to_number n = VNum n.
Proof.
  intros H. unfold to_number, nearest_double.
  rewrite (proj2 (Z.leb_le _ _) H).
  assert (Hbig : (max_safe_integer < 2 ^ 1024)%Z) by (vm_compute; reflexivity).
  generalize dependent (2 ^ 1024)%Z. intros big Hbig.
  assert (Hlt : (Z.abs n < big)%Z) by lia.
  by rewrite (proj2 (Z.ltb_lt _ _) Hlt).
Qed.

(** The texts of the integers are made of plain characters, each a code
    unit of its own. *)
Lemma plain_digit d : (d < 10)%N → plain (pretty_N_char d) = true.
Proof.
  intros H.
  assert (d = 0 ∨ d = 1 ∨ d = 2 ∨ d = 3 ∨ d = 4 ∨ d = 5 ∨ d = 6 ∨ d = 7
          ∨ d = 8 ∨ d = 9)%N as Hd by lia.
  by repeat destruct Hd as [->|Hd]; [..|subst d].
Qed.

Lemma all_plain_pretty_go x : ∀ s,
  all_plain s = true → all_plain (pretty_N_go x s) = true.
Proof.
  induction (N.lt_wf_0 x) as [x _ IH]; intros s Hs.
  destruct (decide (x = 0)%N) as [->|Hx]; [by rewrite pretty_N_go_0|].
  rewrite pretty_N_go_step by lia.
  apply IH; [apply N.div_lt; lia|].
  cbn [all_plain]. rewrite Hs, plain_digit; [done|].
  apply N.mod_lt. lia.
Qed.

Lemma all_plain_pretty (n : Z) : all_plain (pretty n) = true.
Proof.
  destruct n as [|p|p]; [done|..].
  - change (pretty (Z.pos p)) with (pretty_N_go (N.pos p) "").
    by apply all_plain_pretty_go.
  - change (pretty (Z.neg p)) with (String "-" (pretty_N_go (N.pos p) "")).
    cbn [all_plain]. by rewrite all_plain_pretty_go.
Qed.

Lemma plain_unit_size c : plain c = true → unit_size c = 1%nat.
Proof.
  intros H. apply plain_below in H. unfold unit_size.
  assert (Hlt : (N_of_ascii c < 192)%N) by lia.
  by rewrite (proj2 (N.ltb_lt _ _) Hlt).
Qed.

Lemma slice_to_last_percent s :
  all_plain s = true → slice_to_last (s ++ "%") = s.
Proof.
  induction s as [|c s IH]; [done|].
  cbn [all_plain]. intros [Hc Hs]%andb_true_iff.
  change (String c s ++ "%") with (String c (s ++ "%")).
  cbn [slice_to_last]. rewrite (plain_unit_size _ Hc), (IH Hs).
  by destruct s.
Qed.

Lemma number_text_safe n :
  (Z.abs n <= max_safe_integer)%Z → number_text (VNum n) = Ok (pretty n).
Proof.
  intros H. unfold number_text, integer_text.
  by rewrite (proj2 (Z.leb_le _ _) H).
Qed.

(** The first half of [arrowKeys] on a stored size: what is stored back is
    the text of the number the key chooses, followed by a percent sign. *)
Lemma font_step r m styles e n d :
  settings r = VObj m →
  get m "styles" = VObj styles →
  ctrlKey e || metaKey e = true →
  get styles "fontSize" = VStr (pretty n ++ "%") →
  (Z.abs n <= max_safe_integer)%Z →
  (Z.abs (n + d) <= max_safe_integer)%Z →
  (key e = "=" ∧ d = 2%Z) ∨ (key e = "-" ∧ d = (-2)%Z) →
  arrowKeys e r =
    (Ok tt, with_fontSize (pretty (n + d)%Z ++ "%") m styles
              (with_effect (ThemesFontSize (pretty (n + d)%Z ++ "%"))
                 (with_effect PreventDefault r))).
Proof.
  intros Hs Hst Hmod Hf Hn Hsafe Hkey. destruct r; simpl in Hs; subst.
  unfold arrowKeys, with_fontSize. rewrite Hmod.
  unfold font_keys. run. rewrite Hst. run. rewrite Hf. run.
  rewrite Hst. run.
  rewrite Hf, (slice_to_last_percent _ (all_plain_pretty n)), parseInt_pretty.
  rewrite (to_number_safe _ Hn).
  destruct Hkey as [[Hk ->]|[Hk ->]]; rewrite Hk.
  - change (String.eqb "=" "=") with true. cbv iota.
    change (number_add (VNum n) 2) with (to_number (n + 2)).
    rewrite (to_number_safe _ Hsafe).
    rewrite (number_text_safe _ Hsafe). run. rewrite Hst. run.
    rewrite (number_text_safe _ Hsafe). run. reflexivity.
  - change (String.eqb "-" "=") with false.
    change (String.eqb "-" "-") with true. cbv iota.
    change (number_add (VNum n) (-2)) with (to_number (n + -2)).
    rewrite (to_number_safe _ Hsafe).
    rewrite (number_text_safe _ Hsafe). run. rewrite Hst. run.
    rewrite (number_text_safe _ Hsafe). run. reflexivity.
Qed.


(** Past the safe integers the sum is the nearest double, or an infinity,
    and it has a text all the same. *)
Lemma number_text_of_sum n d :
  ∃ text, number_text (number_add (to_number n) d) = Ok text.
Proof.
  unfold to_number.
  destruct (Z.abs (nearest_double n) <? 2 ^ 1024)%Z; cbn [number_add].
  - unfold to_number.
    destruct (Z.abs (nearest_double (nearest_double n + d)) <? 2 ^ 1024)%Z;
      eexists; reflexivity.
  - eexists; reflexivity.
Qed.

(** The same half on every integer: the size stored back is the text of
    the sum as a Number, whatever its magnitude. *)
Lemma font_step_any r m styles e n d text :
  settings r = VObj m →
  get m "styles" = VObj styles →
  ctrlKey e || metaKey e = true →
  get styles "fontSize" = VStr (pretty n ++ "%") →
  (key e = "=" ∧ d = 2%Z) ∨ (key e = "-" ∧ d = (-2)%Z) →
  number_text (number_add (to_number n) d) = Ok text →
  arrowKeys e r =
    (Ok tt, with_fontSize (text ++ "%") m styles
              (with_effect (ThemesFontSize (text ++ "%"))
                 (with_effect PreventDefault r))).
Proof.
  intros Hs Hst Hmod Hf Hkey Ht. destruct r; simpl in Hs; subst.
  unfold arrowKeys, with_fontSize. rewrite Hmod.
  unfold font_keys. run. rewrite Hst. run. rewrite Hf. run.
  rewrite Hst. run.
  rewrite Hf, (slice_to_last_percent _ (all_plain_pretty n)), parseInt_pretty.
  destruct Hkey as [[Hk ->]|[Hk ->]]; rewrite Hk.
  - change (String.eqb "=" "=") with true. cbv iota.
    rewrite Ht. run. rewrite Hst. run. rewrite Ht. run. reflexivity.
  - change (String.eqb "-" "=") with false.
    change (String.eqb "-" "-") with true. cbv iota.
    rewrite Ht. run. rewrite Hst. run. rewrite Ht. run. reflexivity.
Qed.

(** X11: the font size moves by steps of two, with no floor and no
    ceiling of its own.  With a modifier held and a stored size that is
    the text of an integer [n] followed by a percent sign, whatever [n],
    the key [=] stores and hands to the rendition the text of the Number
    [n + 2], the key [-] that of [n - 2], below zero as well, the sums
    being those of Numbers: exact while [n] and its two neighbours are
    safe integers, where [=] followed by [-] leaves the settings as they
    were, and rounded to a double beyond. *)
Theorem font_size_steps_by_two r m styles up down n :
  settings r = VObj m →
  get m "styles" = VObj styles →
  get styles "fontSize" = VStr (pretty n ++ "%") →
  ctrlKey up || metaKey up = true → key up = "=" →
  ctrlKey down || metaKey down = true → key down = "-" →
  ∃ more less,
    number_text (number_add (to_number n) 2) = Ok more
    ∧ number_text (number_add (to_number n) (-2)) = Ok less
    ∧ arrowKeys up r
      = (Ok tt, with_fontSize (more ++ "%") m styles
                  (with_effect (ThemesFontSize (more ++ "%"))
                     (with_effect PreventDefault r)))
    ∧ arrowKeys down r
      = (Ok tt, with_fontSize (less ++ "%") m styles
                  (with_effect (ThemesFontSize (less ++ "%"))
                     (with_effect PreventDefault r)))
    ∧ ((Z.abs n + 2 <= max_safe_integer)%Z →
       more = pretty (n + 2)%Z
       ∧ less = pretty (n - 2)%Z
       ∧ settings (snd (arrowKeys down (snd (arrowKeys up r))))
         = settings r).
Proof.
  intros Hs Hst Hf Hmu Hku Hmd Hkd.
  destruct (number_text_of_sum n 2) as [more Hmore].
  destruct (number_text_of_sum n (-2)) as [less Hless].
  pose proof (font_step_any r m styles up n 2 more Hs Hst Hmu Hf
                (or_introl (conj Hku eq_refl)) Hmore) as Hup.
  pose proof (font_step_any r m styles down n (-2) less Hs Hst Hmd Hf
                (or_intror (conj Hkd eq_refl)) Hless) as Hdown.
  exists more, less.
  split; [exact Hmore|]. split; [exact Hless|].
  split; [exact Hup|]. split; [exact Hdown|].
  intros Hsafe. rewrite Hup. cbn [snd].
  assert (Hn : (Z.abs n <= max_safe_integer)%Z) by lia.
  assert (Hn2 : (Z.abs (n + 2) <= max_safe_integer)%Z) by lia.
  assert (Hn0 : (Z.abs (n + -2) <= max_safe_integer)%Z) by lia.
  rewrite (to_number_safe _ Hn) in Hmore, Hless.
  change (number_add (VNum n) 2) with (to_number (n + 2)) in Hmore.
  change (number_add (VNum n) (-2)) with (to_number (n + -2)) in Hless.
  rewrite (to_number_safe _ Hn2), (number_text_safe _ Hn2) in Hmore.
  rewrite (to_number_safe _ Hn0), (number_text_safe _ Hn0) in Hless.
  injection Hmore as <-. injection Hless as <-.
  split; [reflexivity|]. split; [reflexivity|].
  clear Hup Hdown.
  set (r1 := with_fontSize _ m styles _).
  erewrite (font_step r1 _ _ down (n + 2) (-2) eq_refl).
  - unfold with_fontSize, r1, with_fontSize.
    cbn [settings with_settings with_effect snd].
    replace (n + 2 + -2)%Z with n by lia.
    assert (H1 : styles !! "fontSize" = Some (VStr (pretty n ++ "%"))).
    { unfold get in Hf. by destruct (styles !! "fontSize"); simplify_eq/=. }
    assert (H2 : m !! "styles" = Some (VObj styles)).
    { unfold get in Hst. by destruct (m !! "styles"); simplify_eq/=. }
    rewrite Hs. clear Hf.
    generalize dependent (pretty n ++ "%").
    generalize (pretty (n + 2)%Z ++ "%"). intros b a H1.
    rewrite (insert_insert_eq m), (insert_insert_eq styles).
    by rewrite (insert_id _ _ _ H1), (insert_id _ _ _ H2).
  - apply get_insert_eq.
  - exact Hmd.
  - apply get_insert_eq.
  - lia.
  - lia.
  - right. done.
Qed.

(** X12: a stored size that does not begin with a number is lost.  With
    a modifier held, [=] and [-] store and hand to the rendition [NaN%],
    which does not begin with a number either: only the key [0] brings a
    size back. *)
Theorem unreadable_font_size_becomes_NaN r m styles e s :
  settings r = VObj m →
  get m "styles" = VObj styles →
  ctrlKey e || metaKey e = true →
  get styles "fontSize" = VStr s →
  parseInt (slice_to_last s) = VNaN →
  key e = "=" ∨ key e = "-" →
  arrowKeys e r =
    (Ok tt, with_fontSize "NaN%" m styles
              (with_effect (ThemesFontSize "NaN%")
                 (with_effect PreventDefault r)))
  ∧ parseInt (slice_to_last "NaN%") = VNaN.
Proof.
  intros Hs Hst Hmod Hf Hnan Hkey. split; [|reflexivity].
  destruct r; simpl in Hs; subst.
  unfold arrowKeys, with_fontSize. rewrite Hmod.
  unfold font_keys. run. rewrite Hst. run. rewrite Hf. run.
  rewrite Hst. run. rewrite Hf, Hnan.
  destruct Hkey as [Hk|Hk]; rewrite Hk.
  - change (String.eqb "=" "=") with true. cbv iota.
    change (number_text (number_add VNaN 2)) with (Ok (A:=string) "NaN").
    run. rewrite Hst. run. reflexivity.
  - change (String.eqb "-" "=") with false.
    change (String.eqb "-" "-") with true. cbv iota.
    change (number_text (number_add VNaN (-2))) with (Ok (A:=string) "NaN").
    run. rewrite Hst. run. reflexivity.
Qed.


(** * Bookmarks *)

Lemma strict_equal_string y c :
  ∃ b, strict_equal y (VStr c) = Ok b ∧ (b = true ↔ y = VStr c).
Proof.
  destruct y as [| |b|n| |i|s|l|o]; simpl;
    try (exists false; split; [done|]; split; done).
  exists (String.eqb s c). split; [done|].
  rewrite String.eqb_eq. split; [by intros ->|by intros [= ->]].
Qed.

Lemma index_from_string c l : ∀ i,
  ∃ j, index_from i (VStr c) l = Ok j
       ∧ ((j = (-1)%Z ∧ VStr c ∉ l)
          ∨ ∃ k : nat,
              j = (i + Z.of_nat k)%Z
              ∧ l !! k = Some (VStr c)
              ∧ ∀ k' : nat, (k' < k)%nat → l !! k' ≠ Some (VStr c)).
Proof.
  induction l as [|y l IH]; intros i.
  - exists (-1)%Z. split; [done|]. left. split; [done|]. by intros ?%elem_of_nil.
  - simpl. destruct (strict_equal_string y c) as (b & -> & Hb).
    destruct b.
    + exists i. split; [done|]. right. exists 0%nat.
      rewrite (proj1 Hb eq_refl). split; [lia|]. split; [done|]. lia.
    + assert (Hy : y ≠ VStr c) by (intros E; by apply Hb in E).
      destruct (IH (i + 1)%Z) as (j & -> & Hj). exists j. split; [done|].
      destruct Hj as [[-> Hnot]|(k & -> & Hk & Hfirst)].
      * left. split; [done|]. intros [?|?]%elem_of_cons; [by apply Hy|done].
      * right. exists (S k). split; [lia|]. split; [done|].
        intros [|k'] Hlt; simpl; [by intros [= ?]|]. apply Hfirst. lia.
Qed.

(** X13: on a list of bookmarks, [isBookmarked] of a string answers -1
    exactly when the string is not in the list, and otherwise the index of
    its first occurrence, a valid index of the list; it changes
    nothing. *)
Theorem isBookmarked_finds_first r m l c :
  settings r = VObj m →
  get m "bookmarks" = VArr l →
  ∃ i : Z,
    isBookmarked (VStr c) r = (Ok i, r)
    ∧ (-1 <= i < Z.of_nat (List.length l))%Z
    ∧ (i = (-1)%Z ↔ VStr c ∉ l)
    ∧ ((0 <= i)%Z →
       l !! Z.to_nat i = Some (VStr c)
       ∧ ∀ k : nat, (k < Z.to_nat i)%nat → l !! k ≠ Some (VStr c)).
Proof.
  intros Hs Hb.
  destruct (index_from_string c l 0) as (j & Hj & Hcase).
  exists j. split.
  { unfold isBookmarked, index_in, bind.
    by rewrite (setting_object _ _ _ Hs), Hb, Hj. }
  destruct Hcase as [[-> Hnot]|(k & -> & Hk & Hfirst)].
  - split; [lia|]. split; [done|]. lia.
  - pose proof (lookup_lt_Some _ _ _ Hk) as Hlt.
    split; [lia|]. split.
    + split; [lia|]. intros Hnot. destruct Hnot.
      by apply list_elem_of_lookup_2 in Hk.
    + intros _. replace (Z.to_nat (0 + Z.of_nat k)) with k by lia. done.
Qed.

(** * Identifiers *)

Lemma nibble_cases (r : N) :
  (r < 16)%N →
  (r = 0 ∨ r = 1 ∨ r = 2 ∨ r = 3 ∨ r = 4 ∨ r = 5 ∨ r = 6 ∨ r = 7 ∨ r = 8
   ∨ r = 9 ∨ r = 10 ∨ r = 11 ∨ r = 12 ∨ r = 13 ∨ r = 14 ∨ r = 15)%N.
Proof. lia. Qed.

Lemma hex_lower_is_hex r : (r < 16)%N → is_hex_lower (hex_lower r) = true.
Proof.
  intros H%nibble_cases. by repeat destruct H as [->|H]; [..|subst r].
Qed.

Lemma hex_lower_is_variant r :
  (r < 16)%N → is_variant (hex_lower (N.lor (N.land r 7) 8)) = true.
Proof.
  intros H%nibble_cases. by repeat destruct H as [->|H]; [..|subst r].
Qed.

Lemma uuid_replace_follows nibble template : ∀ i,
  (∀ j, (nibble j < 16)%N) →
  follows template (uuid_replace template nibble i) = true
  ∧ String.length (uuid_replace template nibble i) = String.length template.
Proof.
  induction template as [|t template IH]; intros i Hn; [done|].
  cbn [uuid_replace].
  destruct (Ascii.eqb t "x") eqn:Ex; [|destruct (Ascii.eqb t "y") eqn:Ey];
    cbn [orb follows String.length]; rewrite ?Ex, ?Ey; unfold uuid_digit;
    rewrite ?Ex.
  - destruct (IH (S i) Hn) as [-> ->]. by rewrite hex_lower_is_hex.
  - destruct (IH (S i) Hn) as [-> ->]. by rewrite hex_lower_is_variant.
  - destruct (IH i Hn) as [-> ->]. by rewrite Ascii.eqb_refl.
Qed.

(** X19: whatever integers from 0 to 15 the clock and the random source
    give, [uuid] returns 36 characters laid out as 8-4-4-4-12 hexadecimal
    digits in lower case between hyphens, with the digit 4 at the head of
    the third group and a digit from 8 to f at the head of the fourth. *)
Theorem uuid_follows_template nibble :
  (∀ j, (nibble j < 16)%N) →
  String.length (uuid nibble) = 36%nat
  ∧ follows "xxxxxxxx-xxxx-4xxx-yxxx-xxxxxxxxxxxx" (uuid nibble) = true.
Proof.
  intros Hn. unfold uuid.
  destruct (uuid_replace_follows nibble
              "xxxxxxxx-xxxx-4xxx-yxxx-xxxxxxxxxxxx" 0 Hn) as [Hf Hl].
  split; [by rewrite Hl|exact Hf].
Qed.

(** * Sessions *)

Lemma session_step_refl r : session_step r r.
Proof.
  intros m Hs. exists m. split; [done|]. split; [done|]. split; [done|].
  split; [done|]. split; [|done]. exists []. by rewrite app_nil_r.
Qed.

Lemma session_step_trans r1 r2 r3 :
  session_step r1 r2 → session_step r2 r3 → session_step r1 r3.
Proof.
  intros H12 H23 m Hs.
  destruct (H12 m Hs) as (m2 & Hs2 & Hk2 & Hst2 & Hav2 & (p2 & Hh2 & Hf2) & Hb2).
  destruct (H23 m2 Hs2) as (m3 & Hs3 & Hk3 & Hst3 & Hav3 & (p3 & Hh3 & Hf3) & Hb3).
  exists m3. split; [done|]. split; [|split; [|split; [|split]]].
  - intros k H1 H2 Hd. rewrite Hk3, Hk2; try done. by rewrite Hk2.
  - intros Hd k Hk.
    assert (Hkey : get m2 "bookKey" = get m "bookKey") by by apply Hk2.
    rewrite Hst3, Hst2; try done; by rewrite Hkey.
  - by rewrite Hav3.
  - exists (p2 ++ p3)%list. split; [by rewrite Hh3, Hh2, app_assoc|].
    by apply Forall_app.
  - by rewrite Hb3.
Qed.

(** A run that keeps the settings, the storage, the history and the book
    is a session step. *)
Lemma session_step_same r r' :
  settings r' = settings r →
  localStorage r' = localStorage r →
  history r' = history r →
  book r' = book r →
  session_step r r'.
Proof.
  intros H1 H2 H3 H4 m Hs. exists m. rewrite H1. split; [done|].
  split; [done|]. unfold stored_item. rewrite H2, H3, H4.
  split; [done|]. split; [done|]. split; [|done].
  exists []. by rewrite app_nil_r.
Qed.

Lemma session_step_object r r' :
  (∀ m, settings r = VObj m → session_step r r') → session_step r r'.
Proof. intros H m Hs. exact (H m Hs m Hs). Qed.

Lemma steps_ret {A} (a : A) : steps (ret a).
Proof. intros r. apply session_step_refl. Qed.

Lemma steps_throw {A} e : steps (throw (A := A) e).
Proof. intros r. apply session_step_refl. Qed.

Lemma steps_lift {A} (x : result A) : steps (lift x).
Proof. intros r. apply session_step_refl. Qed.

Lemma steps_read {A} (f : Reader → A) : steps (read f).
Proof. intros r. apply session_step_refl. Qed.

Lemma steps_bind {A B} (c : M A) (k : A → M B) :
  steps c → (∀ a, steps (k a)) → steps (bind c k).
Proof.
  intros Hc Hk r. unfold bind. specialize (Hc r).
  destruct (c r) as [[a|e] r1]; simpl in *; [|done].
  eapply session_step_trans; [exact Hc|apply Hk].
Qed.

Lemma steps_call e : steps (call e).
Proof. intros r. by apply session_step_same. Qed.

Lemma steps_keylock b : steps (update (with_keylock b)).
Proof. intros r. by apply session_step_same. Qed.

Lemma steps_currentLocationCfi c : steps (update (with_currentLocationCfi c)).
Proof. intros r. by apply session_step_same. Qed.

Lemma steps_pushed cfi : steps (update (with_pushed (fragment_of cfi))).
Proof.
  intros r m Hs. exists m. split; [done|]. split; [done|]. split; [done|].
  split; [done|]. split; [|done].
  exists [fragment_of cfi]. split; [done|]. apply Forall_singleton. eauto.
Qed.

Lemma steps_setting k : steps (setting k).
Proof. unfold setting. apply steps_bind; [apply steps_read|intros; apply steps_lift]. Qed.

Lemma steps_set_setting k x :
  k = "styles" ∨ k = "previousLocationCfi" → steps (set_setting k x).
Proof.
  intros Hk r m Hs. rewrite (set_setting_object _ _ _ _ Hs). simpl.
  exists (<[k := x]> m). split; [done|]. split.
  { intros k' H1 H2 _. apply get_insert_ne. by destruct Hk as [-> | ->]. }
  split; [done|]. split; [done|]. split; [|done].
  exists []. by rewrite app_nil_r.
Qed.

(** Walks through a method made of the steps above. *)
Ltac stepping :=
  repeat first
    [ apply steps_ret | apply steps_throw | apply steps_lift
    | apply steps_read | apply steps_call | apply steps_keylock
    | apply steps_currentLocationCfi | apply steps_pushed
    | apply steps_setting
    | apply steps_set_setting; (by left) || (by right)
    | apply steps_bind; [|intros ?]
    | match goal with
      | |- steps (if ?b then _ else _) => destruct b
      | |- steps (match ?v with _ => _ end) => destruct v
      | |- steps (let _ := _ in _) => cbv zeta
      end ].

Lemma steps_set_fontSize x : steps (set_fontSize x).
Proof. unfold set_fontSize. stepping. Qed.

Lemma steps_font_keys e : steps (font_keys e).
Proof. unfold font_keys. stepping; apply steps_set_fontSize. Qed.

Lemma steps_direction : steps direction.
Proof. unfold direction. stepping. Qed.

Lemma steps_arrowKeys e : steps (arrowKeys e).
Proof.
  unfold arrowKeys.
  apply steps_bind; [destruct (ctrlKey e || metaKey e);
                     [apply steps_font_keys|apply steps_ret]|].
  intros proceed. destruct proceed; [|apply steps_ret].
  destruct (String.eqb (key e) "ArrowLeft");
    [|destruct (String.eqb (key e) "ArrowRight"); [|apply steps_ret]];
    (apply steps_bind; [apply steps_direction|intros d; stepping]).
Qed.

Lemma steps_setLocation cfi : steps (setLocation cfi).
Proof. unfold setLocation. fold (fragment_of cfi). stepping. Qed.

Lemma steps_hashChanged : steps hashChanged.
Proof. unfold hashChanged. stepping. Qed.

Lemma steps_index_in field x : steps (index_in field x).
Proof. unfold index_in. stepping. Qed.

Lemma steps_isSaved : steps isSaved.
Proof. unfold isSaved. stepping. Qed.

Lemma steps_removeSavedSettings : steps removeSavedSettings.
Proof.
  intros r. apply session_step_object. intros m Hs.
  unfold removeSavedSettings, bind at 1.
  rewrite (isSaved_object _ _ Hs).
  destruct (bool_decide _); [|apply session_step_refl].
  unfold bind at 1. rewrite (setting_object _ _ _ Hs). simpl.
  intros m0 Hs0. rewrite Hs in Hs0. injection Hs0 as <-.
  exists m. split; [done|]. split; [done|]. split.
  { intros _ k Hk. unfold stored_item. simpl.
    destruct (localStorage r); simpl; [by apply lookup_delete_ne|done]. }
  split; [simpl; by rewrite fmap_is_Some|]. split; [|done].
  exists []. by rewrite app_nil_r.
Qed.

Section SessionSteps.
Variable md5 : value → string.
Variable JSON_parse : string → option value.
Variable JSON_stringify : value → string.

Lemma steps_setBookKey identifier : steps (setBookKey md5 identifier).
Proof.
  intros r. apply session_step_object. intros m Hs.
  rewrite (setBookKey_run _ _ _ _ Hs).
  destruct (is_undefined (get m "bookKey")) eqn:E;
    [|apply session_step_refl].
  intros m0 Hs0. rewrite Hs in Hs0. injection Hs0 as <-. simpl. eexists. split; [reflexivity|]. split.
  { intros k _ _ Hd. apply get_insert_ne. intros <-. by rewrite E in Hd. }
  split; [done|]. split; [done|]. split; [|done].
  exists []. by rewrite app_nil_r.
Qed.

Lemma steps_read_stored store : steps (read_stored JSON_parse store).
Proof. unfold read_stored, log_exception. stepping. Qed.

Lemma steps_merge_rest stored :
  steps (let* s := read settings in
         let* s' := lift (defaults s [stored]) in
         update (with_settings s') ;; ret true).
Proof.
  intros r m Hs. unfold bind, read, lift, update, ret. rewrite Hs.
  rewrite defaults_object. simpl.
  eexists. split; [reflexivity|]. split.
  { intros k _ _ Hd. by apply get_completed_defined. }
  split; [done|]. split; [done|]. split; [|done].
  exists []. by rewrite app_nil_r.
Qed.

Lemma steps_merge_stored stored : steps (merge_stored stored).
Proof.
  unfold merge_stored. destruct (truthy stored); [|apply steps_ret].
  apply steps_bind; [apply steps_lift|]. intros stored_styles.
  apply steps_bind; [|intros _; apply steps_merge_rest].
  stepping.
Qed.

Lemma steps_applySavedSettings : steps (applySavedSettings JSON_parse).
Proof.
  unfold applySavedSettings.
  apply steps_bind; [apply steps_read|]. intros [store|]; [|apply steps_ret].
  apply steps_bind; [apply steps_read_stored|intros; apply steps_merge_stored].
Qed.

Lemma steps_save_tail :
  steps (let* storage := read localStorage in
         match storage with
         | None => ret false
         | Some store =>
             let* k := setting "bookKey" in
             let* s := read settings in
             update (with_localStorage
                       (Some (<[to_string k := JSON_stringify s]> store))) ;;
             ret true
         end).
Proof.
  intros r. apply session_step_object. intros m Hs.
  rewrite (save_tail _ _ _ Hs). unfold saved_outcome.
  intros m0 Hs0. rewrite Hs in Hs0. injection Hs0 as <-.
  unfold stored_item.
  destruct (localStorage r) as [store|] eqn:El; simpl; rewrite ?El; exists m;
    (split; [done|]); (split; [done|]);
    (split; [|split; [first [done|split; intros _; eauto]|]]);
    try (split; [|done]; exists []; by rewrite app_nil_r).
  - intros _ k Hk. by apply lookup_insert_ne.
  - done.
Qed.

Lemma steps_saveSettings : steps (saveSettings JSON_stringify).
Proof.
  unfold saveSettings.
  apply steps_bind; [apply steps_read|]. intros b.
  apply steps_bind; [stepping|intros _; apply steps_save_tail].
Qed.

Lemma steps_unload : steps (unload JSON_stringify).
Proof.
  unfold unload.
  apply steps_bind; [apply steps_setting|]. intros restore.
  apply steps_bind; [apply steps_read|]. intros storage.
  destruct (_ && _); [|apply steps_ret].
  apply steps_bind; [apply steps_saveSettings|intros; apply steps_ret].
Qed.

Lemma steps_restore_saved : steps (restore_saved JSON_parse).
Proof.
  unfold restore_saved.
  apply steps_bind; [apply steps_setting|]. intros restore.
  apply steps_bind;
    [destruct (truthy restore); [apply steps_isSaved|apply steps_ret]|].
  intros saved. destruct saved; [|apply steps_ret].
  apply steps_bind; [apply steps_applySavedSettings|intros; apply steps_ret].
Qed.

Lemma after_call_step r op :
  session_step r (after_call md5 JSON_parse JSON_stringify r op).
Proof.
  destruct op; simpl.
  - apply steps_setBookKey.
  - apply steps_isSaved.
  - apply steps_removeSavedSettings.
  - apply steps_applySavedSettings.
  - apply steps_saveSettings.
  - apply steps_unload.
  - apply steps_hashChanged.
  - apply steps_setLocation.
  - apply steps_arrowKeys.
  - apply steps_index_in.
  - apply steps_index_in.
Qed.

Lemma after_calls_step ops : ∀ r,
  session_step r (after_calls md5 JSON_parse JSON_stringify ops r).
Proof.
  induction ops as [|op ops IH]; intros r; [apply session_step_refl|].
  eapply session_step_trans; [apply after_call_step|apply IH].
Qed.

(** X16: during a session no call overwrites a defined setting other than
    the styles and the saved position: whatever calls are made on the
    reader, in whatever order and whether they return or throw, the
    settings remain an object in which such a setting, [bookKey] and
    [bookPath] among them, keeps its value. *)
Theorem defined_settings_are_kept ops r m :
  settings r = VObj m →
  ∃ m',
    settings (after_calls md5 JSON_parse JSON_stringify ops r) = VObj m'
    ∧ ∀ k, k ≠ "styles" → k ≠ "previousLocationCfi" →
           is_undefined (get m k) = false → get m' k = get m k.
Proof.
  intros Hs. destruct (after_calls_step ops r m Hs) as (m' & Hs' & Hk & _).
  by exists m'.
Qed.

(** X17: a session touches the record of its book only.  Once [bookKey]
    is defined, whatever calls are made, the items stored under the other
    keys are what they were, and the storage is there after the calls
    exactly when it was there before. *)
Theorem other_records_are_never_touched ops r m :
  settings r = VObj m →
  is_undefined (get m "bookKey") = false →
  (∀ k, k ≠ to_string (get m "bookKey") →
        stored_item (after_calls md5 JSON_parse JSON_stringify ops r) k
        = stored_item r k)
  ∧ (is_Some (localStorage (after_calls md5 JSON_parse JSON_stringify ops r))
     ↔ is_Some (localStorage r)).
Proof.
  intros Hs Hd.
  destruct (after_calls_step ops r m Hs) as (m' & _ & _ & Hst & Hav & _).
  split; [by apply Hst|exact Hav].
Qed.

(** The calls other than [setLocation] leave the history alone. *)
Lemma quiet_ret {A} (a : A) : quiet (ret a).
Proof. by intros r. Qed.

Lemma quiet_throw {A} e : quiet (throw (A := A) e).
Proof. by intros r. Qed.

Lemma quiet_lift {A} (x : result A) : quiet (lift x).
Proof. by intros r. Qed.

Lemma quiet_read {A} (f : Reader → A) : quiet (read f).
Proof. by intros r. Qed.

Lemma quiet_update f :
  (∀ r, history (f r) = history r ∧ book (f r) = book r) → quiet (update f).
Proof. intros H r. apply H. Qed.

Lemma quiet_bind {A B} (c : M A) (k : A → M B) :
  quiet c → (∀ a, quiet (k a)) → quiet (bind c k).
Proof.
  intros Hc Hk r. unfold bind. destruct (Hc r) as [H1 H2].
  destruct (c r) as [[a|e] r1]; simpl in *; [|done].
  destruct (Hk a r1) as [H3 H4]. split; congruence.
Qed.

(** Walks through a method that leaves the history alone. *)
Ltac quieting :=
  repeat progress unfold setting, set_setting, set_fontSize, log_exception,
    call;
  repeat first
    [ apply quiet_ret | apply quiet_throw | apply quiet_lift
    | apply quiet_read
    | apply quiet_update; intros ?; split; reflexivity
    | apply quiet_bind; [|intros ?]
    | match goal with
      | |- quiet (if ?b then _ else _) => destruct b
      | |- quiet (match ?v with _ => _ end) => destruct v
      | |- quiet (let _ := _ in _) => cbv zeta
      end ].

Lemma quiet_isSaved : quiet isSaved.
Proof. unfold isSaved. quieting. Qed.

Lemma quiet_setBookKey identifier : quiet (setBookKey md5 identifier).
Proof. unfold setBookKey. quieting. Qed.

Lemma quiet_removeSavedSettings : quiet removeSavedSettings.
Proof.
  unfold removeSavedSettings.
  apply quiet_bind; [apply quiet_isSaved|]. intros saved. quieting.
Qed.

Lemma quiet_applySavedSettings : quiet (applySavedSettings JSON_parse).
Proof. unfold applySavedSettings, read_stored, merge_stored. quieting. Qed.

Lemma quiet_saveSettings : quiet (saveSettings JSON_stringify).
Proof. unfold saveSettings. quieting. Qed.

Lemma quiet_unload : quiet (unload JSON_stringify).
Proof.
  unfold unload. apply quiet_bind; [quieting|]. intros restore.
  apply quiet_bind; [quieting|]. intros storage.
  destruct (_ && _); [|apply quiet_ret].
  apply quiet_bind; [apply quiet_saveSettings|intros; apply quiet_ret].
Qed.

Lemma quiet_hashChanged : quiet hashChanged.
Proof. unfold hashChanged. quieting. Qed.

Lemma quiet_arrowKeys e : quiet (arrowKeys e).
Proof.
  unfold arrowKeys.
  apply quiet_bind;
    [destruct (ctrlKey e || metaKey e); [unfold font_keys|]; quieting|].
  intros proceed. unfold direction. quieting.
Qed.

Lemma quiet_index_in field x : quiet (index_in field x).
Proof. unfold index_in. quieting. Qed.

Lemma setLocation_history cfi r :
  (history (snd (setLocation cfi r)) = history r
   ∨ history (snd (setLocation cfi r))
     = (history r ++ [fragment_of cfi])%list)
  ∧ book (snd (setLocation cfi r)) = book r.
Proof.
  unfold setLocation. fold (fragment_of cfi). run.
  destruct (get_field (settings r) "history") as [tracking|e];
    [|by split; [left|]].
  destruct (truthy tracking && _); split; by eauto.
Qed.

Lemma after_call_history r op :
  ∃ pushed,
    history (after_call md5 JSON_parse JSON_stringify r op)
    = (history r ++ pushed)%list
    ∧ pushed `sublist_of` positions [op]
    ∧ book (after_call md5 JSON_parse JSON_stringify r op) = book r.
Proof.
  assert (Hquiet : ∀ r',
            same_history r r' → positions [op] = [] →
            ∃ pushed, history r' = (history r ++ pushed)%list
                      ∧ pushed `sublist_of` positions [op] ∧ book r' = book r).
  { intros r' [H1 H2] Hp. exists []. rewrite app_nil_r, Hp. by repeat split. }
  destruct op; cbn [after_call];
    try (apply Hquiet; [|reflexivity]).
  - apply quiet_setBookKey.
  - apply quiet_isSaved.
  - apply quiet_removeSavedSettings.
  - apply quiet_applySavedSettings.
  - apply quiet_saveSettings.
  - apply quiet_unload.
  - apply quiet_hashChanged.
  - destruct (setLocation_history cfi r) as [[H|H] Hb].
    + exists []. rewrite app_nil_r. split; [done|].
      split; [apply sublist_nil_l|done].
    + exists [fragment_of cfi]. by repeat split.
  - apply quiet_arrowKeys.
  - apply quiet_index_in.
  - apply quiet_index_in.
Qed.

(** X18: a session only ever appends to the history, and what it appends
    are fragments of the positions handed to [setLocation], each at most
    once per call and in the order of the calls; no other call touches the
    history, and none replaces the book.  This holds of every reader,
    whatever its settings, and whether the calls return or throw. *)
Theorem history_only_grows ops r :
  ∃ pushed,
    history (after_calls md5 JSON_parse JSON_stringify ops r)
    = (history r ++ pushed)%list
    ∧ pushed `sublist_of` positions ops
    ∧ book (after_calls md5 JSON_parse JSON_stringify ops r) = book r.
Proof.
  revert r. induction ops as [|op ops IH]; intros r.
  - exists []. rewrite app_nil_r. by repeat split.
  - destruct (after_call_history r op) as (p1 & H1 & S1 & B1).
    destruct (IH (after_call md5 JSON_parse JSON_stringify r op))
      as (p2 & H2 & S2 & B2).
    exists (p1 ++ p2)%list. cbn [after_calls foldl].
    fold (after_calls md5 JSON_parse JSON_stringify ops
            (after_call md5 JSON_parse JSON_stringify r op)).
    split; [by rewrite H2, H1, app_assoc|].
    split; [|by rewrite B2].
    change (op :: ops) with ([op] ++ ops)%list.
    unfold positions in *. rewrite omap_app. by apply sublist_app.
Qed.

End SessionSteps.

(** * Initialisation *)

Lemma same_page_refl r : same_page r r.
Proof. by repeat split. Qed.

Lemma same_page_trans r1 r2 r3 :
  same_page r1 r2 → same_page r2 r3 → same_page r1 r3.
Proof.
  intros (A1 & A2 & A3 & A4 & A5 & A6 & A7) (B1 & B2 & B3 & B4 & B5 & B6 & B7).
  repeat split; congruence.
Qed.

Lemma stays_ret {A} (a : A) : stays (ret a).
Proof. intros r. apply same_page_refl. Qed.

Lemma stays_lift {A} (x : result A) : stays (lift x).
Proof. intros r. apply same_page_refl. Qed.

Lemma stays_throw {A} e : stays (throw (A := A) e).
Proof. intros r. apply same_page_refl. Qed.

Lemma stays_read {A} (f : Reader → A) : stays (read f).
Proof. intros r. apply same_page_refl. Qed.

Lemma stays_bind {A B} (c : M A) (k : A → M B) :
  stays c → (∀ a, stays (k a)) → stays (bind c k).
Proof.
  intros Hc Hk r. unfold bind. specialize (Hc r).
  destruct (c r) as [[a|e] r1]; simpl in *; [|done].
  eapply same_page_trans; [exact Hc|apply Hk].
Qed.

Lemma stays_call e : stays (call e).
Proof. intros r. by repeat split. Qed.

Lemma stays_with_settings s : stays (update (with_settings s)).
Proof. intros r. by repeat split. Qed.

Lemma stays_with_book b : stays (update (with_book b)).
Proof. intros r. by repeat split. Qed.

(** Walks through a method that stays on the page. *)
Ltac staying :=
  repeat first
    [ apply stays_ret | apply stays_lift | apply stays_throw
    | apply stays_read
    | apply stays_call | apply stays_with_settings | apply stays_with_book
    | apply stays_bind; [|intros ?]
    | match goal with
      | |- stays (if ?b then _ else _) => destruct b
      | |- stays (match ?v with _ => _ end) => destruct v
      end ].

Lemma stays_setting k : stays (setting k).
Proof. unfold setting. staying. Qed.

Lemma stays_set_setting k x : stays (set_setting k x).
Proof. unfold set_setting. staying. Qed.

Lemma stays_assign_setting k x : stays (assign_setting k x).
Proof. unfold assign_setting. staying. Qed.

Lemma stays_for_each {A} (f : A → M unit) l :
  (∀ x, stays (f x)) → stays (for_each f l).
Proof.
  intros Hf. induction l as [|x l IH]; simpl; [apply stays_ret|].
  apply stays_bind; [apply Hf|intros _; exact IH].
Qed.

Lemma stays_init_settings bookPath _options :
  stays (init_settings bookPath _options).
Proof.
  unfold init_settings. apply stays_bind; [apply stays_lift|]. intros s.
  apply stays_bind; [apply stays_with_settings|]. intros _.
  unfold apply_query. apply stays_bind; [apply stays_read|]. intros q.
  destruct (truthy (VStr q)); [|apply stays_ret].
  apply stays_for_each. intros p. unfold apply_parameter.
  apply stays_bind; [apply stays_lift|intros; apply stays_assign_setting].
Qed.

Lemma stays_isSaved : stays isSaved.
Proof. unfold isSaved. staying; apply stays_setting. Qed.

Lemma fill_ok k x acc s : fill k x acc = Ok s → ∃ m, s = VObj m.
Proof.
  destruct acc as [v|e]; [|done]. destruct v; simpl; try done.
  destruct (reads_undefined _ _); intros [= <-]; eauto.
Qed.

Lemma fold_fill_ok (props : gmap string value) acc :
  props ≠ ∅ → ∀ s, map_fold fill acc props = Ok s → ∃ m, s = VObj m.
Proof.
  revert props.
  apply (map_fold_weak_ind (fun res (props : gmap string value) =>
           props ≠ ∅ → ∀ s, res = Ok s → ∃ m, s = VObj m)).
  - done.
  - intros i x m res _ _ _ s. apply fill_ok.
Qed.

Lemma builtin_settings_nonempty bookPath :
  own_props (builtin_settings bookPath) ≠ ∅.
Proof.
  intros E. apply (f_equal (fun m => is_Some (m !! "language"))) in E.
  assert (H : is_Some ((∅ : gmap string value) !! "language")).
  { rewrite <- E. vm_compute. eauto. }
  rewrite lookup_empty in H. by destruct H.
Qed.

Lemma init_settings_ok bookPath _options r a r1 :
  init_settings bookPath _options r = (Ok a, r1) → ∃ m, settings r1 = VObj m.
Proof.
  intros H. unfold init_settings in H.
  apply bind_ok in H as (s & r0 & Hd & H).
  unfold lift in Hd. apply pair_equal_spec in Hd as [Hd <-].
  unfold defaults in Hd. cbn [foldl] in Hd.
  apply fold_fill_ok in Hd as [m ->]; [|apply builtin_settings_nonempty].
  apply bind_ok in H as ([] & r2 & Hu & H).
  unfold update in Hu. injection Hu as <-.
  destruct a. apply (apply_query_run _ m) in H as (m' & -> & _); [|done].
  by exists m'.
Qed.

Lemma ensure_run k x r m :
  settings r = VObj m →
  (if is_undefined (get m k) then set_setting k x else ret tt) r
  = (Ok tt,
     with_settings
       (VObj (if is_undefined (get m k) then <[k := x]> m else m)) r).
Proof.
  intros Hs. destruct (is_undefined (get m k)).
  - by apply set_setting_object.
  - unfold ret. by rewrite with_settings_id.
Qed.

Lemma ensure_defined k x (m : gmap string value) :
  is_undefined x = false →
  is_undefined (get (if is_undefined (get m k) then <[k := x]> m else m) k)
  = false.
Proof.
  intros Hx. destruct (is_undefined (get m k)) eqn:E; [|done].
  by rewrite get_insert_eq.
Qed.

Lemma ensure_other k k' x (m : gmap string value) :
  k ≠ k' →
  get (if is_undefined (get m k) then <[k := x]> m else m) k' = get m k'.
Proof.
  intros Hk. destruct (is_undefined (get m k)); [|done].
  by apply get_insert_ne.
Qed.

Lemma js_or_truthy a b : truthy b = true → truthy (js_or a b) = true.
Proof. intros Hb. unfold js_or. by destruct (truthy a) eqn:E. Qed.

(** Decoding throws nothing but [URIError]. *)
Lemma decode_from_error s : ∀ taken e,
  decode_from taken s = Throw e → e = URIError.
Proof.
  induction s as [|c rest IH]; intros taken e; [done|].
  cbn [decode_from]. destruct taken as [|taken]; [|apply IH].
  destruct (Ascii.eqb c "%").
  - destruct (decode_escapes (String c rest)) as [[text size]|];
      [|by intros [= <-]].
    destruct (decode_from (size - 1) rest) as [t|e'] eqn:E; [done|].
    intros [= <-]. by apply (IH _ _ E).
  - destruct (decode_from 0 rest) as [t|e'] eqn:E; [done|].
    intros [= <-]. by apply (IH _ _ E).
Qed.

Lemma not_decodes p :
  ¬ decodes p → decodeURIComponent (parameter_value p) = Throw URIError.
Proof.
  intros H. unfold decodes in H.
  destruct (decodeURIComponent (parameter_value p)) as [t|e] eqn:E.
  - destruct H. eauto.
  - by rewrite (decode_from_error _ _ _ E).
Qed.

Lemma for_each_parameters_throw p ps2 ps1 : ∀ r m,
  settings r = VObj m →
  Forall decodes ps1 →
  ¬ decodes p →
  ∃ m', for_each apply_parameter (ps1 ++ p :: ps2) r
        = (Throw URIError, with_settings (VObj m') r)
        ∧ ∀ name, assigned ps1 m m' name.
Proof.
  induction ps1 as [|q ps1 IH]; intros r m Hs Hall Hp.
  - exists m. split; [|done]. simpl.
    unfold bind at 1. unfold apply_parameter. unfold bind at 1.
    unfold lift. rewrite (not_decodes _ Hp). by rewrite with_settings_id.
  - apply Forall_cons in Hall as [[text Hq] Hall].
    simpl. unfold bind at 1. unfold apply_parameter at 1.
    unfold bind at 1. unfold lift at 1. rewrite Hq.
    rewrite (assign_setting_object _ _ _ _ Hs).
    edestruct (IH (with_settings
                     (VObj (if ignored m (parameter_name q) then m
                            else <[parameter_name q := VStr text]> m)) r))
      as (m' & -> & Hm'); [reflexivity|done|done|].
    exists m'. split; [done|]. intros name.
    by apply (assigned_cons _ _ _ _ text).
Qed.

Section Initialisation.
Variable md5 : value → string.
Variable JSON_parse : string → option value.

Lemma stays_setBookKey identifier : stays (setBookKey md5 identifier).
Proof.
  unfold setBookKey. staying;
    first [apply stays_setting|apply stays_set_setting].
Qed.

Lemma stays_read_stored store : stays (read_stored JSON_parse store).
Proof. unfold read_stored, log_exception. staying. Qed.

Lemma stays_merge_stored stored : stays (merge_stored stored).
Proof.
  unfold merge_stored. staying;
    first [apply stays_setting|apply stays_set_setting].
Qed.

Lemma stays_applySavedSettings : stays (applySavedSettings JSON_parse).
Proof.
  unfold applySavedSettings.
  apply stays_bind; [apply stays_read|]. intros [store|]; [|apply stays_ret].
  apply stays_bind; [apply stays_read_stored|intros; apply stays_merge_stored].
Qed.

Lemma stays_restore_saved : stays (restore_saved JSON_parse).
Proof.
  unfold restore_saved.
  apply stays_bind; [apply stays_setting|]. intros restore.
  apply stays_bind;
    [destruct (truthy restore); [apply stays_isSaved|apply stays_ret]|].
  intros saved. destruct saved; [|apply stays_ret].
  apply stays_bind; [apply stays_applySavedSettings|intros; apply stays_ret].
Qed.

(** X14: what [init] establishes when it returns.  The settings are an
    object whose [bookmarks], [annotations] and [bookKey] are defined and
    whose [styles] are truthy; the book is open; and the last three calls
    on the collaborators open the book at the [bookPath] of the settings,
    render it to [viewer] and display the saved position, or the start if
    there is none. *)
Theorem init_establishes bookPath _options r r' :
  init md5 JSON_parse bookPath _options r = (Ok tt, r') →
  ∃ m earlier,
    settings r' = VObj m
    ∧ is_undefined (get m "bookmarks") = false
    ∧ is_undefined (get m "annotations") = false
    ∧ truthy (get m "styles") = true
    ∧ is_undefined (get m "bookKey") = false
    ∧ book r' = VObj ∅
    ∧ trace r' =
        (earlier ++ [OpenBook (get m "bookPath"); RenderTo "viewer";
                     first_display m])%list.
Proof.
  intros H. unfold init in H.
  apply bind_ok in H as (a1 & r1 & H1 & H).
  apply init_settings_ok in H1 as (m1 & Hs1).
  apply bind_ok in H as (path & r1' & Hp & H).
  rewrite (setting_object _ _ _ Hs1) in Hp. injection Hp as <- <-.
  apply bind_ok in H as (k & r2 & Hk & H).
  assert (Hs2 : ∃ m2, settings r2 = VObj m2
                      ∧ is_undefined (get m2 "bookKey") = false).
  { rewrite (setBookKey_run _ _ _ _ Hs1) in Hk.
    destruct (is_undefined (get m1 "bookKey")) eqn:E; injection Hk as <- <-.
    - eexists. split; [reflexivity|]. by rewrite get_insert_eq.
    - by exists m1. }
  destruct Hs2 as (m2 & Hs2 & Hk2).
  apply bind_ok in H as ([] & r3 & Hr & H).
  assert (Hs3 : ∃ m3, settings r3 = VObj m3
                      ∧ is_undefined (get m3 "bookKey") = false).
  { pose proof (steps_restore_saved JSON_parse r2 m2 Hs2) as (m3 & Hs3 & Hk3 & _).
    rewrite Hr in Hs3. simpl in Hs3. exists m3. split; [done|].
    by rewrite Hk3. }
  clear Hr. destruct Hs3 as (m3 & Hs3 & Hk3).
  apply bind_ok in H as (bookmarks & r3' & Hb & H).
  rewrite (setting_object _ _ _ Hs3) in Hb. injection Hb as <- <-.
  apply bind_ok in H as ([] & r4 & Hb & H).
  rewrite (ensure_run _ _ _ _ Hs3) in Hb. injection Hb as <-.
  set (m4 := if is_undefined (get m3 "bookmarks")
             then <["bookmarks" := VArr []]> m3 else m3) in *.
  apply bind_ok in H as (annotations & r4' & Ha & H).
  erewrite setting_object in Ha by reflexivity. injection Ha as <- <-.
  apply bind_ok in H as ([] & r5 & Ha & H).
  erewrite ensure_run in Ha by reflexivity. injection Ha as <-.
  set (m5 := if is_undefined (get m4 "annotations")
             then <["annotations" := VArr []]> m4 else m4) in *.
  apply bind_ok in H as (styles & r5' & Hst & H).
  erewrite setting_object in Hst by reflexivity. injection Hst as <- <-.
  apply bind_ok in H as ([] & r6 & Hst & H).
  erewrite set_setting_object in Hst by reflexivity. injection Hst as <-.
  set (m6 := <["styles" := js_or (get m5 "styles")
                             (VObj {["fontSize" := VStr "100%"]})]> m5) in *.
  apply bind_ok in H as (path & r6' & Hp & H).
  erewrite setting_object in Hp by reflexivity. injection Hp as <- <-.
  apply bind_ok in H as ([] & r7 & Ho & H).
  unfold call, update in Ho. injection Ho as <-.
  apply bind_ok in H as ([] & r8 & Ho & H).
  unfold update in Ho. injection Ho as <-.
  apply bind_ok in H as ([] & r9 & Ho & H).
  unfold call, update in Ho. injection Ho as <-.
  apply bind_ok in H as (cfi & r9' & Hc & H).
  erewrite setting_object in Hc by reflexivity. injection Hc as <- <-.
  assert (Hr' : r' = with_effect (first_display m6)
                       (with_effect (RenderTo "viewer")
                          (with_book (VObj ∅)
                             (with_effect (OpenBook (get m6 "bookPath"))
                                (with_settings (VObj m6) r3))))).
  { unfold first_display.
    destruct (truthy (get m6 "previousLocationCfi"));
      unfold call, update in H; by injection H as <-. }
  clear H. subst r'.
  exists m6, (trace r3). split; [reflexivity|].
  assert (B4 : is_undefined (get m4 "bookmarks") = false)
    by by apply ensure_defined.
  assert (B5 : is_undefined (get m5 "bookmarks") = false).
  { unfold m5. by rewrite ensure_other. }
  assert (A5 : is_undefined (get m5 "annotations") = false)
    by by apply ensure_defined.
  assert (K5 : get m5 "bookKey" = get m3 "bookKey").
  { unfold m5, m4. by rewrite !ensure_other. }
  split; [unfold m6; by rewrite get_insert_ne|].
  split; [unfold m6; by rewrite get_insert_ne|].
  split; [unfold m6; rewrite get_insert_eq; by apply js_or_truthy|].
  split; [unfold m6; rewrite get_insert_ne by done; by rewrite K5|].
  split; [reflexivity|].
  simpl. by rewrite <- !app_assoc.
Qed.

(** X15: a malformed escape in the query string aborts [init].  When the
    options are an object or falsy and the first query parameter whose value
    does not decode is [p], [init] throws [URIError]; by then the
    parameters before [p] have been assigned to the settings, and nothing
    else has happened: no book key, no book, no call on a collaborator, no
    display. *)
Theorem init_stops_at_malformed_query bookPath _options r ps1 p ps2 :
  object_or_falsy _options = true →
  query_parameters (search r) = (ps1 ++ p :: ps2)%list →
  Forall decodes ps1 →
  ¬ decodes p →
  ∃ m,
    init md5 JSON_parse bookPath _options r
    = (Throw URIError, with_settings (VObj m) r)
    ∧ ∀ name,
        assigned ps1
          (completed (object_of _options)
                     (own_props (builtin_settings bookPath))) m name.
Proof.
  intros Ho Hq Hall Hp.
  edestruct (for_each_parameters_throw p ps2 ps1
     (with_settings
        (VObj (completed (object_of _options)
                         (own_props (builtin_settings bookPath)))) r))
    as (m & Hrun & Hm); [reflexivity|done|done|].
  exists m. split; [|exact Hm].
  unfold init, bind at 1. unfold init_settings, bind at 1.
  rewrite (js_or_object _ Ho), defaults_object. unfold lift.
  unfold bind at 1. unfold update at 1.
  unfold apply_query, bind at 1. unfold read at 1.
  change (search (with_settings _ r)) with (search r).
  unfold query_parameters in Hq.
  destruct (truthy (VStr (search r))); [|by destruct ps1].
  by rewrite Hq, Hrun.
Qed.

(** X20: [init] stays on the page.  Whether it returns or throws, it has
    not written to the storage, pushed on the history, or touched the
    query string, the URL fragment, the key lock or the current position:
    it changes at most the settings, the book and the calls made on the
    collaborators. *)
Theorem init_stays_on_the_page bookPath _options r :
  same_page r (snd (init md5 JSON_parse bookPath _options r)).
Proof.
  revert r. change (stays (init md5 JSON_parse bookPath _options)).
  unfold init.
  apply stays_bind; [apply stays_init_settings|]. intros _.
  apply stays_bind; [apply stays_setting|]. intros path.
  apply stays_bind; [apply stays_setBookKey|]. intros _.
  apply stays_bind; [apply stays_restore_saved|]. intros _.
  staying; first [apply stays_setting|apply stays_set_setting].
Qed.

End Initialisation.

(** * The further properties on the sample runs *)

Lemma defaults_on_missing_target_witness :
  (VNull = VUndefined ∨ VNull = VNull)
  ∧ defaults VNull [VObj ∅; VObj {[ "language" := VStr "en" ]}]
    = Throw TypeError.
Proof.
  split; [right; reflexivity|].
  apply (defaults_on_missing_target VNull _ (or_intror eq_refl)).
  apply Exists_cons_tl, Exists_cons_hd.
  cbn [own_props]. apply map_non_empty_singleton.
Defined.

Lemma applySavedSettings_fills_gaps_witness :
  settings sample_saved_reader = VObj sample_settings
  ∧ object_or_falsy (get sample_settings "styles") = true
  ∧ localStorage sample_saved_reader
    = Some {[ "epubjs-reader:moby" := "<saved record>" ]}
  ∧ ({[ "epubjs-reader:moby" := "<saved record>" ]} : gmap string string)
      !! to_string (get sample_settings "bookKey") = Some "<saved record>"
  ∧ sample_parse "<saved record>" = Some sample_record
  ∧ truthy sample_record = true
  ∧ ∃ m',
      applySavedSettings sample_parse sample_saved_reader
      = (Ok true, with_settings (VObj m') sample_saved_reader)
      ∧ m' !! "bookmarks" = Some (VArr [VStr "epubcfi(/6/8!/4/2/1:0)"])
      ∧ m' !! "restore" = Some (VBool true)
      ∧ m' !! "toString" = None.
Proof.
  assert (H1 : object_or_falsy (get sample_settings "styles") = true)
    by (vm_compute; reflexivity).
  assert (H2 : ({[ "epubjs-reader:moby" := "<saved record>" ]}
                  : gmap string string)
                 !! to_string (get sample_settings "bookKey")
               = Some "<saved record>")
    by (vm_compute; reflexivity).
  assert (H3 : sample_parse "<saved record>" = Some sample_record)
    by (vm_compute; reflexivity).
  split; [reflexivity|]. split; [exact H1|]. split; [reflexivity|].
  split; [exact H2|]. split; [exact H3|]. split; [reflexivity|].
  destruct (applySavedSettings_fills_gaps sample_parse sample_saved_reader
              sample_settings _ _ sample_record eq_refl H1 eq_refl H2 H3
              eq_refl)
    as (m' & Hrun & Hk & _).
  exists m'. split; [exact Hrun|].
  assert (B : "bookmarks" ≠ "styles") by discriminate.
  assert (R : "restore" ≠ "styles") by discriminate.
  assert (T : "toString" ≠ "styles") by discriminate.
  pose proof (Hk "bookmarks" B) as Hb. closed_rhs Hb.
  pose proof (Hk "restore" R) as Hr. closed_rhs Hr.
  pose proof (Hk "toString" T) as Ht. closed_rhs Ht.
  split; [exact Hb|]. split; [exact Hr|exact Ht].
Defined.

Lemma sample_captures :
  captures sample_reader sample_settings
    (<["previousLocationCfi" := sample_cfi]> sample_settings).
Proof.
  apply (captures_start _ _ (VObj {[ "cfi" := sample_cfi ]}));
    vm_compute; reflexivity.
Defined.

Lemma saved_settings_are_found_witness :
  settings sample_reader = VObj sample_settings
  ∧ captures sample_reader sample_settings
      (<["previousLocationCfi" := sample_cfi]> sample_settings)
  ∧ localStorage sample_reader
    = Some {[ "epubjs-reader:moby" := "{corrupted" ]}
  ∧ ∃ r1,
      saveSettings sample_stringify sample_reader = (Ok true, r1)
      ∧ isSaved r1 = (Ok true, r1)
      ∧ stored_item r1 (to_string (get sample_settings "bookKey"))
        = Some (sample_stringify
                  (VObj (<["previousLocationCfi" := sample_cfi]>
                           sample_settings)))
      ∧ settings r1
        = VObj (<["previousLocationCfi" := sample_cfi]> sample_settings).
Proof.
  split; [reflexivity|]. split; [exact sample_captures|].
  split; [reflexivity|].
  exact (saved_settings_are_found sample_stringify sample_reader
           sample_settings _ _ eq_refl sample_captures eq_refl).
Defined.

Lemma removeSavedSettings_removes_the_record_witness :
  settings sample_reader = VObj sample_settings
  ∧ is_Some (stored_item sample_reader
               (to_string (get sample_settings "bookKey")))
  ∧ ∃ r1,
      removeSavedSettings sample_reader = (Ok true, r1)
      ∧ isSaved r1 = (Ok false, r1)
      ∧ removeSavedSettings r1 = (Ok false, r1)
      ∧ settings r1 = settings sample_reader
      ∧ ∀ k, k ≠ to_string (get sample_settings "bookKey") →
             stored_item r1 k = stored_item sample_reader k.
Proof.
  assert (H : is_Some (stored_item sample_reader
                         (to_string (get sample_settings "bookKey")))).
  { exists "{corrupted". vm_compute. reflexivity. }
  split; [reflexivity|]. split; [exact H|].
  exact (proj1 (removeSavedSettings_removes_the_record sample_reader
                  sample_settings eq_refl) H).
Defined.

Lemma sample_restored_captures :
  captures sample_restored_reader sample_restored_settings
    (<["previousLocationCfi" := sample_cfi]> sample_restored_settings).
Proof.
  apply (captures_start _ _ (VObj {[ "cfi" := sample_cfi ]}));
    vm_compute; reflexivity.
Defined.

Lemma restoring_what_was_saved_changes_nothing_witness :
  settings sample_restored_reader = VObj sample_restored_settings
  ∧ captures sample_restored_reader sample_restored_settings
      (<["previousLocationCfi" := sample_cfi]> sample_restored_settings)
  ∧ object_or_falsy (get sample_restored_settings "styles") = true
  ∧ localStorage sample_restored_reader
    = Some {[ "epubjs-reader:moby" := "{corrupted" ]}
  ∧ sample_parse
      (sample_stringify
         (VObj (<["previousLocationCfi" := sample_cfi]>
                  sample_restored_settings)))
    = Some (VObj {[ "styles" := VObj {[ "fontSize" := VStr "120%" ]};
                    "bookmarks" := VArr [VStr "epubcfi(/6/8!/4/2/1:0)"] ]})
  ∧ ({[ "styles" := VObj {[ "fontSize" := VStr "120%" ]};
        "bookmarks" := VArr [VStr "epubcfi(/6/8!/4/2/1:0)"] ]}
       : gmap string value)
      ⊆ <["previousLocationCfi" := sample_cfi]> sample_restored_settings
  ∧ ∃ r1,
      saveSettings sample_stringify sample_restored_reader = (Ok true, r1)
      ∧ applySavedSettings sample_parse r1 = (Ok true, r1).
Proof.
  assert (H1 : object_or_falsy (get sample_restored_settings "styles") = true)
    by (vm_compute; reflexivity).
  assert (H2 : sample_parse
                 (sample_stringify
                    (VObj (<["previousLocationCfi" := sample_cfi]>
                             sample_restored_settings)))
               = Some (VObj {[ "styles" := VObj {[ "fontSize" := VStr "120%" ]};
                               "bookmarks" :=
                                 VArr [VStr "epubcfi(/6/8!/4/2/1:0)"] ]}))
    by (vm_compute; reflexivity).
  assert (H3 : ({[ "styles" := VObj {[ "fontSize" := VStr "120%" ]};
                   "bookmarks" := VArr [VStr "epubcfi(/6/8!/4/2/1:0)"] ]}
                  : gmap string value)
                 ⊆ <["previousLocationCfi" := sample_cfi]>
                     sample_restored_settings).
  { apply insert_subseteq_l; [vm_compute; reflexivity|].
    apply map_singleton_subseteq_l. vm_compute. reflexivity. }
  split; [reflexivity|]. split; [exact sample_restored_captures|].
  split; [exact H1|]. split; [reflexivity|]. split; [exact H2|].
  split; [exact H3|].
  exact (restoring_what_was_saved_changes_nothing sample_parse
           sample_stringify sample_restored_reader sample_restored_settings
           _ _ _ eq_refl sample_restored_captures H1 eq_refl H2 H3).
Defined.

Lemma saveSettings_without_location_throws_witness :
  settings sample_reader_not_rendered = VObj sample_settings
  ∧ truthy (book sample_reader_not_rendered) = true
  ∧ (renditionLocation sample_reader_not_rendered = VUndefined
     ∨ renditionLocation sample_reader_not_rendered = VNull)
  ∧ saveSettings sample_stringify sample_reader_not_rendered
    = (Throw TypeError, sample_reader_not_rendered)
  ∧ (truthy (get sample_settings "restore") = true →
     is_Some (localStorage sample_reader_not_rendered) →
     unload sample_stringify sample_reader_not_rendered
     = (Throw TypeError, sample_reader_not_rendered)).
Proof.
  split; [reflexivity|]. split; [reflexivity|].
  split; [left; reflexivity|].
  exact (saveSettings_without_location_throws sample_stringify
           sample_reader_not_rendered sample_settings
           eq_refl eq_refl (or_introl eq_refl)).
Defined.

Lemma unload_twice_is_unload_once_witness :
  settings sample_reader = VObj sample_settings
  ∧ fst (unload sample_stringify sample_reader) = Ok tt
  ∧ localStorage (snd (unload sample_stringify sample_reader))
    = Some {[ "epubjs-reader:moby" := "<saved record>" ]}
  ∧ unload sample_stringify (snd (unload sample_stringify sample_reader))
    = unload sample_stringify sample_reader.
Proof.
  split; [reflexivity|]. split; [vm_compute; reflexivity|].
  split; [vm_compute; reflexivity|].
  exact (proj1 (unload_twice_is_unload_once sample_stringify sample_reader
                  sample_settings eq_refl)).
Defined.

Lemma pushed_position_is_displayed_back_witness :
  settings sample_reader = VObj sample_settings
  ∧ truthy (get sample_settings "history") = true
  ∧ hash_after_push (fragment_of (VStr "epubcfi(/6/4!/4/2/1:0)"))
    = fragment_of (VStr "epubcfi(/6/4!/4/2/1:0)")
  ∧ ∃ r1,
      setLocation (VStr "epubcfi(/6/4!/4/2/1:0)") sample_reader = (Ok tt, r1)
      ∧ locationHash r1 = fragment_of (VStr "epubcfi(/6/4!/4/2/1:0)")
      ∧ hashChanged r1
        = (Ok tt, with_effect (Display (VStr "epubcfi(/6/4!/4/2/1:0)")) r1).
Proof.
  assert (H1 : truthy (get sample_settings "history") = true)
    by (vm_compute; reflexivity).
  assert (H2 : hash_after_push (fragment_of (VStr "epubcfi(/6/4!/4/2/1:0)"))
               = fragment_of (VStr "epubcfi(/6/4!/4/2/1:0)"))
    by (vm_compute; reflexivity).
  split; [reflexivity|]. split; [exact H1|]. split; [exact H2|].
  exact (pushed_position_is_displayed_back sample_reader sample_settings
           _ eq_refl H1 H2).
Defined.


Lemma font_size_steps_by_two_witness :
  settings sample_reader = VObj sample_settings
  ∧ get sample_settings "styles" = VObj sample_styles
  ∧ get sample_styles "fontSize" = VStr (pretty 100%Z ++ "%")
  ∧ arrowKeys (ctrl_key "=") sample_reader
    = (Ok tt, with_fontSize "102%" sample_settings sample_styles
                (with_effect (ThemesFontSize "102%")
                   (with_effect PreventDefault sample_reader)))
  ∧ arrowKeys (ctrl_key "-") sample_reader
    = (Ok tt, with_fontSize "98%" sample_settings sample_styles
                (with_effect (ThemesFontSize "98%")
                   (with_effect PreventDefault sample_reader)))
  ∧ settings (snd (arrowKeys (ctrl_key "-")
                     (snd (arrowKeys (ctrl_key "=") sample_reader))))
    = settings sample_reader.
Proof.
  assert (H1 : get sample_settings "styles" = VObj sample_styles)
    by (vm_compute; reflexivity).
  assert (H2 : get sample_styles "fontSize" = VStr (pretty 100%Z ++ "%"))
    by (vm_compute; reflexivity).
  assert (H3 : (Z.abs 100 + 2 <= max_safe_integer)%Z)
    by (unfold max_safe_integer; lia).
  split; [reflexivity|]. split; [exact H1|]. split; [exact H2|].
  destruct (font_size_steps_by_two sample_reader sample_settings sample_styles
              (ctrl_key "=") (ctrl_key "-") 100%Z
              eq_refl H1 H2 eq_refl eq_refl eq_refl eq_refl)
    as (more & less & _ & _ & Hup & Hdown & Hsafe).
  destruct (Hsafe H3) as (-> & -> & Hback).
  split; [exact Hup|]. split; [exact Hdown|exact Hback].
Defined.

(** Past the safe integers the steps are those of the doubles: from
    [9007199254740993%], which reads as 2^53, the key [=] stores
    [9007199254740994%]; the size 10^20 - 1 reads as 10^20 and two more
    do not move it; and a size written with an exponent reads as its
    first digit. *)
Example font_size_past_the_safe_integers :
  let size_after (size : string) (k : string) :=
    get (object_of
           (get (object_of
                   (settings
                      (snd (arrowKeys (ctrl_key k)
                              (with_fontSize size sample_settings
                                 sample_styles sample_reader)))))
              "styles"))
      "fontSize" in
  size_after "9007199254740993%" "=" = VStr "9007199254740994%"
  ∧ size_after "9007199254740993%" "-" = VStr "9007199254740990%"
  ∧ size_after "99999999999999999999%" "=" = VStr "100000000000000000000%"
  ∧ size_after "1e+21%" "=" = VStr "3%".
Proof. repeat split; vm_compute; reflexivity. Qed.

Lemma unreadable_font_size_becomes_NaN_witness :
  settings sample_keyword_reader = VObj sample_keyword_settings
  ∧ get sample_keyword_settings "styles" = VObj sample_keyword_styles
  ∧ ctrlKey (ctrl_key "=") || metaKey (ctrl_key "=") = true
  ∧ get sample_keyword_styles "fontSize" = VStr "large"
  ∧ parseInt (slice_to_last "large") = VNaN
  ∧ (key (ctrl_key "=") = "=" ∨ key (ctrl_key "=") = "-")
  ∧ arrowKeys (ctrl_key "=") sample_keyword_reader =
      (Ok tt, with_fontSize "NaN%" sample_keyword_settings
                sample_keyword_styles
                (with_effect (ThemesFontSize "NaN%")
                   (with_effect PreventDefault sample_keyword_reader)))
  ∧ parseInt (slice_to_last "NaN%") = VNaN.
Proof.
  assert (H1 : get sample_keyword_settings "styles"
               = VObj sample_keyword_styles)
    by (vm_compute; reflexivity).
  assert (H2 : get sample_keyword_styles "fontSize" = VStr "large")
    by (vm_compute; reflexivity).
  assert (H3 : parseInt (slice_to_last "large") = VNaN)
    by (vm_compute; reflexivity).
  split; [reflexivity|]. split; [exact H1|]. split; [reflexivity|].
  split; [exact H2|]. split; [exact H3|]. split; [left; reflexivity|].
  exact (unreadable_font_size_becomes_NaN sample_keyword_reader
           sample_keyword_settings sample_keyword_styles (ctrl_key "=")
           "large" eq_refl H1 eq_refl H2 H3 (or_introl eq_refl)).
Defined.

Lemma isBookmarked_finds_first_witness :
  settings sample_restored_reader = VObj sample_restored_settings
  ∧ get sample_restored_settings "bookmarks"
    = VArr [VStr "epubcfi(/6/8!/4/2/1:0)"]
  ∧ ∃ i : Z,
      isBookmarked (VStr "epubcfi(/6/8!/4/2/1:0)") sample_restored_reader
      = (Ok i, sample_restored_reader)
      ∧ (-1 <= i
         < Z.of_nat (List.length [VStr "epubcfi(/6/8!/4/2/1:0)"]))%Z
      ∧ (i = (-1)%Z
         ↔ VStr "epubcfi(/6/8!/4/2/1:0)" ∉ [VStr "epubcfi(/6/8!/4/2/1:0)"])
      ∧ ((0 <= i)%Z →
         [VStr "epubcfi(/6/8!/4/2/1:0)"] !! Z.to_nat i
         = Some (VStr "epubcfi(/6/8!/4/2/1:0)")
         ∧ ∀ k : nat, (k < Z.to_nat i)%nat →
             [VStr "epubcfi(/6/8!/4/2/1:0)"] !! k
             ≠ Some (VStr "epubcfi(/6/8!/4/2/1:0)")).
Proof.
  assert (H : get sample_restored_settings "bookmarks"
              = VArr [VStr "epubcfi(/6/8!/4/2/1:0)"])
    by (vm_compute; reflexivity).
  split; [reflexivity|]. split; [exact H|].
  exact (isBookmarked_finds_first sample_restored_reader
           sample_restored_settings _ _ eq_refl H).
Defined.

Lemma uuid_follows_template_witness :
  (∀ j, (sample_nibble j < 16)%N)
  ∧ String.length (uuid sample_nibble) = 36%nat
  ∧ follows "xxxxxxxx-xxxx-4xxx-yxxx-xxxxxxxxxxxx" (uuid sample_nibble) = true.
Proof.
  assert (H : ∀ j, (sample_nibble j < 16)%N).
  { intros j. unfold sample_nibble. apply N.mod_lt. lia. }
  split; [exact H|].
  exact (uuid_follows_template sample_nibble H).
Defined.

Lemma defined_settings_are_kept_witness :
  settings sample_reader = VObj sample_settings
  ∧ ∃ m',
      settings (after_calls sample_md5 sample_parse sample_stringify
                  sample_calls sample_reader) = VObj m'
      ∧ ∀ k, k ≠ "styles" → k ≠ "previousLocationCfi" →
             is_undefined (get sample_settings k) = false →
             get m' k = get sample_settings k.
Proof.
  split; [reflexivity|].
  exact (defined_settings_are_kept sample_md5 sample_parse sample_stringify
           sample_calls sample_reader sample_settings eq_refl).
Defined.

Lemma other_records_are_never_touched_witness :
  settings sample_reader = VObj sample_settings
  ∧ is_undefined (get sample_settings "bookKey") = false
  ∧ (∀ k, k ≠ to_string (get sample_settings "bookKey") →
          stored_item (after_calls sample_md5 sample_parse sample_stringify
                         sample_calls sample_reader) k
          = stored_item sample_reader k)
  ∧ (is_Some (localStorage
                (after_calls sample_md5 sample_parse sample_stringify
                   sample_calls sample_reader))
     ↔ is_Some (localStorage sample_reader)).
Proof.
  assert (H : is_undefined (get sample_settings "bookKey") = false)
    by (vm_compute; reflexivity).
  split; [reflexivity|]. split; [exact H|].
  exact (other_records_are_never_touched sample_md5 sample_parse
           sample_stringify sample_calls sample_reader sample_settings
           eq_refl H).
Defined.

Lemma init_establishes_witness :
  init sample_md5 sample_parse (VStr "moby-dick.epub") VUndefined
    (fresh_reader "?restore=true" ∅)
  = (Ok tt,
     snd (init sample_md5 sample_parse (VStr "moby-dick.epub") VUndefined
            (fresh_reader "?restore=true" ∅)))
  ∧ ∃ m earlier,
      settings
        (snd (init sample_md5 sample_parse (VStr "moby-dick.epub") VUndefined
                (fresh_reader "?restore=true" ∅))) = VObj m
      ∧ is_undefined (get m "bookmarks") = false
      ∧ is_undefined (get m "annotations") = false
      ∧ truthy (get m "styles") = true
      ∧ is_undefined (get m "bookKey") = false
      ∧ book
          (snd (init sample_md5 sample_parse (VStr "moby-dick.epub")
                  VUndefined (fresh_reader "?restore=true" ∅))) = VObj ∅
      ∧ trace
          (snd (init sample_md5 sample_parse (VStr "moby-dick.epub")
                  VUndefined (fresh_reader "?restore=true" ∅))) =
          (earlier ++ [OpenBook (get m "bookPath"); RenderTo "viewer";
                       first_display m])%list.
Proof.
  assert (H : init sample_md5 sample_parse (VStr "moby-dick.epub") VUndefined
                (fresh_reader "?restore=true" ∅)
              = (Ok tt,
                 snd (init sample_md5 sample_parse (VStr "moby-dick.epub")
                        VUndefined (fresh_reader "?restore=true" ∅))))
    by (vm_compute; reflexivity).
  split; [exact H|].
  exact (init_establishes sample_md5 sample_parse _ _ _ _ H).
Defined.

Lemma init_stops_at_malformed_query_witness :
  object_or_falsy VUndefined = true
  ∧ query_parameters
      (search (fresh_reader "?title=%E2%82%AC&__proto__=x&cfi=%zz" ∅))
    = (["title=%E2%82%AC"; "__proto__=x"] ++ "cfi=%zz" :: [])%list
  ∧ Forall decodes ["title=%E2%82%AC"; "__proto__=x"]
  ∧ ¬ decodes "cfi=%zz"
  ∧ ∃ m,
      init sample_md5 sample_parse (VStr "moby-dick.epub") VUndefined
        (fresh_reader "?title=%E2%82%AC&__proto__=x&cfi=%zz" ∅)
      = (Throw URIError,
         with_settings (VObj m)
           (fresh_reader "?title=%E2%82%AC&__proto__=x&cfi=%zz" ∅))
      ∧ get m "title" = VStr (unit_text 8364)
      ∧ m !! "__proto__" = None
      ∧ m !! "cfi" = None.
Proof.
  assert (H1 : query_parameters
                 (search (fresh_reader
                            "?title=%E2%82%AC&__proto__=x&cfi=%zz" ∅))
               = (["title=%E2%82%AC"; "__proto__=x"] ++ "cfi=%zz" :: [])%list)
    by (vm_compute; reflexivity).
  assert (H2 : Forall decodes ["title=%E2%82%AC"; "__proto__=x"]).
  { repeat (apply Forall_cons; split); [| |apply Forall_nil; exact I];
      eexists; vm_compute; reflexivity. }
  assert (H3 : ¬ decodes "cfi=%zz").
  { intros [text H]. vm_compute in H. discriminate H. }
  split; [reflexivity|]. split; [exact H1|]. split; [exact H2|].
  split; [exact H3|].
  destruct (init_stops_at_malformed_query sample_md5 sample_parse
              (VStr "moby-dick.epub") VUndefined
              (fresh_reader "?title=%E2%82%AC&__proto__=x&cfi=%zz" ∅)
              ["title=%E2%82%AC"; "__proto__=x"] "cfi=%zz" []
              eq_refl H1 H2 H3)
    as (m & Hrun & Hm).
  exists m. split; [exact Hrun|].
  pose proof (Hm "title") as Ht. pose proof (Hm "__proto__") as Hp.
  pose proof (Hm "cfi") as Hc.
  unfold assigned in Ht, Hp, Hc.
  closed_match Ht. closed_match Hp. closed_match Hc.
  destruct Ht as (t1 & E1 & Ht). destruct Hp as (t2 & E2 & Hp).
  closed_match Ht. closed_match Hp.
  vm_compute in E1. injection E1 as <-.
  closed_rhs Hc.
  split; [exact Ht|]. split; [exact Hp|exact Hc].
Defined.
